(** * Report-Maker: the report engine of [report/report.py]

    A shallow embedding of the [Report] class, of the driver [example.py]
    and of the Python built-ins they call ([str.rsplit], [str.split],
    [str.strip], [str.format], [float], [round], [repr], [random.randint],
    [random.choice]), followed by the properties of separator inference,
    alignment, price synthesis, the constructor, the report generator, the
    total calculator and the driver.

    Conventions.
    - A Python [str] is a list of characters; a character is a code point
      below 256.
    - A raised exception is the left injection of [result]; [NotModelled]
      stands for a call of [str.format] outside the embedded fragment.
    - [float] is IEEE-754 binary64, taken from the Standard Library's
      [SpecFloat] with [prec = 53] and [emax = 1024].
    - The random generator is an arbitrary sequence of raw draws
      [nat -> nat] read at a moving position. *)

From Stdlib Require Import ZArith Ascii String SpecFloat.
From stdpp Require Import base option list sorting gmap strings.

Set Default Proof Using "Type".
Open Scope list_scope.

(** ** Python values *)

Abbreviation str := (list ascii).

Definition lit (s : string) : str := list_ascii_of_string s.
Arguments lit s%_string.

Inductive exn : Type :=
| Exception (msg : str)
| IndexError
| ValueError
| KeyError (key : str)
| FileNotFoundError
| NotModelled.

Definition result (A : Type) : Type := (exn + A)%type.

Definition Ok {A} (x : A) : result A := inr x.
Definition Raise {A} (e : exn) : result A := inl e.

#[global] Instance result_ret : MRet result := fun A x => inr x.
#[global] Instance result_bind : MBind result := fun A B f m =>
  match m with
  | inl e => inl e
  | inr x => f x
  end.
#[global] Instance result_fmap : FMap result := fun A B f m =>
  match m with
  | inl e => inl e
  | inr x => inr (f x)
  end.

(** [for x in l: body(x)] where the body may raise. *)
Fixpoint for_each {A} (body : A -> result unit) (l : list A) : result unit :=
  match l with
  | [] => Ok tt
  | x :: l' => _ ← body x; for_each body l'
  end.

(** A list comprehension whose element expression may raise. *)
Fixpoint comprehension {A B} (f : A -> result B) (l : list A) : result (list B) :=
  match l with
  | [] => Ok []
  | x :: l' => y ← f x; ys ← comprehension f l'; Ok (y :: ys)
  end.

(** ** Strings *)

Module Py.

(** [str.isspace] on one character: the Unicode white space below 256. *)
Definition isspace (c : ascii) : bool :=
  let n := nat_of_ascii c in
  ((9 <=? n) && (n <=? 13)) || ((28 <=? n) && (n <=? 32))
  || (n =? 133) || (n =? 160).

Fixpoint drop_while {A} (p : A -> bool) (l : list A) : list A :=
  match l with
  | [] => []
  | x :: l' => if p x then drop_while p l' else l
  end.

Fixpoint take_while {A} (p : A -> bool) (l : list A) : list A :=
  match l with
  | [] => []
  | x :: l' => if p x then x :: take_while p l' else []
  end.

Definition nonspace (c : ascii) : bool := negb (isspace c).

(** [str.rsplit(None, maxsplit)]: CPython's [rsplit_whitespace].  The
    unconsumed part [s[0..i]] is held reversed in [r]; the pieces are consed
    in front of [acc], which is CPython's append followed by the final
    reversal.  When [maxsplit] is exhausted the rest of the string, stripped
    on the right only, is one more piece. *)
Fixpoint rsplit_ws_loop (maxcount : nat) (r : str) (acc : list str) : list str :=
  match maxcount with
  | 0 =>
      match drop_while isspace r with
      | [] => acc
      | r' => rev r' :: acc
      end
  | S k =>
      match drop_while isspace r with
      | [] => acc
      | r1 =>
          rsplit_ws_loop k (drop_while nonspace r1)
            (rev (take_while nonspace r1) :: acc)
      end
  end.

Definition rsplit_ws (s : str) (maxsplit : nat) : list str :=
  rsplit_ws_loop maxsplit (rev s) [].

(** [str.split()] with no argument: the white-space-delimited words. *)
Fixpoint split_ws_go (cur : str) (s : str) : list str :=
  match s with
  | [] => match cur with [] => [] | _ => [rev cur] end
  | c :: s' =>
      if isspace c
      then match cur with
           | [] => split_ws_go [] s'
           | _ => rev cur :: split_ws_go [] s'
           end
      else split_ws_go (c :: cur) s'
  end.

Definition split_ws (s : str) : list str := split_ws_go [] s.

(** [x in l] and [l.index(x)]. *)
Definition contains (l : list str) (x : str) : bool := bool_decide (x ∈ l).

Fixpoint index_from (x : str) (l : list str) (i : nat) : result nat :=
  match l with
  | [] => Raise ValueError
  | y :: l' => if bool_decide (y = x) then Ok i else index_from x l' (S i)
  end.

Definition index (l : list str) (x : str) : result nat := index_from x l 0.

(** [l[a:b]] for indices that are not negative. *)
Definition slice {A} (a b : nat) (l : list A) : list A := drop a (take b l).

(** [sep.join(l)]. *)
Fixpoint join (sep : str) (l : list str) : str :=
  match l with
  | [] => []
  | [x] => x
  | x :: l' => x ++ sep ++ join sep l'
  end.

(** [sorted] on integers. *)
Definition sorted (l : list nat) : list nat := merge_sort Nat.le l.

(** [s.startswith(pre)]. *)
Fixpoint startswith (s pre : str) : bool :=
  match pre, s with
  | [], _ => true
  | _ :: _, [] => false
  | p :: pre', c :: s' => Ascii.eqb c p && startswith s' pre'
  end.

(** [s.find(sub)]: the lowest index at which [sub] occurs ([None] is
    Python's [-1]). *)
Fixpoint find (sub s : str) : option nat :=
  if startswith s sub then Some 0
  else match s with
       | [] => None
       | _ :: s' => S <$> find sub s'
       end.

(** [sub in s] on strings. *)
Definition substring_in (sub s : str) : bool :=
  match find sub s with Some _ => true | None => false end.

(** [s.split(sep)]: cut at each occurrence found by a left-to-right scan
    that resumes after the occurrence.  Every cut consumes at least one
    character when [sep] is not empty, so [length s] cuts are enough; an
    empty separator is a [ValueError]. *)
Fixpoint split_fuel (fuel : nat) (sep s : str) : list str :=
  match fuel with
  | 0 => [s]
  | S n =>
      match find sep s with
      | None => [s]
      | Some i => take i s :: split_fuel n sep (drop (i + length sep) s)
      end
  end.

Definition split (s sep : str) : result (list str) :=
  match sep with
  | [] => Raise ValueError
  | _ => Ok (split_fuel (length s) sep s)
  end.

(** [s.strip()] and [s.strip(chars)]. *)
Definition strip_with (p : ascii -> bool) (s : str) : str :=
  rev (drop_while p (rev (drop_while p s))).

Definition strip (s : str) : str := strip_with isspace s.

Definition char_in (chars : str) (c : ascii) : bool :=
  existsb (Ascii.eqb c) chars.

Definition strip_chars (chars : str) (s : str) : str :=
  strip_with (char_in chars) s.

(** [str(n)] for an integer that is not negative. *)
Fixpoint uint_to_str (d : Decimal.uint) : str :=
  match d with
  | Decimal.Nil => []
  | Decimal.D0 d' => "0"%char :: uint_to_str d'
  | Decimal.D1 d' => "1"%char :: uint_to_str d'
  | Decimal.D2 d' => "2"%char :: uint_to_str d'
  | Decimal.D3 d' => "3"%char :: uint_to_str d'
  | Decimal.D4 d' => "4"%char :: uint_to_str d'
  | Decimal.D5 d' => "5"%char :: uint_to_str d'
  | Decimal.D6 d' => "6"%char :: uint_to_str d'
  | Decimal.D7 d' => "7"%char :: uint_to_str d'
  | Decimal.D8 d' => "8"%char :: uint_to_str d'
  | Decimal.D9 d' => "9"%char :: uint_to_str d'
  end.

Definition str_of_nat (n : nat) : str := uint_to_str (Nat.to_uint n).
Definition str_of_N (n : N) : str := uint_to_str (N.to_uint n).

(** Text-mode reading: universal newlines turn ["\r\n"] and ["\r"] into
    ["\n"]; [readlines] keeps the line ends. *)
Definition LF : ascii := "010"%char.
Definition CR : ascii := "013"%char.

Fixpoint universal_newlines (s : str) : str :=
  match s with
  | [] => []
  | c :: s' =>
      if Ascii.eqb c CR
      then match s' with
           | c' :: s'' =>
               if Ascii.eqb c' LF then LF :: universal_newlines s''
               else LF :: universal_newlines s'
           | [] => [LF]
           end
      else c :: universal_newlines s'
  end.

Fixpoint lines_go (cur : str) (s : str) : list str :=
  match s with
  | [] => match cur with [] => [] | _ => [rev cur] end
  | c :: s' =>
      if Ascii.eqb c LF then rev (c :: cur) :: lines_go [] s'
      else lines_go (c :: cur) s'
  end.

Definition readlines (file : str) : list str :=
  lines_go [] (universal_newlines file).

(** [str.format] called with keyword arguments [kw] that are strings.  Literal text
    is copied, ["{{"] and ["}}"] are the escaped braces, ["{name}"] is
    replaced by [kw[name]].  A brace inside a field name is a
    [ValueError]; a field that carries a conversion, a format
    specification, an attribute or an index ([!], [:], [.], [[]) is
    outside the modelled fragment and yields [NotModelled]. *)
Definition is_digit (c : ascii) : bool :=
  let n := nat_of_ascii c in (48 <=? n) && (n <=? 57).

(** The first character of a field name that is not part of a plain
    name. *)
Fixpoint field_special (name : str) : option ascii :=
  match name with
  | [] => None
  | c :: name' =>
      if char_in (lit "{!:.[") c then Some c else field_special name'
  end.

Definition format_field (kw : gmap str str) (name : str) : result str :=
  match field_special name with
  | Some c => if Ascii.eqb c "{" then Raise ValueError else Raise NotModelled
  | None =>
      if forallb is_digit name then Raise IndexError
      else match kw !! name with
           | Some v => Ok v
           | None => Raise (KeyError name)
           end
  end.

Fixpoint format_go (kw : gmap str str) (field : option str) (s : str)
  : result str :=
  match s with
  | [] =>
      match field with
      | None => Ok []
      | Some _ => Raise ValueError
      end
  | c :: s' =>
      match field with
      | Some name_rev =>
          if Ascii.eqb c "}"%char
          then v ← format_field kw (rev name_rev);
               rest ← format_go kw None s';
               Ok (v ++ rest)
          else format_go kw (Some (c :: name_rev)) s'
      | None =>
          if Ascii.eqb c "{"%char then
            match s' with
            | c' :: s'' =>
                if Ascii.eqb c' "{"%char
                then rest ← format_go kw None s''; Ok (c :: rest)
                else format_go kw (Some []) s'
            | [] => Raise ValueError
            end
          else if Ascii.eqb c "}"%char then
            match s' with
            | c' :: s'' =>
                if Ascii.eqb c' "}"%char
                then rest ← format_go kw None s''; Ok (c :: rest)
                else Raise ValueError
            | [] => Raise ValueError
            end
          else rest ← format_go kw None s'; Ok (c :: rest)
      end
  end.

Definition format (s : str) (kw : gmap str str) : result str :=
  format_go kw None s.

End Py.

(** ** Floating point *)

Module Float.

Abbreviation float := spec_float.

Definition prec : Z := 53.
Definition emax : Z := 1024.

Definition zero : float := S754_zero false.

Definition add (x y : float) : float := SFadd prec emax x y.

Definition eqb (x y : float) : bool :=
  match x, y with
  | S754_zero s1, S754_zero s2 => Bool.eqb s1 s2
  | S754_infinity s1, S754_infinity s2 => Bool.eqb s1 s2
  | S754_nan, S754_nan => true
  | S754_finite s1 m1 e1, S754_finite s2 m2 e2 =>
      Bool.eqb s1 s2 && Pos.eqb m1 m2 && Z.eqb e1 e2
  | _, _ => false
  end.

(** The binary64 number nearest to [(-1)^neg * m * 10^e10] (ties to even):
    what a correctly rounded [strtod] returns for that decimal. *)
Definition of_decimal (neg : bool) (m : N) (e10 : Z) : float :=
  match m with
  | N0 => S754_zero neg
  | Npos p =>
      if (0 <=? e10)%Z
      then binary_normalize prec emax (cond_Zopp neg (Zpos p * 10 ^ e10)) 0 neg
      else SFdiv prec emax (S754_finite neg p 0)
             (S754_finite false (Z.to_pos (10 ^ (- e10))) 0)
  end.

(** *** [float(s)] *)

(** White space as [float] sees it: [Py_ISSPACE] on ASCII, after the
    non-ASCII white space has been turned into a blank. *)
Definition isspace (c : ascii) : bool :=
  let n := nat_of_ascii c in
  ((9 <=? n) && (n <=? 13)) || (n =? 32) || (n =? 133) || (n =? 160).

(** Underscores are allowed between two digits only, and are dropped. *)
Fixpoint strip_underscores (prev : ascii) (s : str) : option str :=
  match s with
  | [] => if Ascii.eqb prev "_" then None else Some []
  | c :: s' =>
      if Ascii.eqb c "_"
      then if Py.is_digit prev then strip_underscores c s' else None
      else if Ascii.eqb prev "_" && negb (Py.is_digit c) then None
      else cons c <$> strip_underscores c s'
  end.

Definition digit_value (c : ascii) : N := N.of_nat (nat_of_ascii c - 48).

(** The longest run of digits in front of [s]: its value on top of [acc],
    the number of digits read, and what follows. *)
Fixpoint take_digits (s : str) (acc : N) (count : nat) : N * nat * str :=
  match s with
  | c :: s' =>
      if Py.is_digit c
      then take_digits s' (acc * 10 + digit_value c) (S count)
      else (acc, count, s)
  | [] => (acc, count, [])
  end.

Definition lower (c : ascii) : ascii :=
  let n := nat_of_ascii c in
  if (65 <=? n) && (n <=? 90) then ascii_of_nat (n + 32) else c.

Inductive literal : Type :=
| LNan
| LInf
| LDec (m : N) (e10 : Z).

Definition parse_sign (s : str) : bool * str :=
  match s with
  | c :: s' =>
      if Ascii.eqb c "-" then (true, s')
      else if Ascii.eqb c "+" then (false, s')
      else (false, s)
  | [] => (false, [])
  end.

(** [digits [. digits] [(e|E) [sign] digits]] with a digit on at least one
    side of the point, to the end of the string. *)
Definition parse_decimal (s : str) : option literal :=
  let '(ip, ni, r1) := take_digits s 0 0 in
  let '(m, nf, r2) :=
    match r1 with
    | c :: r => if Ascii.eqb c "." then take_digits r ip 0 else (ip, 0, r1)
    | [] => (ip, 0, r1)
    end in
  if (ni + nf =? 0) then None
  else match r2 with
       | [] => Some (LDec m (- Z.of_nat nf))
       | c :: r3 =>
           if Ascii.eqb (lower c) "e" then
             let '(eneg, r4) := parse_sign r3 in
             let '(ev, ne, r5) := take_digits r4 0 0 in
             if (ne =? 0) then None
             else match r5 with
                  | [] => Some (LDec m (cond_Zopp eneg (Z.of_N ev) - Z.of_nat nf))
                  | _ :: _ => None
                  end
           else None
       end.

Definition parse_inf_or_nan (s : str) : option literal :=
  let l := map lower s in
  if bool_decide (l = lit "inf") || bool_decide (l = lit "infinity") then Some LInf
  else if bool_decide (l = lit "nan") then Some LNan
  else None.

Definition parse (s : str) : option (bool * literal) :=
  s1 ← strip_underscores "000" s;
  let '(neg, body) := parse_sign (Py.strip_with isspace s1) in
  match parse_decimal body with
  | Some l => Some (neg, l)
  | None => pair neg <$> parse_inf_or_nan body
  end.

Definition of_literal (neg : bool) (l : literal) : float :=
  match l with
  | LNan => S754_nan
  | LInf => S754_infinity neg
  | LDec m e10 => of_decimal neg m e10
  end.

Definition of_str (s : str) : result float :=
  match parse s with
  | Some (neg, l) => Ok (of_literal neg l)
  | None => Raise ValueError
  end.

(** *** [round(x, ndigits)] for [ndigits >= 0] *)

Definition div_half_even (n d : Z) : Z :=
  let q := (n / d)%Z in
  match (2 * (n mod d) ?= d)%Z with
  | Lt => q
  | Gt => (q + 1)%Z
  | Eq => if Z.even q then q else (q + 1)%Z
  end.

(** CPython prints [x] with [ndigits] decimals, correctly rounded with ties
    to even on the exact binary value, and reads the digits back. *)
Definition round (x : float) (ndigits : nat) : float :=
  match x with
  | S754_finite s m e =>
      let num := (Zpos m * 10 ^ Z.of_nat ndigits * 2 ^ Z.max e 0)%Z in
      let den := (2 ^ Z.max (- e) 0)%Z in
      of_decimal s (Z.to_N (div_half_even num den)) (- Z.of_nat ndigits)
  | _ => x
  end.

(** *** [repr(x)] *)

(** [x >= 10^k] for [x = num / den]. *)
Definition ge_pow10 (num den k : Z) : bool :=
  if (0 <=? k)%Z then (den * 10 ^ k <=? num)%Z
  else (den <=? num * 10 ^ (- k))%Z.

Fixpoint decpt_up (fuel : nat) (num den p : Z) : Z :=
  match fuel with
  | 0 => p
  | S f => if ge_pow10 num den p then decpt_up f num den (p + 1) else p
  end.

Fixpoint decpt_down (fuel : nat) (num den p : Z) : Z :=
  match fuel with
  | 0 => p
  | S f => if ge_pow10 num den (p - 1) then p else decpt_down f num den (p - 1)
  end.

(** The [p] with [10^(p-1) <= num/den < 10^p]; binary64 lies within
    [10^-324, 10^309]. *)
Definition decpt (num den : Z) : Z :=
  if ge_pow10 num den 0 then decpt_up 400 num den 1
  else decpt_down 400 num den 0.

Fixpoint rstrip_zeros_rev (r : str) : str :=
  match r with
  | c :: r' => if Ascii.eqb c "0" then rstrip_zeros_rev r' else r
  | [] => []
  end.

(** The shortest digit string that reads back as [x], searched by
    increasing length; among the two [n]-digit decimals around [x] the
    nearer one that reads back is taken.  Seventeen digits always do. *)
Fixpoint shortest (fuel : nat) (n : Z) (x : float) (num den p : Z) : str * Z :=
  let snum := (num * 10 ^ Z.max (n - p) 0)%Z in
  let sden := (den * 10 ^ Z.max (p - n) 0)%Z in
  let lo := (snum / sden)%Z in
  let r := (snum mod sden)%Z in
  let hi := (lo + 1)%Z in
  let reads c := eqb (of_decimal false (Z.to_N c) (p - n)) x in
  let out c :=
    let ds := Py.str_of_N (Z.to_N c) in
    (rev (rstrip_zeros_rev (rev ds)), (p + (Z.of_nat (length ds) - n))%Z) in
  let nearest :=
    match (2 * r ?= sden)%Z with
    | Lt => lo
    | Gt => hi
    | Eq => if Z.even lo then lo else hi
    end in
  match fuel with
  | 0 => out nearest
  | S f =>
      if (r =? 0)%Z then out lo
      else match reads lo, reads hi with
           | true, true => out nearest
           | true, false => out lo
           | false, true => out hi
           | false, false => shortest f (n + 1)%Z x num den p
           end
  end.

Definition exponent_str (e : Z) : str :=
  let ds := Py.str_of_N (Z.abs_N e) in
  (if (e <? 0)%Z then lit "-" else lit "+")
  ++ (if (length ds <? 2) then lit "0" ++ ds else ds).

(** [format_float_short] for the ['r'] format code with [Py_DTSF_ADD_DOT_0]. *)
Definition layout (digits : str) (p : Z) : str :=
  let n := Z.of_nat (length digits) in
  if (p <=? -4)%Z || (16 <? p)%Z then
    take 1 digits
    ++ (match drop 1 digits with [] => [] | more => lit "." ++ more end)
    ++ lit "e" ++ exponent_str (p - 1)
  else if (p <=? 0)%Z then
    lit "0." ++ replicate (Z.to_nat (- p)) "0"%char ++ digits
  else if (n <=? p)%Z then
    digits ++ replicate (Z.to_nat (p - n)) "0"%char ++ lit ".0"
  else
    take (Z.to_nat p) digits ++ lit "." ++ drop (Z.to_nat p) digits.

Definition repr (x : float) : str :=
  match x with
  | S754_nan => lit "nan"
  | S754_infinity s => if s then lit "-inf" else lit "inf"
  | S754_zero s => if s then lit "-0.0" else lit "0.0"
  | S754_finite s m e =>
      let num := (Zpos m * 2 ^ Z.max e 0)%Z in
      let den := (2 ^ Z.max (- e) 0)%Z in
      let '(digits, p) :=
        shortest 16 1 (S754_finite false m e) num den (decpt num den) in
      (if s then lit "-" else []) ++ layout digits p
  end.

End Float.

(** ** Separator inference *)

Definition words_to_search : list str := [lit "{item}"; lit "{price}"].

Definition missing_keyword_error : exn :=
  Exception (lit "Keywords " ++ Py.join (lit ", ") words_to_search
             ++ lit " and are required in the template.").

Definition _get_separators (item_fmt : str) : result (list str) :=
  let item_fmt_words := Py.rsplit_ws item_fmt 2 in
  _ ← for_each (fun word =>
        if negb (Py.contains item_fmt_words word)
        then Raise missing_keyword_error
        else Ok tt) words_to_search;
  indexes ← comprehension (Py.index item_fmt_words) words_to_search;
  match Py.sorted indexes with
  | i0 :: i1 :: _ => Ok (Py.slice (i0 + 1) i1 item_fmt_words)
  | _ => Raise IndexError
  end.

(** ** Random numbers

    The generator state is an arbitrary sequence of raw draws and a
    position in it.  [randint a b] maps a raw draw onto [[a, b]]; every
    value of the interval is reached by some sequence. *)

Record rstate : Type := { draws : nat -> nat; pos : nat }.

Definition rand (A : Type) : Type := rstate -> result A * rstate.

#[global] Instance rand_ret : MRet rand := fun A x st => (Ok x, st).
#[global] Instance rand_bind : MBind rand := fun A B f m st =>
  match m st with
  | (inl e, st') => (inl e, st')
  | (inr x, st') => f x st'
  end.

Definition lift {A} (r : result A) : rand A := fun st => (r, st).

Definition next : rand nat := fun st =>
  (Ok (draws st (pos st)), {| draws := draws st; pos := S (pos st) |}).

Definition randint (a b : nat) : rand nat :=
  r ← next; mret (a + r mod (b - a + 1)).

Definition choice {A} (l : list A) : rand A :=
  match l with
  | [] => lift (Raise IndexError)
  | x :: _ => r ← next; mret (nth (r mod length l) l x)
  end.

(** [[m for _ in range(n)]]. *)
Fixpoint repeat_rand {A} (n : nat) (m : rand A) : rand (list A) :=
  match n with
  | 0 => mret []
  | S k => x ← m; xs ← repeat_rand k m; mret (x :: xs)
  end.

(** ** The report engine *)

(** A [dict] whose iteration order matters is an association list in
    insertion order. *)
Fixpoint dict_get {V} (d : list (str * V)) (k : str) : result V :=
  match d with
  | [] => Raise (KeyError k)
  | (k', v) :: d' => if bool_decide (k' = k) then Ok v else dict_get d' k
  end.

Record Report : Type := {
  inventory : list (str * list str);
  entries : Z;
  _auto_align : bool;
  _item_fmt : str;
  _template : list str
}.

(** [d.pop(k, default)]: the value returned and the dictionary left. *)
Definition dict_pop (k : str) (dflt : list str) (d : gmap str (list str))
  : list str * gmap str (list str) :=
  (default dflt (d !! k), delete k d).

(** The constructor.  [default_inventory] and [default_template] are the
    contents of the two data files next to the module.  The second
    component is the caller's dictionary object as the call leaves it: an
    empty argument is replaced by a freshly loaded one and stays as it is,
    any other argument is the very object the three [pop]s work on. *)
Definition __init__ (default_inventory : gmap str (list str))
    (default_template : str)
    (inventory : gmap str (list str)) (entries : Z)
  : Report * gmap str (list str) :=
  let loaded := bool_decide (inventory = ∅) in
  let d0 := if loaded then default_inventory else inventory in
  let '(cheap, d1) := dict_pop (lit "$") [lit "_Default$Item"] d0 in
  let '(medium, d2) := dict_pop (lit "$$") [lit "_Default$$Item"] d1 in
  let '(expensive, d3) := dict_pop (lit "$$$") [lit "_Default$$$Item"] d2 in
  ({| inventory := [(lit "$", cheap); (lit "$$", medium); (lit "$$$", expensive)];
      entries := entries;
      _auto_align := true;
      _item_fmt := lit "{item} = {price}";
      _template := map Py.strip (Py.readlines default_template) |},
   if loaded then inventory else d3).

Definition _cents : rand str :=
  n ← randint 0 99;
  let cents := Py.str_of_nat n in
  mret (if length cents =? 2 then cents else lit "0" ++ cents).

Definition _price (key : str) : rand str :=
  cheap ← randint 1 4;
  medium ← randint 5 9;
  expensive ← randint 10 25;
  let prices := [(lit "$", Py.str_of_nat cheap);
                 (lit "$$", Py.str_of_nat medium);
                 (lit "$$$", Py.str_of_nat expensive)] in
  dollar ← lift (dict_get prices key);
  cents ← _cents;
  mret (lit "$" ++ dollar ++ lit "." ++ cents).

Record pick : Type := { item : str; price : str }.

(** Two digits, zero-padded: the rendering of cents the price notation
    asks for. *)
Definition two_digits (c : nat) : str :=
  [ascii_of_nat (48 + c / 10); ascii_of_nat (48 + c mod 10)].

Definition kwargs (p : pick) : gmap str str :=
  {[ lit "item" := item p; lit "price" := price p ]}.

Definition _random_item_and_price (self : Report) : rand pick :=
  _key ← choice (map fst (inventory self));
  items ← lift (dict_get (inventory self) _key);
  it ← choice items;
  pr ← _price _key;
  mret {| item := it; price := pr |}.

Definition last_item (l : list str) : result str :=
  match last l with
  | Some x => Ok x
  | None => Raise IndexError
  end.

Definition unpack2 (l : list str) : result (str * str) :=
  match l with
  | [a; b] => Ok (a, b)
  | _ => Raise ValueError
  end.

(** [max(items, key=len)]: the first item of greatest length. *)
Definition max_by_len (items : list str) : result str :=
  match items with
  | [] => Raise ValueError
  | x :: l =>
      Ok (fold_left (fun best y => if length best <? length y then y else best) l x)
  end.

Definition getitem (l : list str) (i : nat) : result str :=
  match l !! i with
  | Some x => Ok x
  | None => Raise IndexError
  end.

Definition enumerate {A} (l : list A) : list (nat * A) :=
  zip (seq 0 (length l)) l.

(** The body of the [for] loop of [_align_separator]. *)
Definition align_entry (separator : str) (items : list str)
    (ie : nat * list str) : result str :=
  let '(index, e) := ie in
  '(it, pr) ← unpack2 e;
  longest ← length <$> max_by_len items;
  current ← length <$> getitem items index;
  let spaces := replicate (longest - current) " "%char in
  Ok (it ++ spaces ++ separator ++ pr).

Definition _align_separator (self : Report) (_entries : list str)
  : result (list str) :=
  seps ← _get_separators (_item_fmt self);
  separator ← last_item seps;
  entries ← comprehension (fun entry => Py.split entry separator) _entries;
  items ← comprehension (fun e => fst <$> unpack2 e) entries;
  comprehension (align_entry separator items) (enumerate entries).

(** Everything [generate_report] computes before it opens the output file:
    the skeleton and the fields it is formatted with.  [now] is the text of
    [datetime.now()]. *)
Definition report_fields (self : Report) (now : str) (fmt : gmap str str)
  : rand (str * gmap str str) :=
  picks ← repeat_rand (Z.to_nat (entries self)) (_random_item_and_price self);
  entries ← lift (comprehension (fun p => Py.format (_item_fmt self) (kwargs p)) picks);
  entries ← (if _auto_align self then lift (_align_separator self entries)
             else mret entries);
  let fmt := <[lit "report" := Py.join [Py.LF] entries]> fmt in
  let final_output := Py.join [Py.LF] (_template self) in
  let fmt :=
    if Py.substring_in (lit "{name}") final_output
       && bool_decide (fmt !! lit "name" = None)
    then <[lit "name" := lit "_DefaultName"]> fmt else fmt in
  let fmt :=
    if Py.substring_in (lit "{datetime}") final_output
       && bool_decide (fmt !! lit "datetime" = None)
    then <[lit "datetime" := now]> fmt else fmt in
  mret (final_output, fmt).

(** [generate_report]: the outcome, the output file afterwards ([None]: it
    does not exist) and the generator state.  Opening with ['w+'] empties
    the file before the skeleton is formatted. *)
Definition generate_report (self : Report) (output_file : option str)
    (now : str) (fmt : gmap str str) (st : rstate)
  : result unit * option str * rstate :=
  match report_fields self now fmt st with
  | (inl e, st') => (Raise e, output_file, st')
  | (inr (final_output, fmt'), st') =>
      match Py.format final_output fmt' with
      | inl e => (Raise e, Some [], st')
      | inr text => (Ok tt, Some text, st')
      end
  end.

(** The body of the [try] in [calculate_total]. *)
Definition parse_line (separator line : str) : result (str * str) :=
  parts ← Py.split line separator;
  '(line, price) ← unpack2 parts;
  if Py.startswith line (lit "$") then Ok (price, line) else Ok (line, price).

Fixpoint total_loop (separator : str) (content : list str) (total : Float.float)
  : result Float.float :=
  match content with
  | [] => Ok total
  | line :: rest =>
      match parse_line separator line with
      | inl IndexError | inl ValueError => total_loop separator rest total
      | inl e => Raise e
      | inr (_, price) =>
          v ← Float.of_str (Py.strip_chars (lit "$") (Py.strip price));
          total_loop separator rest (Float.add total v)
      end
  end.

Definition calculate_total (self : Report) (file_name : option str) : result str :=
  match file_name with
  | None => Raise FileNotFoundError
  | Some text =>
      let content := Py.readlines text in
      seps ← _get_separators (_item_fmt self);
      let separator := Py.join (lit " ") seps in
      total ← total_loop separator content Float.zero;
      Ok (lit "$" ++ Float.repr (Float.round total 2))
  end.


(** ** The property setters and the driver [example.py] *)

Definition template_setter (self : Report) (value : list str) : Report :=
  {| inventory := inventory self; entries := entries self;
     _auto_align := _auto_align self; _item_fmt := _item_fmt self;
     _template := value |}.

Definition item_fmt_setter (self : Report) (value : str) : Report :=
  {| inventory := inventory self; entries := entries self;
     _auto_align := _auto_align self; _item_fmt := value;
     _template := _template self |}.

Definition auto_align_setter (self : Report) (value : bool) : Report :=
  {| inventory := inventory self; entries := entries self;
     _auto_align := value; _item_fmt := _item_fmt self;
     _template := _template self |}.

(** The driver: an engine built from the empty inventory, so from the
    default inventory file, set up with a template of seven lines, the
    price-first format and alignment; a report is generated into [file]
    with the fields [name] and [datetime], the file is totalled and the
    total printed.  [now] is the clock read by the driver, [later] the
    clock as [generate_report] would read it; the output path is taken to
    be writable.  The result is the printed line, the file and the
    generator state. *)
Definition example (default_inventory : gmap str (list str))
    (default_template : str) (now later : str) (file : option str)
    (st : rstate) : result str * option str * rstate :=
  let inventory : gmap str (list str) := ∅ in
  let '(report, _) :=
    __init__ default_inventory default_template inventory 50 in
  let report := template_setter report
    [lit "EXPENSE REPORT";
     lit "--------------";
     lit "NAME: {name}";
     lit "==============";
     lit "{report}";
     lit "--------------";
     lit "GENERATED ON: {datetime}"] in
  let report := item_fmt_setter report (lit "{price} = {item}") in
  let report := auto_align_setter report true in
  let fmt : gmap str str :=
    <[lit "name" := lit "Nicolas"]> (<[lit "datetime" := now]> ∅) in
  match generate_report report file later fmt st with
  | (inl e, file', st') => (Raise e, file', st')
  | (inr _, file', st') => (calculate_total report file', file', st')
  end.

(** ** The total as a sum over the matching lines

    The reading of the total that the specification gives: a line matches
    when splitting it on the separator yields exactly two parts, the price
    of a matching line is the number read from its price part, and the
    total is the sum of the prices of the matching lines, in file order. *)

Definition matching (separator line : str) : bool :=
  match Py.split line separator with
  | inr [_; _] => true
  | _ => false
  end.

Definition line_price (separator line : str) : result Float.float :=
  '(_, price) ← parse_line separator line;
  Float.of_str (Py.strip_chars (lit "$") (Py.strip price)).

Definition float_sum (start : Float.float) (l : list Float.float) : Float.float :=
  fold_left Float.add l start.

Definition sum_matching (separator : str) (content : list str)
  : result Float.float :=
  prices ← comprehension (line_price separator)
             (List.filter (matching separator) content);
  Ok (float_sum Float.zero prices).

Definition format_total (total : Float.float) : str :=
  lit "$" ++ Float.repr (Float.round total 2).

(** ** Vocabulary of the properties *)

(** *** Generator states *)

(** The state after [k] more draws. *)
Definition skip (k : nat) (st : rstate) : rstate :=
  {| draws := draws st; pos := k + pos st |}.

(** The generator whose [n]-th raw draw is [n]. *)
Definition counting_draws : rstate := {| draws := fun n => n; pos := 0 |}.

(** *** White space and words *)

Definition wordlike (w : str) : Prop := Forall (fun c => Py.isspace c = false) w.
Definition blank (w : str) : Prop := Forall (fun c => Py.isspace c = true) w.

(** A word: not empty, no white space. *)
Definition word (w : str) : Prop := w ≠ [] /\ wordlike w.

(** White space that does not break the line. *)
Definition inline_blank (w : str) : Prop :=
  Forall (fun c => Py.isspace c = true /\ c ≠ Py.LF /\ c ≠ Py.CR) w.

(** The word under construction in [split_ws_go], emitted if there is
    one. *)
Definition flush (cur : str) : list str :=
  match cur with
  | [] => []
  | _ => [rev cur]
  end.

(** A string is open on the right when a word appended to it starts a new
    word: it is empty or ends in white space. *)
Definition open_right (a : str) : Prop :=
  a = [] \/ exists a' c, a = a' ++ [c] /\ Py.isspace c = true.

(** A string that is empty or starts with white space. *)
Definition space_led (r : str) : Prop :=
  r = [] \/ exists c r', r = c :: r' /\ Py.isspace c = true.

(** *** Occurrences of a substring *)

(** [no_start sub a s]: [sub] does not occur in [a ++ s] at a position
    inside [a]. *)
Definition no_start (sub a s : str) : Prop :=
  forall a1 a2, a = a1 ++ a2 -> a2 ≠ [] -> Py.startswith (a2 ++ s) sub = false.

(** The pieces of [split] for a separator that is not empty. *)
Definition split_pieces (sep s : str) : list str :=
  Py.split_fuel (length s) sep s.

(** *** Aligned entries *)

Definition pair_list (q : str * str) : list str := [q.1; q.2].

(** An entry whose left part is padded to [longest] characters. *)
Definition padded (longest : nat) (sep : str) (q : str * str) : str :=
  q.1 ++ replicate (longest - length q.1) " "%char ++ sep ++ q.2.

(** *** Format strings *)

Definition brace_free (s : str) : Prop :=
  Forall (fun c => c ≠ "{"%char /\ c ≠ "}"%char) s.

(** A field name the model replaces by the keyword argument of that
    name. *)
Definition plain_name (name : str) : Prop :=
  (exists c name', name = c :: name' /\ c ≠ "{"%char)
  /\ Py.field_special name = None
  /\ forallb Py.is_digit name = false
  /\ Forall (fun c => c ≠ "}"%char) name.

(** The two placeholders in the order of the format, and the values of a
    pick in that order. *)
Definition placeholders (price_first : bool) : str * str :=
  if price_first then (lit "{price}", lit "{item}")
  else (lit "{item}", lit "{price}").

Definition pick_values (price_first : bool) (p : pick) : str * str :=
  if price_first then (price p, item p) else (item p, price p).

(** A format made of one placeholder, a separator word and the other
    placeholder, and the entry it renders for a pick. *)
Definition simple_format (price_first : bool) (ws1 sep ws2 ws3 : str) : str :=
  (placeholders price_first).1 ++ ws1 ++ sep ++ ws2
  ++ (placeholders price_first).2 ++ ws3.

Definition render (price_first : bool) (ws1 sep ws2 ws3 : str) (p : pick) : str :=
  (pick_values price_first p).1 ++ ws1 ++ sep ++ ws2
  ++ (pick_values price_first p).2 ++ ws3.

(** *** Lines *)

(** A string without line break. *)
Definition line_clean (l : str) : Prop :=
  Forall (fun c => c ≠ Py.LF /\ c ≠ Py.CR) l.

(** What [readlines] returns for lines joined by newlines: every line but
    the last keeps its newline, and an empty last line is no line. *)
Fixpoint keepends (lines : list str) : list str :=
  match lines with
  | [] => []
  | [l] => match l with [] => [] | _ => [l] end
  | l :: ls => (l ++ [Py.LF]) :: keepends ls
  end.

(** An item name the parser recovers a line from: the separator does not
    occur in it, it holds no line break, and it does not start with the
    dollar sign when it is the left part of the line. *)
Definition clean_item (sep : str) (price_first : bool) (it : str) : Prop :=
  Py.find sep it = None
  /\ line_clean it
  /\ (price_first = false -> Py.startswith it (lit "$") = false).


(** *** Prices *)

Definition price_str (d c : nat) : str :=
  lit "$" ++ Py.str_of_nat d ++ lit "." ++ two_digits c.

(** The characters a price is written with. *)
Definition price_char (c : ascii) : bool := Py.char_in (lit "$.0123456789") c.

(** What the parser needs of a price string: price characters only, a
    leading dollar sign, and a number once the dollar signs are
    stripped. *)
Definition price_ok (pr : str) : bool :=
  forallb (fun c => price_char c && Py.nonspace c) pr
  && Py.startswith pr (lit "$")
  && match Float.parse (Py.strip_chars (lit "$") pr) with
     | Some _ => true
     | None => false
     end.

(** The strings [_price] can return. *)
Definition synthesized (pr : str) : Prop :=
  exists d c, 1 <= d <= 25 /\ c <= 99 /\ pr = price_str d c.

(** The number a price string stands for. *)
Definition price_value (pr : str) : result Float.float :=
  Float.of_str (Py.strip_chars (lit "$") pr).

(** *** Engines *)

Definition engine_with (fmt : str) (inv : list (str * list str)) (n : Z)
    (align : bool) (template : list str) : Report :=
  {| inventory := inv; entries := n; _auto_align := align;
     _item_fmt := fmt; _template := template |}.

(** The inventory the constructor builds: the three tiers in order. *)
Definition tiers (l1 l2 l3 : list str) : list (str * list str) :=
  [(lit "$", l1); (lit "$$", l2); (lit "$$$", l3)].

Definition sample_tiers : list (str * list str) :=
  tiers [lit "Gum"] [lit "Milk"] [lit "Diapers"].

Definition default_engine : Report :=
  engine_with (lit "{item} = {price}") sample_tiers 2 true [lit "{report}"].

Definition adjacent_engine : Report :=
  engine_with (lit "{item} {price}") sample_tiers 2 true [lit "{report}"].

Definition plain_engine : Report :=
  engine_with (lit "{item} = {price}") sample_tiers 2 false
    [lit "EXPENSE REPORT"; lit "--------------"; lit "{report}";
     lit "--------------"].

Definition adjacent_plain_engine : Report :=
  engine_with (lit "{item} {price}") sample_tiers 2 false [lit "{report}"].



(** *** The round trip *)




(** *** Further vocabulary *)

(** A format made of the two placeholders only, with white space in
    front, between and after them. *)
Definition adjacent_format (price_first : bool) (ws0 ws1 ws2 : str) : str :=
  ws0 ++ (placeholders price_first).1 ++ ws1
  ++ (placeholders price_first).2 ++ ws2.

(** The binary64 number nearest to [d] dollars and [c] cents, and the
    way Python prints it: one digit after the point when the cents are a
    multiple of ten, two otherwise. *)
Definition price_number (d c : nat) : Float.float :=
  Float.of_decimal false (N.of_nat (100 * d + c)) (-2).

Definition amount_str (d c : nat) : str :=
  Py.str_of_nat d ++ lit "."
  ++ (if c mod 10 =? 0 then [ascii_of_nat (48 + c / 10)] else two_digits c).

Definition price_reads_back_ok (d c : nat) : bool :=
  match price_value (price_str d c) with
  | inr v =>
      Float.eqb v (price_number d c)
      && bool_decide (format_total (float_sum Float.zero [v])
                      = lit "$" ++ amount_str d c)
  | inl _ => false
  end.

(** The tier keys and their dollar ranges. *)
Definition tier_range (key : str) (d : nat) : Prop :=
  (key = lit "$" /\ 1 <= d <= 4)
  \/ (key = lit "$$" /\ 5 <= d <= 9)
  \/ (key = lit "$$$" /\ 10 <= d <= 25).

(** The tier a raw draw selects among the three keys. *)
Definition drawn_tier (st : rstate) : nat := draws st (pos st) mod 3.

Definition tier_items (l1 l2 l3 : list str) (k : nat) : list str :=
  match k with
  | 0 => l1
  | 1 => l2
  | _ => l3
  end.

Definition tier_key (k : nat) : str :=
  match k with
  | 0 => lit "$"
  | 1 => lit "$$"
  | _ => lit "$$$"
  end.

(** The two parts of an aligned entry. *)
Definition pad_left (longest : nat) (q : str * str) : str * str :=
  (q.1 ++ replicate (longest - length q.1) " "%char, q.2).

(** A field the engine supplies when the skeleton mentions it and the
    caller did not pass it. *)
Definition with_default (mentioned : bool) (k v : str) (fmt : gmap str str)
  : gmap str str :=
  if mentioned && bool_decide (fmt !! k = None) then <[k := v]> fmt else fmt.

(** The fields the skeleton is formatted with, for a given report body. *)
Definition final_fields (self : Report) (now : str) (fmt : gmap str str)
    (report : str) : gmap str str :=
  let final_output := Py.join [Py.LF] (_template self) in
  with_default (Py.substring_in (lit "{datetime}") final_output)
    (lit "datetime") now
    (with_default (Py.substring_in (lit "{name}") final_output)
       (lit "name") (lit "_DefaultName")
       (<[lit "report" := report]> fmt)).

(** The fields the engine fills in by itself, with their default values. *)
Definition default_fields (now : str) : list (str * str) :=
  [(lit "name", lit "_DefaultName"); (lit "datetime", now)].

(** A template that mentions a field the engine does not supply. *)
Definition author_engine : Report :=
  engine_with (lit "{item} = {price}") sample_tiers 2 true
    [lit "{report}"; lit "BY: {author}"].

Definition named_engine : Report :=
  engine_with (lit "{item} = {price}") sample_tiers 2 true
    [lit "NAME: {name}"; lit "{report}"].

(** What the calculator has to find in an entry line: it splits in two,
    its price part reads as [v], and it holds no line break. *)
Definition entry_of (sep : str) (e : str) (v : Float.float) : Prop :=
  matching sep e = true /\ line_price sep e = Ok v /\ line_clean e.

(** A line of the file that is no entry. *)
Definition other_line (sep l : str) : Prop :=
  line_clean l /\ matching sep l = false.


(** The dictionary the constructor takes the tiers from, and the tier it
    finds under a key. *)
Definition source_inventory (default_inventory inventory : gmap str (list str))
  : gmap str (list str) :=
  if bool_decide (inventory = ∅) then default_inventory else inventory.

Definition tier_of (d : gmap str (list str)) (key : str) : list str :=
  default [lit "_Default" ++ key ++ lit "Item"] (d !! key).

Definition no_entries_engine : Report :=
  engine_with (lit "{item} = {price}") sample_tiers (-3) true
    [lit "EXPENSE REPORT"; lit "{report}"; lit "--------------"].

(** * Properties *)

#[local] Arguments Nat.modulo : simpl never.
#[local] Arguments Nat.div : simpl never.
#[local] Arguments Py.str_of_nat : simpl never.
#[local] Arguments lit : simpl never.

(** ** Evaluation of the error and state monads *)

Lemma result_bind_ok {A B} (f : A -> result B) (x : A) : (Ok x ≫= f) = f x.
Proof. reflexivity. Qed.

Lemma result_bind_raise {A B} (f : A -> result B) (e : exn) :
  (Raise e ≫= f) = Raise e.
Proof. reflexivity. Qed.

Lemma rand_bind_eq {A B} (f : A -> rand B) (m : rand A) (st : rstate) :
  (m ≫= f) st =
  match m st with
  | (inl e, st') => (inl e, st')
  | (inr x, st') => f x st'
  end.
Proof. reflexivity. Qed.

Lemma randint_eq (a b : nat) (st : rstate) :
  randint a b st =
  (Ok (a + draws st (pos st) mod (b - a + 1)),
   {| draws := draws st; pos := S (pos st) |}).
Proof. reflexivity. Qed.

Lemma randint_range (a b : nat) (st : rstate) :
  a <= b ->
  exists n, fst (randint a b st) = Ok n /\ a <= n <= b.
Proof.
  intros Hab. rewrite randint_eq. simpl.
  eexists; split; [reflexivity|].
  pose proof (Nat.mod_upper_bound (draws st (pos st)) (b - a + 1)) as Hm.
  lia.
Qed.

(** ** Price synthesis *)

Lemma cents_table :
  forallb (fun n =>
      bool_decide
        ((if length (Py.str_of_nat n) =? 2 then Py.str_of_nat n
          else lit "0" ++ Py.str_of_nat n) = two_digits n))
    (seq 0 100) = true.
Proof. vm_compute. reflexivity. Qed.

Lemma cents_padded (n : nat) :
  n < 100 ->
  (if length (Py.str_of_nat n) =? 2 then Py.str_of_nat n
   else lit "0" ++ Py.str_of_nat n) = two_digits n.
Proof.
  intros Hn. pose proof cents_table as Ht.
  rewrite forallb_forall in Ht.
  specialize (Ht n). rewrite bool_decide_eq_true in Ht.
  apply Ht, in_seq. lia.
Qed.

Lemma _cents_eq (st : rstate) :
  _cents st =
  (Ok (two_digits (draws st (pos st) mod 100)),
   {| draws := draws st; pos := S (pos st) |}).
Proof.
  unfold _cents. rewrite rand_bind_eq, randint_eq. simpl.
  unfold mret, rand_ret. f_equal. f_equal.
  apply cents_padded.
  apply Nat.mod_upper_bound. lia.
Qed.

Ltac run_rand :=
  repeat first
    [ rewrite rand_bind_eq
    | rewrite randint_eq
    | rewrite _cents_eq
    | progress unfold lift, mret, rand_ret
    | progress simpl ].

(** The three draws of the [prices] dictionary and the draw of the cents,
    at the positions they are taken. *)
Lemma _price_cheap (st : rstate) :
  _price (lit "$") st =
  (Ok (lit "$" ++ Py.str_of_nat (1 + draws st (pos st) mod 4) ++ lit "."
       ++ two_digits (draws st (3 + pos st) mod 100)), skip 4 st).
Proof.
  unfold _price. run_rand. reflexivity.
Qed.

Lemma _price_medium (st : rstate) :
  _price (lit "$$") st =
  (Ok (lit "$" ++ Py.str_of_nat (5 + draws st (1 + pos st) mod 5) ++ lit "."
       ++ two_digits (draws st (3 + pos st) mod 100)), skip 4 st).
Proof.
  unfold _price. run_rand. reflexivity.
Qed.

Lemma _price_expensive (st : rstate) :
  _price (lit "$$$") st =
  (Ok (lit "$" ++ Py.str_of_nat (10 + draws st (2 + pos st) mod 16) ++ lit "."
       ++ two_digits (draws st (3 + pos st) mod 100)), skip 4 st).
Proof.
  unfold _price. run_rand. reflexivity.
Qed.

(** C8. For each of the three tier keys and every state of the random
    generator, [_price] returns ["$D.CC"]: a dollar sign, the decimal
    numeral of a dollar amount D, a point, and exactly two digits CC, the
    zero-padded numeral of a number of cents in [0,99]; D lies in [1,4]
    for tier ["$"], in [5,9] for ["$$"] and in [10,25] for ["$$$"]. *)
Theorem price_shape_and_bounds (st : rstate) :
  (exists d c,
      fst (_price (lit "$") st)
      = Ok (lit "$" ++ Py.str_of_nat d ++ lit "." ++ two_digits c)
      /\ 1 <= d <= 4 /\ c <= 99)
  /\ (exists d c,
      fst (_price (lit "$$") st)
      = Ok (lit "$" ++ Py.str_of_nat d ++ lit "." ++ two_digits c)
      /\ 5 <= d <= 9 /\ c <= 99)
  /\ (exists d c,
      fst (_price (lit "$$$") st)
      = Ok (lit "$" ++ Py.str_of_nat d ++ lit "." ++ two_digits c)
      /\ 10 <= d <= 25 /\ c <= 99).
Proof.
  rewrite _price_cheap, _price_medium, _price_expensive. simpl fst.
  pose proof (Nat.mod_upper_bound (draws st (pos st)) 4).
  pose proof (Nat.mod_upper_bound (draws st (1 + pos st)) 5).
  pose proof (Nat.mod_upper_bound (draws st (2 + pos st)) 16).
  pose proof (Nat.mod_upper_bound (draws st (3 + pos st)) 100).
  cbn [Nat.add] in *.
  split; [|split]; do 2 eexists; (split; [reflexivity|lia]).
Qed.

(** ** Separator inference on concrete formats *)

Example get_separators_default :
  _get_separators (lit "{item} = {price}") = Ok [lit "="].
Proof. vm_compute. reflexivity. Qed.

Example get_separators_swapped :
  _get_separators (lit "{price} -> {item}") = Ok [lit "->"].
Proof. vm_compute. reflexivity. Qed.

Example get_separators_adjacent :
  _get_separators (lit "{item} {price}") = Ok [].
Proof. vm_compute. reflexivity. Qed.

(** C1. Separator inference does not return the words between the two
    placeholders for every format that holds both as words: [rsplit] is
    called with [maxsplit=2], so a format of four words or more keeps its
    leading words in one piece, the placeholder inside that piece is not
    found, and the call raises.  Evaluated on a format with three words
    between the placeholders, with a word before them, with a word after
    them, and with a blank in front (the first piece keeps it); in each
    the two placeholders are words of the format. *)
Theorem get_separators_raises_beyond_three_words :
  Py.split_ws (lit "{item} is priced at {price}")
  = [lit "{item}"; lit "is"; lit "priced"; lit "at"; lit "{price}"]
  /\ Py.rsplit_ws (lit "{item} is priced at {price}") 2
     = [lit "{item} is priced"; lit "at"; lit "{price}"]
  /\ _get_separators (lit "{item} is priced at {price}")
     = Raise missing_keyword_error
  /\ _get_separators (lit "Item: {item} = {price}") = Raise missing_keyword_error
  /\ _get_separators (lit "{item} = {price} each") = Raise missing_keyword_error
  /\ _get_separators (lit " {item} = {price}") = Raise missing_keyword_error.
Proof. vm_compute. repeat split; reflexivity. Qed.

(** ** The total calculator on concrete files *)

(** C5. With the format ["{price} -> {item}"], the line
    ["$2.50 -> Cookies"] is split on ["->"], its left part starts with the
    dollar sign, so the two parts are swapped and the left part is read as
    the price; the total returned is the string ["$2.5"], whether or not
    the line ends with a newline. *)
Theorem calculate_total_price_first
    (inv : list (str * list str)) (n : Z) (align : bool) (template : list str) :
  let self := engine_with (lit "{price} -> {item}") inv n align template in
  parse_line (lit "->") (lit "$2.50 -> Cookies")
  = Ok (lit " Cookies", lit "$2.50 ")
  /\ calculate_total self (Some (lit "$2.50 -> Cookies")) = Ok (lit "$2.5")
  /\ calculate_total self (Some (lit "$2.50 -> Cookies" ++ [Py.LF])) = Ok (lit "$2.5").
Proof. vm_compute. repeat split; reflexivity. Qed.

(** C2. A line that splits into exactly two parts on the separator and
    whose price part is not a number is not skipped: [float] is called
    after the [try] block, so its [ValueError] leaves [calculate_total],
    also when the other lines of the file are valid entries. *)
Theorem calculate_total_raises_on_unparseable_price
    (inv : list (str * list str)) (n : Z) (align : bool) (template : list str) :
  let self := engine_with (lit "{item} = {price}") inv n align template in
  _get_separators (_item_fmt self) = Ok [lit "="]
  /\ parse_line (lit "=") (lit "NAME = Bob" ++ [Py.LF])
     = Ok (lit "NAME ", lit " Bob" ++ [Py.LF])
  /\ calculate_total self (Some (lit "NAME = Bob" ++ [Py.LF])) = Raise ValueError
  /\ calculate_total self
       (Some (lit "Gum = $1.50" ++ [Py.LF] ++ lit "NAME = Bob" ++ [Py.LF]
              ++ lit "Tea = $2.00" ++ [Py.LF]))
     = Raise ValueError.
Proof. vm_compute. repeat split; reflexivity. Qed.

(** ** The constructor and the caller's inventory *)

Lemma init_keeps_empty_argument
    (dinv : gmap str (list str)) (dtmpl : str) (n : Z) :
  snd (__init__ dinv dtmpl ∅ n) = ∅.
Proof. reflexivity. Qed.

(** C10. Constructing a [Report] from a non-empty inventory dictionary
    changes the caller's dictionary: after the call it is the argument
    with the keys ["$"], ["$$"] and ["$$$"] deleted, every other key is
    as before, and it differs from the argument as soon as the argument
    held one of the three keys. *)
Theorem init_pops_caller_inventory
    (dinv : gmap str (list str)) (dtmpl : str)
    (inv : gmap str (list str)) (n : Z) :
  inv ≠ ∅ ->
  let after := snd (__init__ dinv dtmpl inv n) in
  after = delete (lit "$$$") (delete (lit "$$") (delete (lit "$") inv))
  /\ after !! lit "$" = None
  /\ after !! lit "$$" = None
  /\ after !! lit "$$$" = None
  /\ (forall k, k ≠ lit "$" -> k ≠ lit "$$" -> k ≠ lit "$$$" ->
      after !! k = inv !! k)
  /\ (is_Some (inv !! lit "$") \/ is_Some (inv !! lit "$$")
      \/ is_Some (inv !! lit "$$$") -> after ≠ inv).
Proof.
  intros Hne after.
  assert (Hafter :
    after = delete (lit "$$$") (delete (lit "$$") (delete (lit "$") inv))).
  { unfold after, __init__, dict_pop. rewrite bool_decide_eq_false_2 by done.
    reflexivity. }
  assert (H1 : after !! lit "$" = None).
  { rewrite Hafter, !lookup_delete_ne by done. apply lookup_delete_eq. }
  assert (H2 : after !! lit "$$" = None).
  { rewrite Hafter, lookup_delete_ne by done. apply lookup_delete_eq. }
  assert (H3 : after !! lit "$$$" = None).
  { rewrite Hafter. apply lookup_delete_eq. }
  split; [exact Hafter|]. do 3 (split; [assumption|]). split.
  - intros k Hk1 Hk2 Hk3. rewrite Hafter, !lookup_delete_ne by done. reflexivity.
  - intros [[v Hv]|[[v Hv]|[v Hv]]] Heq; rewrite Heq in *; congruence.
Qed.

Lemma init_pops_caller_inventory_witness :
  let inv : gmap str (list str) :=
    {[ lit "$" := [lit "Gum"]; lit "Misc" := [lit "Tape"] ]} in
  inv ≠ ∅
  /\ inv !! lit "$" = Some [lit "Gum"]
  /\ snd (__init__ ∅ (lit "{report}") inv 5) !! lit "$" = None
  /\ snd (__init__ ∅ (lit "{report}") inv 5) ≠ inv.
Proof.
  intros inv.
  assert (Hin : inv !! lit "$" = Some [lit "Gum"]) by (vm_compute; reflexivity).
  assert (Hne : inv ≠ ∅).
  { intros He. rewrite He in Hin. vm_compute in Hin. discriminate. }
  split; [exact Hne|]. split; [exact Hin|].
  destruct (init_pops_caller_inventory ∅ (lit "{report}") inv 5 Hne)
    as (_ & H1 & _ & _ & _ & Hdiff).
  split; [exact H1|]. apply Hdiff. left. rewrite Hin. eexists; reflexivity.
Defined.

(** ** Adjacent placeholders and the aligner *)

Lemma align_separator_without_words (self : Report) (es : list str) :
  _get_separators (_item_fmt self) = Ok [] ->
  _align_separator self es = Raise IndexError.
Proof. unfold _align_separator. intros ->. reflexivity. Qed.

(** C9. When separator inference returns no word (the two placeholders
    are adjacent) and [auto_align] is on, the aligner raises [IndexError]
    on every list of entries, and [generate_report] ends with an exception
    without touching the output file; the exception is that [IndexError]
    whenever the entries themselves were drawn and rendered. *)
Theorem generate_report_adjacent_placeholders
    (self : Report) (file : option str) (now : str) (fmt : gmap str str)
    (st : rstate) :
  _auto_align self = true ->
  _get_separators (_item_fmt self) = Ok [] ->
  (forall es, _align_separator self es = Raise IndexError)
  /\ exists e st',
      generate_report self file now fmt st = (Raise e, file, st')
      /\ forall picks es,
          fst (repeat_rand (Z.to_nat (entries self))
                 (_random_item_and_price self) st) = Ok picks ->
          comprehension (fun p => Py.format (_item_fmt self) (kwargs p)) picks
          = Ok es ->
          e = IndexError.
Proof.
  intros Halign Hseps.
  split; [intros es; apply align_separator_without_words, Hseps|].
  unfold generate_report, report_fields.
  rewrite rand_bind_eq.
  destruct (repeat_rand _ _ st) as [[e|picks] st1] eqn:Hgen.
  - exists e, st1. split; [reflexivity|]. intros picks es Hp. discriminate Hp.
  - rewrite rand_bind_eq. unfold lift at 1.
    destruct (comprehension _ picks) as [e|es] eqn:Hfmt.
    + exists e, st1. split; [reflexivity|].
      intros picks' es' Hp He. simpl in Hp. injection Hp as <-.
      rewrite Hfmt in He. discriminate He.
    + rewrite rand_bind_eq, Halign. unfold lift.
      rewrite (align_separator_without_words self es Hseps).
      exists IndexError, st1. split; [reflexivity|]. reflexivity.
Qed.

Lemma generate_report_adjacent_placeholders_witness :
  _auto_align adjacent_engine = true
  /\ _get_separators (_item_fmt adjacent_engine) = Ok []
  /\ _align_separator adjacent_engine [lit "Gum $1.00"] = Raise IndexError.
Proof.
  assert (H1 : _auto_align adjacent_engine = true) by reflexivity.
  assert (H2 : _get_separators (_item_fmt adjacent_engine) = Ok [])
    by (vm_compute; reflexivity).
  split; [exact H1|]. split; [exact H2|].
  exact (proj1 (generate_report_adjacent_placeholders adjacent_engine None []
                  ∅ {| draws := fun n => n; pos := 0 |} H1 H2)
           [lit "Gum $1.00"]).
Defined.

Example generate_report_adjacent_run :
  fst (generate_report adjacent_engine None [] ∅
         {| draws := fun n => n; pos := 0 |})
  = (Raise IndexError, None).
Proof. vm_compute. reflexivity. Qed.

(** ** White space, words and [rsplit] *)

Lemma nonspace_true (c : ascii) : Py.nonspace c = true <-> Py.isspace c = false.
Proof. unfold Py.nonspace. destruct (Py.isspace c); simpl; split; congruence. Qed.

Lemma nonspace_false (c : ascii) : Py.nonspace c = false <-> Py.isspace c = true.
Proof. unfold Py.nonspace. destruct (Py.isspace c); simpl; split; congruence. Qed.

Section while_lemmas.
Context {A : Type} (p : A -> bool).

Lemma take_drop_while (l : list A) :
  Py.take_while p l ++ Py.drop_while p l = l.
Proof.
  induction l as [|x l IH]; simpl; [reflexivity|].
  destruct (p x); simpl; [rewrite IH|]; reflexivity.
Qed.

Lemma take_while_Forall (l : list A) :
  Forall (fun x => p x = true) (Py.take_while p l).
Proof.
  induction l as [|x l IH]; simpl; [constructor|].
  destruct (p x) eqn:Hx; [constructor; assumption|constructor].
Qed.

Lemma drop_while_head (l : list A) (x : A) (l' : list A) :
  Py.drop_while p l = x :: l' -> p x = false.
Proof.
  induction l as [|y l IH]; simpl; [discriminate|].
  destruct (p y) eqn:Hy; [exact IH|]. intros [= -> _]. exact Hy.
Qed.

Lemma drop_while_app (l1 l2 : list A) :
  Forall (fun x => p x = true) l1 ->
  Py.drop_while p (l1 ++ l2) = Py.drop_while p l2.
Proof.
  induction 1 as [|x l1 Hx _ IH]; simpl; [reflexivity|].
  rewrite Hx. exact IH.
Qed.

Lemma take_while_app (l1 l2 : list A) :
  Forall (fun x => p x = true) l1 ->
  Py.take_while p (l1 ++ l2) = l1 ++ Py.take_while p l2.
Proof.
  induction 1 as [|x l1 Hx _ IH]; simpl; [reflexivity|].
  rewrite Hx, IH. reflexivity.
Qed.

Lemma drop_while_stop (x : A) (l : list A) :
  p x = false -> Py.drop_while p (x :: l) = x :: l.
Proof. simpl. intros ->. reflexivity. Qed.

Lemma take_while_stop (x : A) (l : list A) :
  p x = false -> Py.take_while p (x :: l) = [].
Proof. simpl. intros ->. reflexivity. Qed.

Lemma drop_while_all (l : list A) :
  Forall (fun x => p x = true) l -> Py.drop_while p l = [].
Proof.
  intros H. rewrite <- (app_nil_r l), drop_while_app by assumption.
  reflexivity.
Qed.

Lemma take_while_all (l : list A) :
  Forall (fun x => p x = true) l -> Py.take_while p l = l.
Proof.
  intros H. rewrite <- (app_nil_r l) at 1. rewrite take_while_app by assumption.
  simpl. apply app_nil_r.
Qed.
End while_lemmas.

Lemma split_ws_go_word (w cur s : str) :
  wordlike w ->
  Py.split_ws_go cur (w ++ s) = Py.split_ws_go (rev w ++ cur) s.
Proof.
  intros Hw. revert cur.
  induction Hw as [|c w Hc _ IH]; intros cur; simpl; [reflexivity|].
  rewrite Hc, IH, <- app_assoc. reflexivity.
Qed.

Lemma split_ws_go_space (c : ascii) (cur s : str) :
  Py.isspace c = true ->
  Py.split_ws_go cur (c :: s) = flush cur ++ Py.split_ws_go [] s.
Proof. simpl. intros ->. destruct cur; reflexivity. Qed.

Lemma split_ws_go_blank (sp cur : str) :
  blank sp -> Py.split_ws_go cur sp = flush cur.
Proof.
  intros Hsp. revert cur.
  induction Hsp as [|c sp Hc _ IH]; intros cur.
  - destruct cur; reflexivity.
  - rewrite split_ws_go_space, IH by assumption. simpl. apply app_nil_r.
Qed.

Lemma split_ws_go_cut (a : str) (c : ascii) (cur s : str) :
  Py.isspace c = true ->
  Py.split_ws_go cur (a ++ c :: s)
  = Py.split_ws_go cur (a ++ [c]) ++ Py.split_ws_go [] s.
Proof.
  intros Hc. revert cur.
  induction a as [|x a IH]; intros cur.
  - simpl. rewrite Hc. destruct cur; reflexivity.
  - simpl app. destruct (Py.isspace x) eqn:Hx.
    + rewrite (split_ws_go_space x cur (a ++ c :: s)) by assumption.
      rewrite IH. destruct cur; reflexivity.
    + simpl. rewrite Hx. apply IH.
Qed.

Lemma split_ws_snoc_word (a w sp : str) :
  open_right a -> w ≠ [] -> wordlike w -> blank sp ->
  Py.split_ws (a ++ w ++ sp) = Py.split_ws a ++ [w].
Proof.
  intros Ha Hne Hw Hsp. unfold Py.split_ws.
  assert (Hword : Py.split_ws_go [] (w ++ sp) = [w]).
  { rewrite split_ws_go_word, split_ws_go_blank, app_nil_r by assumption.
    unfold flush. destruct (rev w) eqn:Hr.
    - apply (f_equal (@rev ascii)) in Hr. rewrite rev_involutive in Hr.
      simpl in Hr. contradiction.
    - rewrite <- Hr, rev_involutive. reflexivity. }
  destruct Ha as [->|(a' & c & -> & Hc)].
  - simpl. exact Hword.
  - rewrite <- app_assoc. simpl app.
    rewrite split_ws_go_cut by assumption. rewrite Hword. reflexivity.
Qed.

Lemma wordlike_rev (w : str) : wordlike w -> wordlike (rev w).
Proof. apply Forall_rev. Qed.

Lemma blank_rev (w : str) : blank w -> blank (rev w).
Proof. apply Forall_rev. Qed.

Lemma blank_take_while (r : str) : blank (Py.take_while Py.isspace r).
Proof. apply take_while_Forall. Qed.

Lemma wordlike_take_while (r : str) : wordlike (Py.take_while Py.nonspace r).
Proof.
  eapply Forall_impl; [apply take_while_Forall|].
  intros c. apply nonspace_true.
Qed.

Lemma open_right_rev_drop (r : str) :
  open_right (rev (Py.drop_while Py.nonspace r)).
Proof.
  destruct (Py.drop_while Py.nonspace r) as [|c r'] eqn:Hd.
  - left. reflexivity.
  - right. exists (rev r'), c. split; [reflexivity|].
    apply nonspace_false. eapply drop_while_head. exact Hd.
Qed.

(** Every piece of [rsplit] that holds no white space is one of the words
    of the string. *)
Lemma rsplit_ws_loop_words (n : nat) (r : str) (acc : list str) (x : str) :
  wordlike x ->
  x ∈ Py.rsplit_ws_loop n r acc ->
  x ∈ acc \/ x ∈ Py.split_ws (rev r).
Proof.
  intros Hx. revert r acc.
  induction n as [|k IH]; intros r acc Hin; simpl in Hin.
  - destruct (Py.drop_while Py.isspace r) as [|c r'] eqn:Hd; [left; exact Hin|].
    apply elem_of_cons in Hin as [->|Hin]; [|left; exact Hin].
    right.
    rewrite <- (take_drop_while Py.isspace r), Hd, rev_app_distr.
    rewrite <- (app_nil_l (rev (c :: r') ++ _)).
    rewrite split_ws_snoc_word; [simpl; apply list_elem_of_here| | | |].
    + left. reflexivity.
    + simpl. intros He. apply app_eq_nil in He as [_ He]. discriminate.
    + exact Hx.
    + apply blank_rev, blank_take_while.
  - destruct (Py.drop_while Py.isspace r) as [|c r'] eqn:Hd; [left; exact Hin|].
    assert (Hc : Py.isspace c = false) by (eapply drop_while_head; exact Hd).
    assert (Hsplit : Py.split_ws (rev r)
      = Py.split_ws (rev (Py.drop_while Py.nonspace (c :: r')))
        ++ [rev (Py.take_while Py.nonspace (c :: r'))]).
    { rewrite <- (take_drop_while Py.isspace r), Hd, rev_app_distr.
      rewrite <- (take_drop_while Py.nonspace (c :: r')) at 1.
      rewrite rev_app_distr, <- app_assoc.
      apply split_ws_snoc_word.
      - apply open_right_rev_drop.
      - simpl. rewrite (proj2 (nonspace_true c) Hc). simpl.
        intros He. apply app_eq_nil in He as [_ He]. discriminate.
      - apply wordlike_rev, wordlike_take_while.
      - apply blank_rev, blank_take_while. }
    apply IH in Hin as [Hin|Hin].
    + apply elem_of_cons in Hin as [->|Hin]; [|left; exact Hin].
      right. rewrite Hsplit. apply elem_of_app. right. apply list_elem_of_here.
    + right. rewrite Hsplit. apply elem_of_app. left. exact Hin.
Qed.

Lemma rsplit_ws_words (s : str) (n : nat) (x : str) :
  wordlike x -> x ∈ Py.rsplit_ws s n -> x ∈ Py.split_ws s.
Proof.
  intros Hx Hin. unfold Py.rsplit_ws in Hin.
  apply (rsplit_ws_loop_words _ _ _ _ Hx) in Hin as [Hin|Hin].
  - inversion Hin.
  - rewrite rev_involutive in Hin. exact Hin.
Qed.

Lemma wordlike_item : wordlike (lit "{item}").
Proof. repeat constructor. Qed.

Lemma wordlike_price : wordlike (lit "{price}").
Proof. repeat constructor. Qed.

Lemma get_separators_missing (item_fmt : str) :
  (lit "{item}" ∉ Py.rsplit_ws item_fmt 2)
  \/ (lit "{price}" ∉ Py.rsplit_ws item_fmt 2) ->
  _get_separators item_fmt = Raise missing_keyword_error.
Proof.
  intros H. unfold _get_separators, words_to_search. cbn [for_each].
  unfold Py.contains.
  destruct (bool_decide (lit "{item}" ∈ Py.rsplit_ws item_fmt 2)) eqn:Hi;
    [|reflexivity].
  destruct (bool_decide (lit "{price}" ∈ Py.rsplit_ws item_fmt 2)) eqn:Hp;
    [|reflexivity].
  apply bool_decide_eq_true in Hi, Hp. tauto.
Qed.

(** C7. When ["{item}"] or ["{price}"] is not one of the words of the
    format, separator inference raises the missing-keyword exception, and
    [calculate_total] on any existing file raises that same exception
    instead of returning a total: the separator is derived before any
    line is looked at. *)
Theorem missing_placeholder_raises (item_fmt : str) :
  (lit "{item}" ∉ Py.split_ws item_fmt) \/ (lit "{price}" ∉ Py.split_ws item_fmt) ->
  _get_separators item_fmt = Raise missing_keyword_error
  /\ forall self text,
      _item_fmt self = item_fmt ->
      calculate_total self (Some text) = Raise missing_keyword_error.
Proof.
  intros H.
  assert (Hsep : _get_separators item_fmt = Raise missing_keyword_error).
  { apply get_separators_missing.
    destruct H as [H|H]; [left|right]; intros Hin; apply H;
      (eapply rsplit_ws_words; [|exact Hin]);
      [apply wordlike_item|apply wordlike_price]. }
  split; [exact Hsep|].
  intros self text Hfmt. unfold calculate_total. rewrite Hfmt, Hsep.
  reflexivity.
Qed.

Lemma missing_placeholder_raises_witness :
  (lit "{price}" ∉ Py.split_ws (lit "{item} costs"))
  /\ _get_separators (lit "{item} costs") = Raise missing_keyword_error.
Proof.
  assert (H : lit "{price}" ∉ Py.split_ws (lit "{item} costs")).
  { intros Hin. vm_compute in Hin.
    repeat (apply elem_of_cons in Hin as [Hin|Hin]; [discriminate Hin|]).
    inversion Hin. }
  split; [exact H|].
  exact (proj1 (missing_placeholder_raises (lit "{item} costs") (or_intror H))).
Defined.

(** ** The total counts the matching lines only *)

Lemma split_raises_value_error (s sep : str) (e : exn) :
  Py.split s sep = inl e -> e = ValueError.
Proof. unfold Py.split. destruct sep; [intros [= <-]; reflexivity|discriminate]. Qed.

Lemma parse_line_cases (sep line : str) :
  (matching sep line = false /\ parse_line sep line = Raise ValueError)
  \/ (exists a b,
        Py.split line sep = Ok [a; b]
        /\ matching sep line = true
        /\ parse_line sep line
           = Ok (if Py.startswith a (lit "$") then (b, a) else (a, b))).
Proof.
  unfold matching, parse_line.
  destruct (Py.split line sep) as [e|parts] eqn:Hs.
  - left. apply split_raises_value_error in Hs as ->. split; reflexivity.
  - destruct parts as [|a [|b [|c parts]]]; try (left; split; reflexivity).
    right. exists a, b. split; [reflexivity|]. split; [reflexivity|].
    simpl. destruct (Py.startswith a (lit "$")); reflexivity.
Qed.

Lemma total_loop_skips (sep : str) (line : str) (rest : list str)
    (t : Float.float) :
  matching sep line = false ->
  total_loop sep (line :: rest) t = total_loop sep rest t.
Proof.
  intros Hm. simpl.
  destruct (parse_line_cases sep line) as [[_ ->]|(a & b & _ & Hm' & _)];
    [reflexivity|congruence].
Qed.

Lemma total_loop_counts (sep : str) (line : str) (rest : list str)
    (t : Float.float) :
  matching sep line = true ->
  total_loop sep (line :: rest) t
  = (v ← line_price sep line; total_loop sep rest (Float.add t v)).
Proof.
  intros Hm. simpl. unfold line_price.
  destruct (parse_line_cases sep line) as [[Hm' _]|(a & b & _ & _ & ->)];
    [congruence|].
  destruct (Py.startswith a (lit "$")); reflexivity.
Qed.

(** A matching line whose price part is not a number ends the scan: the
    exception of [float] is raised outside the [try] block. *)
Lemma total_loop_propagates (sep : str) (line : str) (rest : list str)
    (t : Float.float) (e : exn) :
  matching sep line = true ->
  line_price sep line = Raise e ->
  total_loop sep (line :: rest) t = Raise e.
Proof.
  intros Hm He. rewrite total_loop_counts, He by exact Hm. reflexivity.
Qed.

Lemma total_loop_filter (sep : str) (content : list str) (t : Float.float) :
  total_loop sep content t
  = total_loop sep (List.filter (matching sep) content) t.
Proof.
  revert t. induction content as [|line rest IH]; intros t; [reflexivity|].
  cbn [List.filter]. destruct (matching sep line) eqn:Hm.
  - rewrite !total_loop_counts by assumption.
    destruct (line_price sep line) as [e|v]; [reflexivity|]. simpl. apply IH.
  - rewrite total_loop_skips by assumption. apply IH.
Qed.

Lemma total_loop_sum (sep : str) (content : list str) (t : Float.float) :
  total_loop sep content t
  = (prices ← comprehension (line_price sep)
                (List.filter (matching sep) content);
     Ok (float_sum t prices)).
Proof.
  revert t. induction content as [|line rest IH]; intros t; [reflexivity|].
  cbn [List.filter]. destruct (matching sep line) eqn:Hm.
  - rewrite total_loop_counts by assumption. cbn [comprehension].
    destruct (line_price sep line) as [e|v]; [reflexivity|]. simpl.
    rewrite IH.
    destruct (comprehension _ _) as [e|vs]; reflexivity.
  - rewrite total_loop_skips by assumption. apply IH.
Qed.

(** C4. [calculate_total] accumulates prices only from the lines that
    split into exactly two parts on the separator: its result is the
    formatted sum of the prices of the matching lines, and the running
    total is the same on a file and on the file with every other line
    (header, footer, decoration) removed. *)
Theorem calculate_total_sums_matching_lines (self : Report) (text : str) :
  calculate_total self (Some text)
  = (seps ← _get_separators (_item_fmt self);
     total ← sum_matching (Py.join (lit " ") seps) (Py.readlines text);
     Ok (format_total total))
  /\ forall sep content t,
      total_loop sep content t
      = total_loop sep (List.filter (matching sep) content) t.
Proof.
  split; [|apply total_loop_filter].
  unfold calculate_total, sum_matching.
  destruct (_get_separators (_item_fmt self)) as [e|seps]; [reflexivity|].
  simpl. rewrite total_loop_sum.
  destruct (comprehension _ _) as [e|vs]; reflexivity.
Qed.

Example calculate_total_with_header :
  calculate_total
    (engine_with (lit "{item} = {price}") [] 0 true [])
    (Some (lit "EXPENSE REPORT" ++ [Py.LF] ++ lit "==============" ++ [Py.LF]
           ++ lit "Gum   = $1.25" ++ [Py.LF] ++ lit "--------------" ++ [Py.LF]
           ++ lit "Milk  = $6.50" ++ [Py.LF] ++ lit "GENERATED ON: today"))
  = Ok (lit "$7.75").
Proof. vm_compute. reflexivity. Qed.

(** ** Substring search and [split] *)

Lemma startswith_nil (s : str) : Py.startswith s [] = true.
Proof. destruct s; reflexivity. Qed.

Lemma startswith_iff (s pre : str) :
  Py.startswith s pre = true <-> exists t, s = pre ++ t.
Proof.
  revert s. induction pre as [|p pre IH]; intros s.
  - rewrite startswith_nil. split; [intros _; exists s; reflexivity|reflexivity].
  - destruct s as [|c s]; simpl.
    + split; [discriminate|intros [t Ht]; discriminate].
    + rewrite andb_true_iff, Ascii.eqb_eq, IH. split.
      * intros [-> [t ->]]. exists t. reflexivity.
      * intros [t [= -> ->]]. split; [reflexivity|exists t; reflexivity].
Qed.

Lemma startswith_app (pre t : str) : Py.startswith (pre ++ t) pre = true.
Proof. apply startswith_iff. exists t. reflexivity. Qed.

Lemma find_cons (sub : str) (c : ascii) (s : str) :
  Py.find sub (c :: s)
  = if Py.startswith (c :: s) sub then Some 0 else S <$> Py.find sub s.
Proof. reflexivity. Qed.

Lemma find_nil (sub : str) :
  Py.find sub [] = if Py.startswith [] sub then Some 0 else None.
Proof. reflexivity. Qed.

Lemma find_here (sub t : str) : Py.find sub (sub ++ t) = Some 0.
Proof.
  destruct (sub ++ t) as [|c s] eqn:He.
  - rewrite find_nil, <- He, startswith_app. reflexivity.
  - rewrite find_cons, <- He, startswith_app. reflexivity.
Qed.

Lemma no_start_nil (sub s : str) : no_start sub [] s.
Proof.
  intros a1 a2 H Hne. symmetry in H. apply app_eq_nil in H as [_ ->].
  contradiction.
Qed.

Lemma no_start_cons (sub : str) (c : ascii) (a s : str) :
  no_start sub (c :: a) s <->
  Py.startswith (c :: a ++ s) sub = false /\ no_start sub a s.
Proof.
  split.
  - intros H. split.
    + apply (H [] (c :: a)); [reflexivity|discriminate].
    + intros a1 a2 -> Hne. apply (H (c :: a1) a2); [reflexivity|exact Hne].
  - intros [H0 H] a1 a2 He Hne. destruct a1 as [|c' a1].
    + simpl in He. subst a2. exact H0.
    + injection He as -> ->. apply (H a1 a2); [reflexivity|exact Hne].
Qed.

Lemma find_skip (sub a s : str) :
  no_start sub a s ->
  Py.find sub (a ++ s) = (fun k => length a + k) <$> Py.find sub s.
Proof.
  induction a as [|c a IH]; intros H.
  - simpl. destruct (Py.find sub s); reflexivity.
  - apply no_start_cons in H as [H0 H]. simpl app.
    rewrite find_cons, H0, IH by exact H.
    destruct (Py.find sub s); reflexivity.
Qed.

Lemma find_at (sub a t : str) :
  no_start sub a (sub ++ t) ->
  Py.find sub (a ++ sub ++ t) = Some (length a).
Proof.
  intros H. rewrite find_skip, find_here by exact H. simpl.
  rewrite Nat.add_0_r. reflexivity.
Qed.

Lemma find_Some_inv (sub s : str) (k : nat) :
  Py.find sub s = Some k ->
  exists a t, s = a ++ sub ++ t /\ length a = k /\ no_start sub a (sub ++ t).
Proof.
  revert k. induction s as [|c s IH]; intros k.
  - rewrite find_nil. destruct (Py.startswith [] sub) eqn:Hs; [|discriminate].
    intros [= <-]. apply startswith_iff in Hs as [t Ht].
    exists [], t. split; [exact Ht|]. split; [reflexivity|apply no_start_nil].
  - rewrite find_cons. destruct (Py.startswith (c :: s) sub) eqn:Hs.
    + intros [= <-]. apply startswith_iff in Hs as [t Ht].
      exists [], t. split; [exact Ht|]. split; [reflexivity|apply no_start_nil].
    + destruct (Py.find sub s) as [k'|] eqn:Hf; [|discriminate].
      simpl. intros [= <-].
      destruct (IH k' eq_refl) as (a & t & -> & Hlen & Hno).
      exists (c :: a), t. split; [reflexivity|]. split; [simpl; lia|].
      apply no_start_cons. split; [exact Hs|exact Hno].
Qed.

Lemma find_None_no_start (sub a s : str) :
  Py.find sub (a ++ s) = None -> no_start sub a s.
Proof.
  induction a as [|c a IH]; intros H; [apply no_start_nil|].
  simpl app in H. rewrite find_cons in H.
  destruct (Py.startswith (c :: a ++ s) sub) eqn:Hs; [discriminate|].
  apply no_start_cons. split; [exact Hs|].
  apply IH. destruct (Py.find sub (a ++ s)); [discriminate|reflexivity].
Qed.

Lemma find_le_length (sub s : str) (k : nat) :
  Py.find sub s = Some k -> k + length sub <= length s.
Proof.
  intros H. apply find_Some_inv in H as (a & t & -> & <- & _).
  rewrite !length_app. lia.
Qed.

Lemma take_drop_at_find (sub s : str) (k : nat) :
  Py.find sub s = Some k ->
  s = take k s ++ sub ++ drop (k + length sub) s
  /\ no_start sub (take k s) (sub ++ drop (k + length sub) s).
Proof.
  intros H. apply find_Some_inv in H as (a & t & -> & <- & Hno).
  rewrite take_app_length.
  replace (drop (length a + length sub) (a ++ sub ++ t)) with t.
  - split; [reflexivity|exact Hno].
  - rewrite drop_app_add, drop_app_length. reflexivity.
Qed.

(** The fuel of [split] is enough: any larger amount gives the same
    pieces. *)
Lemma split_fuel_irrelevant (sep : str) (n m : nat) (s : str) :
  sep ≠ [] -> length s <= n -> length s <= m ->
  Py.split_fuel n sep s = Py.split_fuel m sep s.
Proof.
  intros Hsep. revert m s.
  induction n as [|n IH]; intros m s Hn Hm.
  - destruct s; [|simpl in Hn; lia].
    destruct m; [reflexivity|]. destruct sep; [contradiction|reflexivity].
  - destruct m as [|m].
    + destruct s; [|simpl in Hm; lia].
      destruct sep; [contradiction|reflexivity].
    + cbn [Py.split_fuel].
      destruct (Py.find sep s) as [k|] eqn:Hf; [|reflexivity].
      f_equal.
      assert (Hd : S (length (drop (k + length sep) s)) <= length s).
      { apply find_le_length in Hf. rewrite length_drop.
        destruct sep; [contradiction|simpl in *; lia]. }
      apply IH; lia.
Qed.

Lemma split_fuel_enough (sep : str) (n : nat) (s : str) :
  sep ≠ [] -> length s <= n ->
  Py.split_fuel n sep s = Py.split_fuel (length s) sep s.
Proof. intros Hsep Hn. apply split_fuel_irrelevant; [assumption|lia|lia]. Qed.

Lemma split_pieces_eq (sep s : str) :
  sep ≠ [] ->
  split_pieces sep s
  = match Py.find sep s with
    | None => [s]
    | Some k => take k s :: split_pieces sep (drop (k + length sep) s)
    end.
Proof.
  intros Hsep. unfold split_pieces.
  destruct s as [|c s].
  - destruct sep; [contradiction|reflexivity].
  - cbn [Py.split_fuel length].
    destruct (Py.find sep (c :: s)) as [k|] eqn:Hf; [|reflexivity].
    f_equal. apply split_fuel_enough; [exact Hsep|].
    rewrite length_drop. simpl. destruct sep; [contradiction|simpl; lia].
Qed.

Lemma split_eq (s sep : str) :
  sep ≠ [] -> Py.split s sep = Ok (split_pieces sep s).
Proof. destruct sep; [contradiction|reflexivity]. Qed.

Lemma split_pieces_none (sep s : str) :
  sep ≠ [] -> Py.find sep s = None -> split_pieces sep s = [s].
Proof. intros Hsep Hf. rewrite split_pieces_eq, Hf by exact Hsep. reflexivity. Qed.

Lemma split_pieces_at (sep a t : str) :
  sep ≠ [] -> no_start sep a (sep ++ t) ->
  split_pieces sep (a ++ sep ++ t) = a :: split_pieces sep t.
Proof.
  intros Hsep Hno. rewrite split_pieces_eq, find_at by assumption.
  rewrite take_app_length.
  rewrite drop_app_add, drop_app_length. reflexivity.
Qed.

Lemma split_pieces_not_nil (sep s : str) : split_pieces sep s ≠ [].
Proof. unfold split_pieces. destruct (length s); simpl;
  [discriminate|destruct (Py.find sep s); discriminate]. Qed.

(** Exactly two pieces: one occurrence found by the scan, none after it. *)
Lemma split_two_iff (s sep a b : str) :
  sep ≠ [] ->
  Py.split s sep = Ok [a; b] <->
  s = a ++ sep ++ b /\ no_start sep a (sep ++ b) /\ Py.find sep b = None.
Proof.
  intros Hsep. rewrite split_eq by exact Hsep. split.
  - intros [= H]. rewrite split_pieces_eq in H by exact Hsep.
    destruct (Py.find sep s) as [k|] eqn:Hf; [|discriminate].
    injection H as Ha Hb.
    apply take_drop_at_find in Hf as [Hs Hno].
    rewrite Ha in Hs, Hno.
    rewrite split_pieces_eq in Hb by exact Hsep.
    destruct (Py.find sep (drop (k + length sep) s)) as [k'|] eqn:Hf'.
    { injection Hb as _ Hb. exfalso. eapply split_pieces_not_nil, Hb. }
    injection Hb as Hb. rewrite Hb in Hs, Hno, Hf'. auto.
  - intros (-> & Hno & Hf). f_equal.
    rewrite split_pieces_at, split_pieces_none by assumption. reflexivity.
Qed.

(** ** The separator words are words *)

Lemma word_take_while (c : ascii) (r : str) :
  Py.isspace c = false ->
  word (rev (Py.take_while Py.nonspace (c :: r))).
Proof.
  intros Hc. split.
  - simpl. rewrite (proj2 (nonspace_true c) Hc). simpl.
    intros He. apply app_eq_nil in He as [_ He]. discriminate.
  - apply wordlike_rev, wordlike_take_while.
Qed.

(** Every piece of [rsplit] but the first is a word: only the remainder
    kept when [maxsplit] runs out can hold white space. *)
Lemma rsplit_ws_loop_tail (n : nat) (r : str) (acc : list str) :
  exists pre, Py.rsplit_ws_loop n r acc = pre ++ acc /\ Forall word (tail pre).
Proof.
  revert r acc. induction n as [|k IH]; intros r acc; cbn [Py.rsplit_ws_loop].
  - destruct (Py.drop_while Py.isspace r) as [|c r'].
    + exists []. split; [reflexivity|constructor].
    + exists [rev (c :: r')]. split; [reflexivity|constructor].
  - destruct (Py.drop_while Py.isspace r) as [|c r'] eqn:Hd.
    + exists []. split; [reflexivity|constructor].
    + destruct (IH (Py.drop_while Py.nonspace (c :: r'))
                  (rev (Py.take_while Py.nonspace (c :: r')) :: acc))
        as (pre & -> & Hpre).
      exists (pre ++ [rev (Py.take_while Py.nonspace (c :: r'))]).
      split; [rewrite <- app_assoc; reflexivity|].
      assert (Hw : word (rev (Py.take_while Py.nonspace (c :: r')))).
      { apply word_take_while. eapply drop_while_head. exact Hd. }
      destruct pre as [|x pre]; [constructor|].
      simpl in *. apply Forall_app. split; [exact Hpre|].
      constructor; [exact Hw|constructor].
Qed.

Lemma rsplit_ws_tail (s : str) (n : nat) : Forall word (tail (Py.rsplit_ws s n)).
Proof.
  unfold Py.rsplit_ws.
  destruct (rsplit_ws_loop_tail n (rev s) []) as (pre & -> & H).
  rewrite app_nil_r. exact H.
Qed.

Lemma slice_tail {A} (P : A -> Prop) (a b : nat) (l : list A) :
  Forall P (tail l) -> Forall P (Py.slice (S a) b l).
Proof.
  unfold Py.slice. intros H. destruct l as [|x l]; [rewrite take_nil; constructor|].
  destruct b as [|b]; [constructor|].
  simpl in *. apply Forall_drop, Forall_take, H.
Qed.

Lemma get_separators_words (item_fmt : str) (seps : list str) :
  _get_separators item_fmt = Ok seps -> Forall word seps.
Proof.
  unfold _get_separators.
  destruct (for_each _ words_to_search) as [e|[]]; [discriminate|].
  destruct (comprehension _ words_to_search) as [e|indexes]; [discriminate|].
  simpl.
  destruct (Py.sorted indexes) as [|i0 [|i1 rest]]; try discriminate.
  intros [= <-]. rewrite Nat.add_1_r. apply slice_tail, rsplit_ws_tail.
Qed.

(** ** Padding in front of the separator *)

Lemma startswith_before_blank (sep a sp r : str) :
  wordlike sep -> blank sp -> sp ≠ [] ->
  Py.startswith (a ++ sp ++ r) sep = true ->
  exists t, a = sep ++ t.
Proof.
  intros Hsep Hsp Hne. revert a.
  induction Hsep as [|x sep Hx _ IH]; intros a H.
  - exists a. reflexivity.
  - destruct a as [|y a].
    + destruct Hsp as [|c sp Hc _]; [contradiction|].
      simpl in H. apply andb_true_iff in H as [H _].
      apply Ascii.eqb_eq in H. congruence.
    + simpl in H. apply andb_true_iff in H as [Hy H].
      apply Ascii.eqb_eq in Hy. subst y.
      destruct (IH a H) as [t ->]. exists t. reflexivity.
Qed.

Lemma no_start_pad (sep a sp p : str) :
  word sep -> blank sp ->
  no_start sep a (sep ++ p) ->
  no_start sep (a ++ sp) (sep ++ p).
Proof.
  intros [Hne Hw] Hsp Hno a1 a2 He Ha2.
  destruct (Py.startswith (a2 ++ sep ++ p) sep) eqn:Hs; [exfalso|reflexivity].
  apply app_eq_app in He as [l [[-> ->]|[-> ->]]].
  - destruct sp as [|c sp].
    + rewrite app_nil_r in Hs, Ha2.
      rewrite (Hno a1 l eq_refl Ha2) in Hs. discriminate.
    + rewrite <- app_assoc in Hs.
      apply startswith_before_blank in Hs as [t ->];
        [|assumption|assumption|discriminate].
      assert (Hl : sep ++ t ≠ []).
      { intros He. apply app_eq_nil in He as [He _]. contradiction. }
      pose proof (Hno a1 (sep ++ t) eq_refl Hl) as Hf.
      rewrite <- app_assoc, startswith_app in Hf. discriminate.
  - apply Forall_app in Hsp as [_ Hsp].
    apply (startswith_before_blank sep [] a2 (sep ++ p)) in Hs as [t Ht];
      [|assumption|assumption|assumption].
    symmetry in Ht. apply app_eq_nil in Ht as [Ht _]. contradiction.
Qed.

Lemma split_padded (sep a sp p : str) :
  word sep -> blank sp ->
  Py.split (a ++ sep ++ p) sep = Ok [a; p] ->
  Py.split (a ++ sp ++ sep ++ p) sep = Ok [a ++ sp; p]
  /\ Py.find sep (a ++ sp ++ sep ++ p) = Some (length a + length sp).
Proof.
  intros Hsep Hsp H. pose proof Hsep as [Hne _].
  apply split_two_iff in H as (_ & Hno & Hf); [|exact Hne].
  pose proof (no_start_pad sep a sp p Hsep Hsp Hno) as Hno'.
  split.
  - apply split_two_iff; [exact Hne|].
    rewrite <- app_assoc. auto.
  - rewrite app_assoc, <- length_app. apply find_at. exact Hno'.
Qed.

Lemma blank_replicate (n : nat) : blank (replicate n " "%char).
Proof. apply Forall_replicate. reflexivity. Qed.

Lemma strip_with_app (p : ascii -> bool) (s sp : str) :
  Forall (fun c => p c = true) sp ->
  Py.strip_with p (s ++ sp) = Py.strip_with p s.
Proof.
  intros Hsp. unfold Py.strip_with.
  rewrite <- (take_drop_while p s) at 1.
  rewrite <- app_assoc, drop_while_app by apply take_while_Forall.
  destruct (Py.drop_while p s) as [|x s2] eqn:Hd.
  - simpl. rewrite (drop_while_all p sp Hsp). reflexivity.
  - assert (Hx : p x = false) by (eapply drop_while_head; exact Hd).
    change ((x :: s2) ++ sp) with (x :: (s2 ++ sp)).
    rewrite drop_while_stop by exact Hx.
    change (x :: s2 ++ sp) with ((x :: s2) ++ sp).
    rewrite rev_app_distr, drop_while_app by (apply Forall_rev, Hsp).
    reflexivity.
Qed.

Lemma strip_padded (s : str) (n : nat) :
  Py.strip (s ++ replicate n " "%char) = Py.strip s.
Proof. apply strip_with_app, blank_replicate. Qed.

(** ** The aligner *)

Lemma matching_split (sep e : str) :
  matching sep e = true -> exists q, Py.split e sep = Ok (pair_list q).
Proof.
  unfold matching. destruct (Py.split e sep) as [x|[|a [|b [|c l]]]];
    try discriminate.
  intros _. exists (a, b). reflexivity.
Qed.

Lemma matching_parts (sep : str) (es : list str) :
  Forall (fun e => matching sep e = true) es ->
  exists ps, Forall2 (fun e q => Py.split e sep = Ok (pair_list q)) es ps.
Proof.
  induction 1 as [|e es He _ [ps IH]].
  - exists []. constructor.
  - destruct (matching_split sep e He) as [q Hq].
    exists (q :: ps). constructor; assumption.
Qed.

Lemma comprehension_split (sep : str) (es : list str) (ps : list (str * str)) :
  Forall2 (fun e q => Py.split e sep = Ok (pair_list q)) es ps ->
  comprehension (fun e => Py.split e sep) es = Ok (pair_list <$> ps).
Proof.
  induction 1 as [|e q es ps He _ IH]; [reflexivity|].
  cbn [comprehension]. rewrite He, IH. reflexivity.
Qed.

Lemma comprehension_items (ps : list (str * str)) :
  comprehension (fun e => fst <$> unpack2 e) (pair_list <$> ps) = Ok (fst <$> ps).
Proof.
  induction ps as [|[a b] ps IH]; [reflexivity|].
  cbn [comprehension fmap list_fmap]. rewrite IH. reflexivity.
Qed.

Lemma fold_longer (l : list str) (x : str) :
  let m := fold_left (fun best y => if length best <? length y then y else best) l x in
  length x <= length m /\ Forall (fun y => length y <= length m) l.
Proof.
  revert x. induction l as [|y l IH]; intros x; simpl.
  - split; [lia|constructor].
  - destruct (IH (if length x <? length y then y else x)) as [H1 H2].
    destruct (Nat.ltb_spec (length x) (length y)); (split; [lia|]);
      (constructor; [lia|exact H2]).
Qed.

Lemma max_by_len_bound (items : list str) (m : str) :
  max_by_len items = Ok m -> Forall (fun y => length y <= length m) items.
Proof.
  destruct items as [|x l]; [discriminate|]. intros [= <-].
  destruct (fold_longer l x) as [H1 H2]. constructor; assumption.
Qed.

Lemma max_by_len_ok (items : list str) :
  items ≠ [] -> exists m, max_by_len items = Ok m.
Proof. destruct items; [contradiction|]. intros _. eexists. reflexivity. Qed.

Lemma align_entry_eval (sep : str) (items : list str) (m : str)
    (index : nat) (q : str * str) :
  max_by_len items = Ok m ->
  items !! index = Some q.1 ->
  align_entry sep items (index, pair_list q) = Ok (padded (length m) sep q).
Proof.
  intros Hm Hi. destruct q as [a b]. unfold align_entry, getitem.
  cbn [pair_list unpack2 fst snd] in *. rewrite Hm, Hi. reflexivity.
Qed.

Lemma comprehension_align (sep : str) (items : list str) (m : str)
    (qs : list (str * str)) (start : nat) :
  max_by_len items = Ok m ->
  (forall k q, qs !! k = Some q -> items !! (start + k) = Some q.1) ->
  comprehension (align_entry sep items)
    (zip (seq start (length qs)) (pair_list <$> qs))
  = Ok (padded (length m) sep <$> qs).
Proof.
  intros Hm. revert start.
  induction qs as [|q qs IH]; intros start Hitems; [reflexivity|].
  assert (H0 : items !! start = Some q.1).
  { rewrite <- (Nat.add_0_r start). apply (Hitems 0). reflexivity. }
  assert (HS : forall k q', qs !! k = Some q' -> items !! (S start + k) = Some q'.1).
  { intros k q' Hq. replace (S start + k) with (start + S k) by lia.
    apply (Hitems (S k)). exact Hq. }
  change (comprehension (align_entry sep items)
            (zip (seq start (length (q :: qs))) (pair_list <$> q :: qs)))
    with (y ← align_entry sep items (start, pair_list q);
          ys ← comprehension (align_entry sep items)
                 (zip (seq (S start) (length qs)) (pair_list <$> qs));
          Ok (y :: ys)).
  rewrite (align_entry_eval sep items m start q Hm H0), (IH (S start) HS).
  reflexivity.
Qed.

Lemma align_separator_eval (self : Report) (seps : list str) (sep : str)
    (es : list str) (ps : list (str * str)) (m : str) :
  _get_separators (_item_fmt self) = Ok seps ->
  last seps = Some sep ->
  Forall2 (fun e q => Py.split e sep = Ok (pair_list q)) es ps ->
  (ps ≠ [] -> max_by_len (fst <$> ps) = Ok m) ->
  _align_separator self es = Ok (padded (length m) sep <$> ps).
Proof.
  intros Hseps Hlast Hps Hm. unfold _align_separator, last_item.
  rewrite Hseps, result_bind_ok, Hlast, result_bind_ok.
  rewrite (comprehension_split sep es ps Hps), result_bind_ok.
  rewrite comprehension_items, result_bind_ok.
  destruct ps as [|q ps]; [reflexivity|].
  unfold enumerate. rewrite length_fmap.
  apply comprehension_align; [apply Hm; discriminate|].
  intros k q' Hq. change (0 + k) with k. rewrite list_lookup_fmap, Hq. reflexivity.
Qed.

(** C6. When every entry splits into exactly two parts on the last
    separator word, [_align_separator] returns as many entries in the same
    order; entry [k] is the left part of the original entry [k], padded
    with blanks, then the separator and the untouched right part; the
    separator is first found at one and the same column in every aligned
    entry; splitting an aligned entry gives the padded left part and the
    same right part, and stripping the padded left part gives what
    stripping the original left part gives. *)
Theorem align_separator_aligns (self : Report) (seps : list str) (sep : str)
    (es : list str) :
  _get_separators (_item_fmt self) = Ok seps ->
  last seps = Some sep ->
  Forall (fun e => matching sep e = true) es ->
  exists aligned col,
    _align_separator self es = Ok aligned
    /\ length aligned = length es
    /\ forall k e,
        es !! k = Some e ->
        exists it pr pad,
          Py.split e sep = Ok [it; pr]
          /\ aligned !! k = Some (it ++ replicate pad " "%char ++ sep ++ pr)
          /\ Py.find sep (it ++ replicate pad " "%char ++ sep ++ pr) = Some col
          /\ Py.split (it ++ replicate pad " "%char ++ sep ++ pr) sep
             = Ok [it ++ replicate pad " "%char; pr]
          /\ Py.strip (it ++ replicate pad " "%char) = Py.strip it.
Proof.
  intros Hseps Hlast Hes.
  assert (Hword : word sep).
  { pose proof (get_separators_words _ _ Hseps) as Hw.
    rewrite Forall_forall in Hw. apply Hw, last_Some_elem_of, Hlast. }
  destruct (matching_parts sep es Hes) as [ps Hps].
  assert (Hm : exists m, ps ≠ [] -> max_by_len (fst <$> ps) = Ok m).
  { destruct ps as [|q ps]; [exists []; intros H; contradiction|].
    destruct (max_by_len_ok (fst <$> q :: ps)) as [m Hm]; [discriminate|].
    exists m. intros _. exact Hm. }
  destruct Hm as [m Hm].
  exists (padded (length m) sep <$> ps), (length m).
  split; [eapply align_separator_eval; eassumption|].
  split; [rewrite length_fmap; symmetry; eapply Forall2_length, Hps|].
  intros k e He.
  destruct (Forall2_lookup_l _ _ _ _ _ Hps He) as ([it pr] & Hq & Hsplit).
  exists it, pr, (length m - length it).
  assert (Hle : length it <= length m).
  { assert (Hne : ps ≠ []) by (intros ->; discriminate Hq).
    pose proof (max_by_len_bound _ _ (Hm Hne)) as Hb.
    rewrite Forall_forall in Hb. apply Hb.
    apply list_elem_of_fmap. exists (it, pr). split; [reflexivity|].
    eapply list_elem_of_lookup_2, Hq. }
  pose proof Hsplit as Hshape. cbn [pair_list fst snd] in Hshape.
  apply split_two_iff in Hshape as (Heq & _); [|apply Hword].
  pose proof Hsplit as Hsplit'. cbn [pair_list fst snd] in Hsplit'.
  rewrite Heq in Hsplit'.
  destruct (split_padded sep it (replicate (length m - length it) " "%char) pr
              Hword (blank_replicate _) Hsplit') as [Hs Hf].
  split; [exact Hsplit|].
  split; [rewrite list_lookup_fmap, Hq; reflexivity|].
  split; [rewrite Hf, length_replicate; f_equal; lia|].
  split; [exact Hs|apply strip_padded].
Qed.

Lemma align_separator_aligns_witness :
  _get_separators (_item_fmt default_engine) = Ok [lit "="]
  /\ last [lit "="] = Some (lit "=")
  /\ Forall (fun e => matching (lit "=") e = true)
       [lit "Gum = $1.00"; lit "Diapers = $12.50"]
  /\ exists aligned col,
      _align_separator default_engine [lit "Gum = $1.00"; lit "Diapers = $12.50"]
      = Ok aligned
      /\ length aligned = 2
      /\ forall k e,
          [lit "Gum = $1.00"; lit "Diapers = $12.50"] !! k = Some e ->
          exists it pr pad,
            Py.split e (lit "=") = Ok [it; pr]
            /\ aligned !! k = Some (it ++ replicate pad " "%char ++ lit "=" ++ pr)
            /\ Py.find (lit "=") (it ++ replicate pad " "%char ++ lit "=" ++ pr)
               = Some col
            /\ Py.split (it ++ replicate pad " "%char ++ lit "=" ++ pr) (lit "=")
               = Ok [it ++ replicate pad " "%char; pr]
            /\ Py.strip (it ++ replicate pad " "%char) = Py.strip it.
Proof.
  assert (H1 : _get_separators (_item_fmt default_engine) = Ok [lit "="])
    by (vm_compute; reflexivity).
  assert (H2 : last [lit "="] = Some (lit "=")) by reflexivity.
  assert (H3 : Forall (fun e => matching (lit "=") e = true)
                 [lit "Gum = $1.00"; lit "Diapers = $12.50"])
    by (repeat constructor).
  split; [exact H1|]. split; [exact H2|]. split; [exact H3|].
  exact (align_separator_aligns default_engine [lit "="] (lit "=")
           [lit "Gum = $1.00"; lit "Diapers = $12.50"] H1 H2 H3).
Defined.

Example align_separator_run :
  _align_separator default_engine [lit "Gum = $1.00"; lit "Diapers = $12.50"]
  = Ok [lit "Gum     = $1.00"; lit "Diapers = $12.50"].
Proof. vm_compute. reflexivity. Qed.

(** ** Separator inference on formats of three words *)

Lemma word_rev_head (w : str) :
  word w -> exists c r, rev w = c :: r /\ Py.isspace c = false.
Proof.
  intros [Hne Hw]. destruct (rev w) as [|c r] eqn:Hr.
  - apply (f_equal (@rev ascii)) in Hr. rewrite rev_involutive in Hr.
    contradiction.
  - exists c, r. split; [reflexivity|].
    apply wordlike_rev in Hw. rewrite Hr in Hw. inversion Hw; assumption.
Qed.

Lemma space_led_rev_blank (b rest : str) :
  blank b -> b ≠ [] -> space_led (rev b ++ rest).
Proof.
  intros Hb Hne. right. apply blank_rev in Hb.
  destruct (rev b) as [|c r] eqn:Hr.
  - apply (f_equal (@rev ascii)) in Hr. rewrite rev_involutive in Hr.
    contradiction.
  - exists c, (r ++ rest). split; [reflexivity|]. inversion Hb; assumption.
Qed.

Lemma drop_blank_then_word (b w rest : str) :
  blank b -> word w ->
  Py.drop_while Py.isspace (rev b ++ rev w ++ rest) = rev w ++ rest.
Proof.
  intros Hb Hw. rewrite drop_while_app by (apply blank_rev, Hb).
  destruct (word_rev_head w Hw) as (c & r & -> & Hc).
  simpl. rewrite Hc. reflexivity.
Qed.

Lemma take_word (w rest : str) :
  word w -> space_led rest ->
  Py.take_while Py.nonspace (rev w ++ rest) = rev w.
Proof.
  intros [_ Hw] Hrest. rewrite take_while_app.
  - destruct Hrest as [->|(c & r & -> & Hc)]; simpl.
    + apply app_nil_r.
    + rewrite (proj2 (nonspace_false c) Hc). apply app_nil_r.
  - eapply Forall_impl; [apply wordlike_rev, Hw|].
    intros c. apply nonspace_true.
Qed.

Lemma drop_word (w rest : str) :
  word w -> space_led rest ->
  Py.drop_while Py.nonspace (rev w ++ rest) = rest.
Proof.
  intros [_ Hw] Hrest. rewrite drop_while_app.
  - destruct Hrest as [->|(c & r & -> & Hc)]; simpl; [reflexivity|].
    rewrite (proj2 (nonspace_false c) Hc). reflexivity.
  - eapply Forall_impl; [apply wordlike_rev, Hw|].
    intros c. apply nonspace_true.
Qed.

Lemma rsplit_ws_loop_word (k : nat) (b w rest : str) (acc : list str) :
  blank b -> word w -> space_led rest ->
  Py.rsplit_ws_loop (S k) (rev b ++ rev w ++ rest) acc
  = Py.rsplit_ws_loop k rest (w :: acc).
Proof.
  intros Hb Hw Hrest. cbn [Py.rsplit_ws_loop].
  rewrite drop_blank_then_word by assumption.
  destruct (word_rev_head w Hw) as (c & r & Hr & Hc).
  destruct (rev w ++ rest) as [|c' r'] eqn:He.
  { rewrite Hr in He. discriminate. }
  rewrite <- He, take_word, drop_word, rev_involutive by assumption.
  reflexivity.
Qed.

(** A format made of three words, with no white space in front, is cut
    into exactly these words. *)
Lemma rsplit_ws_three (w0 b1 w1 b2 w2 b3 : str) :
  word w0 -> word w1 -> word w2 ->
  blank b1 -> b1 ≠ [] -> blank b2 -> b2 ≠ [] -> blank b3 ->
  Py.rsplit_ws (w0 ++ b1 ++ w1 ++ b2 ++ w2 ++ b3) 2 = [w0; w1; w2].
Proof.
  intros H0 H1 H2 Hb1 Hn1 Hb2 Hn2 Hb3. unfold Py.rsplit_ws.
  rewrite !rev_app_distr, <- !app_assoc.
  rewrite rsplit_ws_loop_word;
    [|assumption|assumption|apply space_led_rev_blank; assumption].
  rewrite rsplit_ws_loop_word;
    [|assumption|assumption|apply space_led_rev_blank; assumption].
  cbn [Py.rsplit_ws_loop].
  rewrite <- (app_nil_r (rev w0)).
  rewrite drop_blank_then_word by assumption.
  destruct (word_rev_head w0 H0) as (c & r & Hr & Hc).
  rewrite app_nil_r, Hr, <- Hr, rev_involutive. reflexivity.
Qed.

Lemma word_placeholders (price_first : bool) :
  word (placeholders price_first).1 /\ word (placeholders price_first).2.
Proof.
  destruct price_first; cbn [placeholders fst snd];
    (split; [split; [discriminate|apply wordlike_price || apply wordlike_item]
            |split; [discriminate|apply wordlike_price || apply wordlike_item]]).
Qed.

Lemma brace_free_not_placeholder (sep : str) :
  sep ≠ [] -> brace_free sep -> sep ≠ lit "{item}" /\ sep ≠ lit "{price}".
Proof.
  intros Hne Hb.
  split; intros ->; inversion Hb as [|c l [Hc _] _]; apply Hc; reflexivity.
Qed.

(** The positive side of separator inference: on a format that is one
    placeholder, a word and the other placeholder, in either order and
    with any white space between them and after them, the word is
    returned. *)
Lemma get_separators_three (price_first : bool) (ws1 sep ws2 ws3 : str) :
  word sep -> brace_free sep ->
  blank ws1 -> ws1 ≠ [] -> blank ws2 -> ws2 ≠ [] -> blank ws3 ->
  _get_separators
    ((placeholders price_first).1 ++ ws1 ++ sep ++ ws2
     ++ (placeholders price_first).2 ++ ws3)
  = Ok [sep].
Proof.
  intros Hsep Hbf Hb1 Hn1 Hb2 Hn2 Hb3.
  destruct (word_placeholders price_first) as [Hp1 Hp2].
  unfold _get_separators.
  rewrite rsplit_ws_three by assumption.
  destruct (brace_free_not_placeholder sep (proj1 Hsep) Hbf) as [Hi Hp].
  unfold words_to_search, Py.contains, Py.index.
  cbn [for_each comprehension Py.index_from].
  assert (Hin : forall x a b : str, x = a \/ x = b -> bool_decide (x ∈ [a; sep; b]) = true).
  { intros x a b [->| ->]; apply bool_decide_eq_true_2.
    - apply list_elem_of_here.
    - do 2 apply list_elem_of_further. apply list_elem_of_here. }
  destruct price_first; cbn [placeholders fst snd];
    rewrite !Hin by auto;
    rewrite ?(bool_decide_eq_false_2 (sep = lit "{item}")) by assumption;
    rewrite ?(bool_decide_eq_false_2 (sep = lit "{price}")) by assumption;
    reflexivity.
Qed.

(** ** [str.format] on literal text and simple fields *)

Lemma brace_free_eqb (c : ascii) :
  c ≠ "{"%char /\ c ≠ "}"%char ->
  Ascii.eqb c "{" = false /\ Ascii.eqb c "}" = false.
Proof. intros [H1 H2]. split; apply Ascii.eqb_neq; assumption. Qed.

Lemma blank_brace_free (w : str) : blank w -> brace_free w.
Proof.
  intros H. eapply Forall_impl; [exact H|].
  intros c Hc. split; intros ->; discriminate Hc.
Qed.

Lemma format_go_literal (kw : gmap str str) (l rest : str) :
  brace_free l ->
  Py.format_go kw None (l ++ rest)
  = (r ← Py.format_go kw None rest; Ok (l ++ r)).
Proof.
  induction 1 as [|c l Hc _ IH].
  - simpl. destruct (Py.format_go kw None rest); reflexivity.
  - apply brace_free_eqb in Hc as [H1 H2].
    cbn [app Py.format_go]. rewrite H1, H2, IH.
    destruct (Py.format_go kw None rest); reflexivity.
Qed.

Lemma format_go_field (kw : gmap str str) (acc name rest : str) :
  Forall (fun c => c ≠ "}"%char) name ->
  Py.format_go kw (Some acc) (name ++ "}"%char :: rest)
  = (v ← Py.format_field kw (rev acc ++ name);
     r ← Py.format_go kw None rest;
     Ok (v ++ r)).
Proof.
  intros H. revert acc. induction H as [|c name Hc _ IH]; intros acc.
  - cbn [app Py.format_go]. rewrite app_nil_r. reflexivity.
  - cbn [app Py.format_go].
    rewrite (proj2 (Ascii.eqb_neq c "}") Hc), IH.
    cbn [rev]. rewrite <- app_assoc. reflexivity.
Qed.

Lemma format_go_placeholder (kw : gmap str str) (name v rest : str) :
  plain_name name ->
  kw !! name = Some v ->
  Py.format_go kw None ("{"%char :: name ++ "}"%char :: rest)
  = (r ← Py.format_go kw None rest; Ok (v ++ r)).
Proof.
  intros ((c & name' & -> & Hc) & Hu & Hd & Hn) Hkw.
  assert (Hopen : Py.format_go kw None ("{"%char :: (c :: name') ++ "}"%char :: rest)
                  = Py.format_go kw (Some []) ((c :: name') ++ "}"%char :: rest)).
  { simpl. rewrite (proj2 (Ascii.eqb_neq c "{") Hc). reflexivity. }
  rewrite Hopen, format_go_field by exact Hn.
  unfold Py.format_field. cbn [rev app]. rewrite Hu, Hd, Hkw. reflexivity.
Qed.

Lemma plain_name_item : plain_name (lit "item").
Proof.
  split; [eexists _, _; split; [reflexivity|discriminate]|].
  split; [reflexivity|]. split; [reflexivity|].
  repeat constructor; discriminate.
Qed.

Lemma plain_name_price : plain_name (lit "price").
Proof.
  split; [eexists _, _; split; [reflexivity|discriminate]|].
  split; [reflexivity|]. split; [reflexivity|].
  repeat constructor; discriminate.
Qed.

Lemma plain_name_report : plain_name (lit "report").
Proof.
  split; [eexists _, _; split; [reflexivity|discriminate]|].
  split; [reflexivity|]. split; [reflexivity|].
  repeat constructor; discriminate.
Qed.

Lemma kwargs_item (p : pick) : kwargs p !! lit "item" = Some (item p).
Proof. unfold kwargs. apply lookup_insert_eq. Qed.

Lemma kwargs_price (p : pick) : kwargs p !! lit "price" = Some (price p).
Proof.
  unfold kwargs. rewrite lookup_insert_ne by discriminate.
  apply lookup_singleton_eq.
Qed.

Lemma format_go_item (kw : gmap str str) (v rest : str) :
  kw !! lit "item" = Some v ->
  Py.format_go kw None (lit "{item}" ++ rest)
  = (r ← Py.format_go kw None rest; Ok (v ++ r)).
Proof. exact (format_go_placeholder kw (lit "item") v rest plain_name_item). Qed.

Lemma format_go_price (kw : gmap str str) (v rest : str) :
  kw !! lit "price" = Some v ->
  Py.format_go kw None (lit "{price}" ++ rest)
  = (r ← Py.format_go kw None rest; Ok (v ++ r)).
Proof. exact (format_go_placeholder kw (lit "price") v rest plain_name_price). Qed.

Lemma format_go_report (kw : gmap str str) (v rest : str) :
  kw !! lit "report" = Some v ->
  Py.format_go kw None (lit "{report}" ++ rest)
  = (r ← Py.format_go kw None rest; Ok (v ++ r)).
Proof. exact (format_go_placeholder kw (lit "report") v rest plain_name_report). Qed.

Lemma format_go_tail (kw : gmap str str) (l : str) :
  brace_free l -> Py.format_go kw None l = Ok l.
Proof.
  intros H. rewrite <- (app_nil_r l) at 1. rewrite format_go_literal by exact H.
  simpl. rewrite app_nil_r. reflexivity.
Qed.

Lemma format_entry (price_first : bool) (ws1 sep ws2 ws3 : str) (p : pick) :
  brace_free sep -> blank ws1 -> blank ws2 -> blank ws3 ->
  Py.format
    ((placeholders price_first).1 ++ ws1 ++ sep ++ ws2
     ++ (placeholders price_first).2 ++ ws3) (kwargs p)
  = Ok ((pick_values price_first p).1 ++ ws1 ++ sep ++ ws2
        ++ (pick_values price_first p).2 ++ ws3).
Proof.
  intros Hsep H1 H2 H3. unfold Py.format.
  apply blank_brace_free in H1, H2, H3.
  destruct price_first; cbn [placeholders pick_values fst snd].
  - rewrite (format_go_price _ _ _ (kwargs_price p)).
    rewrite !format_go_literal by assumption.
    rewrite (format_go_item _ _ _ (kwargs_item p)).
    rewrite format_go_tail by assumption. reflexivity.
  - rewrite (format_go_item _ _ _ (kwargs_item p)).
    rewrite !format_go_literal by assumption.
    rewrite (format_go_price _ _ _ (kwargs_price p)).
    rewrite format_go_tail by assumption. reflexivity.
Qed.

Lemma format_around_report (kw : gmap str str) (a b report : str) :
  brace_free a -> brace_free b ->
  kw !! lit "report" = Some report ->
  Py.format (a ++ lit "{report}" ++ b) kw = Ok (a ++ report ++ b).
Proof.
  intros Ha Hb Hkw. unfold Py.format.
  rewrite format_go_literal by exact Ha.
  rewrite (format_go_report _ _ _ Hkw), format_go_tail by exact Hb.
  reflexivity.
Qed.

(** ** Joining lines and reading them back *)

Lemma universal_newlines_id (s : str) :
  Forall (fun c => c ≠ Py.CR) s -> Py.universal_newlines s = s.
Proof.
  induction 1 as [|c s Hc _ IH]; [reflexivity|].
  cbn [Py.universal_newlines].
  rewrite (proj2 (Ascii.eqb_neq c Py.CR) Hc), IH. reflexivity.
Qed.

Lemma join_cons (sep x : str) (l : list str) :
  Py.join sep (x :: l)
  = x ++ match l with [] => [] | _ => sep ++ Py.join sep l end.
Proof. destruct l; simpl; [rewrite app_nil_r|]; reflexivity. Qed.

Lemma join_lead (sep : str) (l : list str) :
  l ≠ [] -> sep ++ Py.join sep l = concat ((fun x => sep ++ x) <$> l).
Proof.
  induction l as [|x l IH]; [contradiction|]. intros _.
  rewrite join_cons. destruct l as [|y l].
  - simpl. rewrite !app_nil_r. reflexivity.
  - rewrite IH by discriminate. simpl.
    rewrite <- !app_assoc. reflexivity.
Qed.

Lemma join_app_post (sep : str) (X post : list str) :
  X ≠ [] ->
  Py.join sep (X ++ post)
  = Py.join sep X ++ concat ((fun x => sep ++ x) <$> post).
Proof.
  induction X as [|x X IH]; [contradiction|]. intros _.
  destruct X as [|x' X].
  - cbn [app]. rewrite join_cons. destruct post as [|y post].
    + simpl. rewrite app_nil_r. reflexivity.
    + rewrite join_lead by discriminate. reflexivity.
  - specialize (IH ltac:(discriminate)). cbn [app] in IH |- *.
    rewrite (join_cons sep x (x' :: X ++ post)), IH, (join_cons sep x (x' :: X)).
    rewrite <- !app_assoc. reflexivity.
Qed.

Lemma join_middle (sep : str) (pre X post : list str) :
  X ≠ [] ->
  Py.join sep (pre ++ X ++ post)
  = concat ((fun x => x ++ sep) <$> pre) ++ Py.join sep X
    ++ concat ((fun x => sep ++ x) <$> post).
Proof.
  intros HX. induction pre as [|p pre IH].
  - simpl. apply join_app_post, HX.
  - cbn [app fmap list_fmap concat]. rewrite join_cons, IH.
    destruct (pre ++ X ++ post) eqn:He.
    + apply app_eq_nil in He as [_ He]. apply app_eq_nil in He as [He _].
      contradiction.
    + rewrite <- !app_assoc. reflexivity.
Qed.

Lemma lines_go_line (cur l rest : str) :
  Forall (fun c => c ≠ Py.LF) l ->
  Py.lines_go cur (l ++ Py.LF :: rest)
  = (rev cur ++ l ++ [Py.LF]) :: Py.lines_go [] rest.
Proof.
  intros H. revert cur. induction H as [|c l Hc _ IH]; intros cur.
  - cbn [app Py.lines_go]. rewrite Ascii.eqb_refl. reflexivity.
  - cbn [app Py.lines_go]. rewrite (proj2 (Ascii.eqb_neq c Py.LF) Hc), IH.
    cbn [rev]. rewrite <- app_assoc. reflexivity.
Qed.

Lemma lines_go_last (cur l : str) :
  Forall (fun c => c ≠ Py.LF) l ->
  Py.lines_go cur l
  = match rev cur ++ l with [] => [] | r => [r] end.
Proof.
  intros H. revert cur. induction H as [|c l Hc _ IH]; intros cur.
  - cbn [Py.lines_go]. rewrite app_nil_r. destruct cur as [|x cur]; [reflexivity|].
    destruct (rev (x :: cur)) eqn:Hr; [|reflexivity].
    apply (f_equal (@rev ascii)) in Hr. rewrite rev_involutive in Hr.
    discriminate.
  - cbn [Py.lines_go]. rewrite (proj2 (Ascii.eqb_neq c Py.LF) Hc), IH.
    cbn [rev]. rewrite <- app_assoc. reflexivity.
Qed.

Lemma line_clean_LF (l : str) : line_clean l -> Forall (fun c => c ≠ Py.LF) l.
Proof. intros H. eapply Forall_impl; [exact H|]. intros c [Hc _]. exact Hc. Qed.

Lemma line_clean_CR (l : str) : line_clean l -> Forall (fun c => c ≠ Py.CR) l.
Proof. intros H. eapply Forall_impl; [exact H|]. intros c [_ Hc]. exact Hc. Qed.

Lemma join_no_CR (lines : list str) :
  Forall line_clean lines ->
  Forall (fun c => c ≠ Py.CR) (Py.join [Py.LF] lines).
Proof.
  induction 1 as [|l lines Hl _ IH]; [constructor|].
  rewrite join_cons. apply Forall_app. split; [apply line_clean_CR, Hl|].
  destruct lines; [constructor|].
  apply Forall_app. split; [|exact IH].
  constructor; [discriminate|constructor].
Qed.

Lemma lines_go_join (lines : list str) :
  Forall line_clean lines ->
  Py.lines_go [] (Py.join [Py.LF] lines) = keepends lines.
Proof.
  induction 1 as [|l lines Hl _ IH]; [reflexivity|].
  rewrite join_cons. destruct lines as [|l' lines].
  - rewrite app_nil_r, lines_go_last by (apply line_clean_LF, Hl).
    simpl. destruct l; reflexivity.
  - cbn [app]. rewrite lines_go_line by (apply line_clean_LF, Hl).
    rewrite IH. reflexivity.
Qed.

Lemma readlines_join (lines : list str) :
  Forall line_clean lines ->
  Py.readlines (Py.join [Py.LF] lines) = keepends lines.
Proof.
  intros H. unfold Py.readlines.
  rewrite universal_newlines_id by (apply join_no_CR, H).
  apply lines_go_join, H.
Qed.

(** ** White space after a line does not change how it splits *)

Lemma startswith_app_blank (sep s w : str) :
  wordlike sep -> blank w ->
  Py.startswith (s ++ w) sep = Py.startswith s sep.
Proof.
  intros Hsep Hw. revert s.
  induction Hsep as [|x sep Hx _ IH]; intros s.
  - rewrite !startswith_nil. reflexivity.
  - destruct s as [|y s].
    + destruct Hw as [|c w Hc _]; [reflexivity|].
      simpl. destruct (Ascii.eqb_spec c x) as [->|_]; [congruence|reflexivity].
    + simpl. rewrite IH. reflexivity.
Qed.

Lemma find_blank (sep w : str) : word sep -> blank w -> Py.find sep w = None.
Proof.
  intros [Hne Hsep] Hw.
  assert (Hs : forall w', blank w' -> Py.startswith w' sep = false).
  { intros w' Hw'. rewrite <- (app_nil_l w'), startswith_app_blank by assumption.
    destruct sep; [contradiction|reflexivity]. }
  induction Hw as [|c w Hc Hw IH].
  - rewrite find_nil, Hs by constructor. reflexivity.
  - rewrite find_cons, Hs, IH by (constructor; assumption). reflexivity.
Qed.

Lemma find_app_blank (sep s w : str) :
  word sep -> blank w -> Py.find sep (s ++ w) = Py.find sep s.
Proof.
  intros Hsep Hw. induction s as [|y s IH].
  - simpl app. rewrite find_blank by assumption.
    rewrite find_nil. destruct Hsep as [Hne _].
    destruct sep; [contradiction|reflexivity].
  - simpl app. rewrite !find_cons, IH.
    change (y :: s ++ w) with ((y :: s) ++ w).
    rewrite startswith_app_blank by (apply Hsep || assumption). reflexivity.
Qed.

Lemma find_lead_blank (sep w s : str) :
  word sep -> blank w ->
  Py.find sep (w ++ s) = (fun k => length w + k) <$> Py.find sep s.
Proof.
  intros Hsep Hw. apply find_skip. intros a1 a2 -> Hne.
  apply Forall_app in Hw as [_ Hw].
  destruct (Py.startswith (a2 ++ s) sep) eqn:Hs; [exfalso|reflexivity].
  rewrite <- (app_nil_l (a2 ++ s)) in Hs.
  apply startswith_before_blank in Hs as [t Ht];
    [|apply Hsep|assumption|assumption].
  symmetry in Ht. apply app_eq_nil in Ht as [Ht _]. apply Hsep, Ht.
Qed.

Lemma no_start_app_blank (sep a s w : str) :
  wordlike sep -> blank w -> no_start sep a s -> no_start sep a (s ++ w).
Proof.
  intros Hsep Hw Hno a1 a2 He Hne.
  rewrite app_assoc, startswith_app_blank by assumption.
  apply (Hno a1 a2 He Hne).
Qed.

Lemma split_two_app_blank (sep s w a b : str) :
  word sep -> blank w ->
  Py.split s sep = Ok [a; b] -> Py.split (s ++ w) sep = Ok [a; b ++ w].
Proof.
  intros Hsep Hw H. pose proof Hsep as [Hne Hwl].
  apply split_two_iff in H as (-> & Hno & Hf); [|exact Hne].
  apply split_two_iff; [exact Hne|].
  split; [rewrite <- !app_assoc; reflexivity|]. split.
  - rewrite app_assoc. apply no_start_app_blank; assumption.
  - rewrite find_app_blank by assumption. exact Hf.
Qed.

Lemma split_pieces_length_app_blank (sep w : str) (n : nat) (s : str) :
  word sep -> blank w -> length s <= n ->
  length (split_pieces sep (s ++ w)) = length (split_pieces sep s).
Proof.
  intros Hsep Hw. pose proof Hsep as [Hne _]. revert s.
  induction n as [|n IH]; intros s Hn.
  - destruct s; [|simpl in Hn; lia].
    rewrite !split_pieces_eq, find_app_blank by assumption.
    destruct (Py.find sep []) eqn:Hf; [|reflexivity].
    apply find_le_length in Hf. destruct sep; [contradiction|simpl in Hf; lia].
  - rewrite !split_pieces_eq, find_app_blank by assumption.
    destruct (Py.find sep s) as [k|] eqn:Hf; [|reflexivity].
    apply find_le_length in Hf.
    rewrite drop_app_le by lia. cbn [length]. f_equal. apply IH.
    rewrite length_drop. destruct sep; [contradiction|cbn [length] in *; lia].
Qed.

Lemma matching_length (sep s : str) :
  sep ≠ [] -> matching sep s = (length (split_pieces sep s) =? 2).
Proof.
  intros Hne. unfold matching. rewrite split_eq by exact Hne.
  destruct (split_pieces sep s) as [|a [|b [|c l]]]; reflexivity.
Qed.

Lemma matching_app_blank (sep s w : str) :
  word sep -> blank w -> matching sep (s ++ w) = matching sep s.
Proof.
  intros Hsep Hw. rewrite !matching_length by apply Hsep.
  rewrite (split_pieces_length_app_blank sep w (length s)) by (assumption || lia).
  reflexivity.
Qed.

Lemma line_price_app_blank (sep s w : str) :
  word sep -> blank w -> matching sep s = true ->
  line_price sep (s ++ w) = line_price sep s.
Proof.
  intros Hsep Hw Hm. apply matching_split in Hm as [[a b] Hs].
  cbn [pair_list fst snd] in Hs.
  pose proof (split_two_app_blank sep s w a b Hsep Hw Hs) as Hs'.
  unfold line_price, parse_line. rewrite Hs, Hs'. simpl.
  destruct (Py.startswith a (lit "$")); simpl; [reflexivity|].
  unfold Py.strip. rewrite strip_with_app by exact Hw. reflexivity.
Qed.

Lemma blank_LF : blank [Py.LF].
Proof. repeat constructor. Qed.

Lemma total_loop_line_end (sep l : str) (rest : list str) (t : Float.float) :
  word sep ->
  total_loop sep ((l ++ [Py.LF]) :: rest) t = total_loop sep (l :: rest) t.
Proof.
  intros Hsep. destruct (matching sep l) eqn:Hm.
  - rewrite !total_loop_counts
      by (rewrite ?matching_app_blank by (exact Hsep || apply blank_LF); exact Hm).
    rewrite line_price_app_blank by (exact Hsep || apply blank_LF || exact Hm).
    reflexivity.
  - rewrite !total_loop_skips
      by (rewrite ?matching_app_blank by (exact Hsep || apply blank_LF); exact Hm).
    reflexivity.
Qed.

Lemma matching_empty (sep : str) : matching sep [] = false.
Proof. destruct sep; reflexivity. Qed.

Lemma total_loop_keepends (sep : str) (lines : list str) (t : Float.float) :
  word sep ->
  total_loop sep (keepends lines) t = total_loop sep lines t.
Proof.
  intros Hsep. revert t. induction lines as [|l lines IH]; intros t; [reflexivity|].
  destruct lines as [|l' lines].
  - destruct l; [|reflexivity].
    cbn [keepends]. rewrite total_loop_skips by apply matching_empty. reflexivity.
  - change (keepends (l :: l' :: lines))
      with ((l ++ [Py.LF]) :: keepends (l' :: lines)).
    rewrite total_loop_line_end by exact Hsep.
    destruct (matching sep l) eqn:Hm.
    + rewrite !total_loop_counts by exact Hm.
      destruct (line_price sep l); [reflexivity|]. simpl. apply IH.
    + rewrite !total_loop_skips by exact Hm. apply IH.
Qed.

(** ** Synthesized prices *)

Lemma price_table :
  forallb (fun d => forallb (fun c => price_ok (price_str d c)) (seq 0 100))
    (seq 1 25) = true.
Proof. vm_compute. reflexivity. Qed.

Lemma synthesized_ok (pr : str) : synthesized pr -> price_ok pr = true.
Proof.
  intros (d & c & Hd & Hc & ->). pose proof price_table as Ht.
  rewrite forallb_forall in Ht. specialize (Ht d).
  rewrite forallb_forall in Ht. apply Ht; apply in_seq; lia.
Qed.

Lemma price_ok_facts (pr : str) :
  price_ok pr = true ->
  word pr
  /\ Forall (fun c => price_char c = true) pr
  /\ Py.startswith pr (lit "$") = true
  /\ exists v, Float.of_str (Py.strip_chars (lit "$") pr) = Ok v.
Proof.
  unfold price_ok. rewrite !andb_true_iff. intros [[Hall Hs] Hp].
  rewrite forallb_forall in Hall.
  assert (Hchars : Forall (fun c => price_char c = true /\ Py.isspace c = false) pr).
  { apply Forall_forall. intros c Hc. apply list_elem_of_In, Hall in Hc.
    apply andb_true_iff in Hc as [H1 H2]. split; [exact H1|].
    apply nonspace_true, H2. }
  split; [split|split; [|split; [exact Hs|]]].
  - intros ->. discriminate Hs.
  - eapply Forall_impl; [exact Hchars|]. intros c [_ H]. exact H.
  - eapply Forall_impl; [exact Hchars|]. intros c [H _]. exact H.
  - unfold Float.of_str.
    destruct (Float.parse _) as [[neg l]|]; [|discriminate].
    eexists. reflexivity.
Qed.

(** ** Entry lines *)

Lemma startswith_elem (s sep : str) (c : ascii) :
  Py.startswith s sep = true -> c ∈ sep -> c ∈ s.
Proof.
  intros H Hc. apply startswith_iff in H as [t ->].
  apply elem_of_app. left. exact Hc.
Qed.

Lemma find_foreign (sep s : str) (c : ascii) :
  c ∈ sep -> c ∉ s -> Py.find sep s = None.
Proof.
  intros Hc. induction s as [|y s IH]; intros Hs.
  - rewrite find_nil. destruct (Py.startswith [] sep) eqn:H; [|reflexivity].
    exfalso. apply Hs. eapply startswith_elem; eassumption.
  - rewrite find_cons. destruct (Py.startswith (y :: s) sep) eqn:H.
    + exfalso. apply Hs. eapply startswith_elem; eassumption.
    + rewrite IH; [reflexivity|]. intros Hin. apply Hs.
      apply list_elem_of_further, Hin.
Qed.

Lemma find_in_price (sep pr : str) :
  Exists (fun c => price_char c = false) sep ->
  Forall (fun c => price_char c = true) pr ->
  Py.find sep pr = None.
Proof.
  intros Hex Hpr. apply Exists_exists in Hex as (c & Hc & Hfalse).
  apply (find_foreign sep pr c Hc). intros Hin.
  rewrite Forall_forall in Hpr. rewrite (Hpr c Hin) in Hfalse. discriminate.
Qed.

Lemma find_occurs (sep a t : str) : Py.find sep (a ++ sep ++ t) ≠ None.
Proof.
  induction a as [|y a IH].
  - simpl. rewrite find_here. discriminate.
  - simpl app. rewrite find_cons.
    destruct (Py.startswith _ sep); [discriminate|].
    destruct (Py.find sep (a ++ sep ++ t)); [discriminate|contradiction].
Qed.

Lemma no_start_blank_end (sep v ws rest : str) :
  word sep -> blank ws -> ws ≠ [] ->
  Py.find sep v = None ->
  no_start sep (v ++ ws) rest.
Proof.
  intros [Hne Hw] Hws Hwne Hf a1 a2 He Ha2.
  destruct (Py.startswith (a2 ++ rest) sep) eqn:Hs; [exfalso|reflexivity].
  apply app_eq_app in He as [l [[-> ->]|[-> ->]]].
  - rewrite <- app_assoc in Hs.
    apply startswith_before_blank in Hs as [t ->]; [|assumption..].
    apply (find_occurs sep a1 t). exact Hf.
  - apply Forall_app in Hws as [_ Hws].
    apply (startswith_before_blank sep [] a2 rest) in Hs as [t Ht];
      [|assumption..].
    symmetry in Ht. apply app_eq_nil in Ht as [Ht _]. contradiction.
Qed.

Lemma split_entry (sep v1 ws1 ws2 v2 ws3 : str) :
  word sep -> blank ws1 -> ws1 ≠ [] -> blank ws2 -> blank ws3 ->
  Py.find sep v1 = None -> Py.find sep v2 = None ->
  Py.split (v1 ++ ws1 ++ sep ++ ws2 ++ v2 ++ ws3) sep
  = Ok [v1 ++ ws1; ws2 ++ v2 ++ ws3].
Proof.
  intros Hsep H1 Hn1 H2 H3 Hf1 Hf2.
  apply split_two_iff; [apply Hsep|].
  split; [rewrite <- !app_assoc; reflexivity|]. split.
  - apply no_start_blank_end; assumption.
  - rewrite find_lead_blank, find_app_blank, Hf2 by assumption. reflexivity.
Qed.

Lemma strip_word (w b1 b2 : str) :
  word w -> blank b1 -> blank b2 -> Py.strip (b1 ++ w ++ b2) = w.
Proof.
  intros Hw H1 H2. unfold Py.strip.
  rewrite app_assoc, strip_with_app by exact H2.
  unfold Py.strip_with. rewrite drop_while_app by exact H1.
  destruct (word_rev_head w Hw) as (c & r & Hr & Hc).
  destruct w as [|x w]; [destruct Hw as [Hne _]; contradiction|].
  assert (Hx : Py.isspace x = false).
  { destruct Hw as [_ Hw]. inversion Hw; assumption. }
  rewrite drop_while_stop by exact Hx.
  rewrite Hr, drop_while_stop by exact Hc.
  rewrite <- Hr. apply rev_involutive.
Qed.

Lemma startswith_dollar_app (it ws : str) :
  blank ws -> Py.startswith it (lit "$") = false ->
  Py.startswith (it ++ ws) (lit "$") = false.
Proof.
  intros Hws H. rewrite startswith_app_blank; [exact H| |exact Hws].
  repeat constructor.
Qed.

Lemma startswith_app_l (s t pre : str) :
  Py.startswith s pre = true -> Py.startswith (s ++ t) pre = true.
Proof.
  intros H. apply startswith_iff in H as [u ->].
  rewrite <- app_assoc. apply startswith_app.
Qed.

(** The line rendered for a pick is a matching line, and the number read
    from it is the number its price denotes. *)
Lemma entry_line (price_first : bool) (sep ws1 ws2 ws3 : str) (p : pick) :
  word sep -> Exists (fun c => price_char c = false) sep ->
  blank ws1 -> ws1 ≠ [] -> blank ws2 -> blank ws3 ->
  Py.find sep (item p) = None ->
  (price_first = false -> Py.startswith (item p) (lit "$") = false) ->
  price_ok (price p) = true ->
  let line := (pick_values price_first p).1 ++ ws1 ++ sep ++ ws2
              ++ (pick_values price_first p).2 ++ ws3 in
  matching sep line = true
  /\ line_price sep line = Float.of_str (Py.strip_chars (lit "$") (price p)).
Proof.
  intros Hsep Hex H1 Hn1 H2 H3 Hfi Hdollar Hok line.
  destruct (price_ok_facts _ Hok) as (Hword & Hchars & Hstart & _).
  pose proof (find_in_price sep (price p) Hex Hchars) as Hfp.
  assert (Hsplit : Py.split line sep
                   = Ok [(pick_values price_first p).1 ++ ws1;
                         ws2 ++ (pick_values price_first p).2 ++ ws3]).
  { unfold line. destruct price_first; cbn [pick_values fst snd];
      apply split_entry; assumption. }
  split; [unfold matching; rewrite Hsplit; reflexivity|].
  unfold line_price, parse_line. rewrite Hsplit.
  do 3 (unfold Ok; cbn [mbind result_bind unpack2]).
  destruct price_first; cbn [pick_values fst snd].
  - rewrite (startswith_app_l _ ws1 _ Hstart). cbn [mbind result_bind].
    rewrite <- (app_nil_l (price p ++ ws1)), strip_word by (assumption || constructor).
    reflexivity.
  - rewrite startswith_dollar_app by auto. cbn [mbind result_bind].
    rewrite strip_word by assumption. reflexivity.
Qed.

(** ** The generator *)

Lemma choice_eq {A} (x : A) (l : list A) (st : rstate) :
  choice (x :: l) st
  = (Ok (nth (draws st (pos st) mod length (x :: l)) (x :: l) x), skip 1 st).
Proof. reflexivity. Qed.

Lemma choice_in {A} (l : list A) (st : rstate) :
  l ≠ [] -> exists y, choice l st = (Ok y, skip 1 st) /\ y ∈ l.
Proof.
  destruct l as [|x l]; [contradiction|]. intros _.
  eexists. split; [apply choice_eq|].
  apply list_elem_of_In, nth_In, Nat.mod_upper_bound. discriminate.
Qed.

Lemma _price_synthesized (key : str) (st : rstate) :
  key = lit "$" \/ key = lit "$$" \/ key = lit "$$$" ->
  exists pr, _price key st = (Ok pr, skip 4 st) /\ synthesized pr.
Proof.
  pose proof (Nat.mod_upper_bound (draws st (pos st)) 4).
  pose proof (Nat.mod_upper_bound (draws st (1 + pos st)) 5).
  pose proof (Nat.mod_upper_bound (draws st (2 + pos st)) 16).
  pose proof (Nat.mod_upper_bound (draws st (3 + pos st)) 100).
  intros [->|[->| ->]].
  - eexists. split; [apply _price_cheap|].
    eexists _, _. split; [|split; [|reflexivity]]; lia.
  - eexists. split; [apply _price_medium|].
    eexists _, _. split; [|split; [|reflexivity]]; lia.
  - eexists. split; [apply _price_expensive|].
    eexists _, _. split; [|split; [|reflexivity]]; lia.
Qed.

Lemma choice_tier (l1 l2 l3 : list str) (st : rstate) :
  exists key items,
    choice (map fst (tiers l1 l2 l3)) st = (Ok key, skip 1 st)
    /\ dict_get (tiers l1 l2 l3) key = Ok items
    /\ (key = lit "$" \/ key = lit "$$" \/ key = lit "$$$")
    /\ (items = l1 \/ items = l2 \/ items = l3).
Proof.
  cbn [tiers map fst]. rewrite choice_eq.
  destruct (draws st (pos st) mod length [lit "$"; lit "$$"; lit "$$$"])
    as [|[|[|n]]].
  - exists (lit "$"), l1. repeat split; auto.
  - exists (lit "$$"), l2. repeat split; auto.
  - exists (lit "$$$"), l3. repeat split; auto.
  - exists (lit "$"), l1. split; [destruct n; reflexivity|]. repeat split; auto.
Qed.

Lemma random_item_and_price_ok (self : Report) (l1 l2 l3 : list str)
    (st : rstate) :
  inventory self = tiers l1 l2 l3 ->
  l1 ≠ [] -> l2 ≠ [] -> l3 ≠ [] ->
  exists p st',
    _random_item_and_price self st = (Ok p, st')
    /\ item p ∈ l1 ++ l2 ++ l3
    /\ synthesized (price p).
Proof.
  intros Hinv H1 H2 H3. unfold _random_item_and_price. rewrite Hinv.
  destruct (choice_tier l1 l2 l3 st) as (key & items & Hkey & Hget & Hk & Hitems).
  assert (Hne : items ≠ []) by (destruct Hitems as [->|[->| ->]]; assumption).
  destruct (choice_in items (skip 1 st) Hne) as (it & Hit & Hin).
  destruct (_price_synthesized key (skip 1 (skip 1 st)) Hk) as (pr & Hpr & Hsyn).
  exists {| item := it; price := pr |}, (skip 4 (skip 1 (skip 1 st))).
  split; [|split; [|exact Hsyn]].
  - rewrite rand_bind_eq, Hkey. cbv beta iota delta [Ok].
    rewrite rand_bind_eq. unfold lift at 1. rewrite Hget. cbv beta iota delta [Ok].
    rewrite rand_bind_eq, Hit. cbv beta iota delta [Ok].
    rewrite rand_bind_eq, Hpr. reflexivity.
  - cbn [item]. rewrite !elem_of_app.
    destruct Hitems as [->|[->| ->]]; auto.
Qed.

Lemma repeat_rand_ok {A} (m : rand A) (P : A -> Prop) :
  (forall st, exists x st', m st = (Ok x, st') /\ P x) ->
  forall n st, exists xs st',
    repeat_rand n m st = (Ok xs, st') /\ Forall P xs /\ length xs = n.
Proof.
  intros Hm. induction n as [|n IH]; intros st.
  - exists [], st. split; [reflexivity|]. split; [constructor|reflexivity].
  - destruct (Hm st) as (x & st1 & Hx & HP).
    destruct (IH st1) as (xs & st2 & Hxs & HPs & Hlen).
    exists (x :: xs), st2. split; [|split].
    + cbn [repeat_rand]. rewrite rand_bind_eq, Hx. cbv beta iota delta [Ok].
      rewrite rand_bind_eq, Hxs. reflexivity.
    + constructor; assumption.
    + simpl. rewrite Hlen. reflexivity.
Qed.

Lemma comprehension_map {A B} (f : A -> result B) (g : A -> B) (l : list A) :
  Forall (fun x => f x = Ok (g x)) l -> comprehension f l = Ok (g <$> l).
Proof.
  induction 1 as [|x l Hx _ IH]; [reflexivity|].
  cbn [comprehension]. rewrite Hx, IH. reflexivity.
Qed.

Lemma comprehension_Forall2 {A B} (f : A -> result B) (l : list A) (ys : list B) :
  Forall2 (fun x y => f x = Ok y) l ys -> comprehension f l = Ok ys.
Proof.
  induction 1 as [|x y l ys Hx _ IH]; [reflexivity|].
  cbn [comprehension]. rewrite Hx, IH. reflexivity.
Qed.

Lemma filter_none {A} (f : A -> bool) (l : list A) :
  Forall (fun x => f x = false) l -> List.filter f l = [].
Proof.
  induction 1 as [|x l Hx _ IH]; [reflexivity|]. simpl. rewrite Hx. exact IH.
Qed.

Lemma filter_all {A} (f : A -> bool) (l : list A) :
  Forall (fun x => f x = true) l -> List.filter f l = l.
Proof.
  induction 1 as [|x l Hx _ IH]; [reflexivity|]. simpl. rewrite Hx, IH.
  reflexivity.
Qed.

(** ** Generating a report and totalling it *)

Lemma inline_blank_blank (w : str) : inline_blank w -> blank w.
Proof. intros H. eapply Forall_impl; [exact H|]. intros c [Hc _]. exact Hc. Qed.

Lemma inline_blank_clean (w : str) : inline_blank w -> line_clean w.
Proof. intros H. eapply Forall_impl; [exact H|]. intros c [_ Hc]. exact Hc. Qed.

Lemma wordlike_clean (w : str) : wordlike w -> line_clean w.
Proof.
  intros H. eapply Forall_impl; [exact H|].
  intros c Hc. split; intros ->; discriminate Hc.
Qed.

Lemma line_clean_app (a b : str) : line_clean a -> line_clean b -> line_clean (a ++ b).
Proof. intros Ha Hb. apply Forall_app. split; assumption. Qed.

Lemma brace_free_lines (f : str -> str) (ls : list str) :
  (forall l, brace_free l -> brace_free (f l)) ->
  Forall brace_free ls -> brace_free (concat (f <$> ls)).
Proof.
  intros Hf. induction 1 as [|l ls Hl _ IH]; [constructor|].
  cbn [fmap list_fmap concat]. apply Forall_app. split; [apply Hf, Hl|exact IH].
Qed.

Lemma brace_free_LF : brace_free [Py.LF].
Proof. repeat constructor; discriminate. Qed.

Lemma Forall_exists_Forall2 {A B} (R : A -> B -> Prop) (l : list A) :
  Forall (fun x => exists y, R x y) l -> exists ys, Forall2 R l ys.
Proof.
  induction 1 as [|x l [y Hy] _ [ys IH]].
  - exists []. constructor.
  - exists (y :: ys). constructor; assumption.
Qed.


Lemma render_clean (price_first : bool) (ws1 sep ws2 ws3 : str) (p : pick) :
  word sep -> inline_blank ws1 -> inline_blank ws2 -> inline_blank ws3 ->
  line_clean (item p) -> price_ok (price p) = true ->
  line_clean (render price_first ws1 sep ws2 ws3 p).
Proof.
  intros Hsep H1 H2 H3 Hi Hp.
  destruct (price_ok_facts _ Hp) as ([_ Hw] & _).
  apply wordlike_clean in Hw. destruct Hsep as [_ Hsep].
  apply wordlike_clean in Hsep.
  apply inline_blank_clean in H1, H2, H3.
  unfold render. destruct price_first; cbn [pick_values fst snd];
    repeat apply line_clean_app; assumption.
Qed.



Example plain_engine_run :
  (generate_report plain_engine None [] ∅ counting_draws).1
  = (Ok tt,
     Some (lit "EXPENSE REPORT" ++ [Py.LF] ++ lit "--------------" ++ [Py.LF]
           ++ lit "Gum = $3.05" ++ [Py.LF] ++ lit "Gum = $1.11" ++ [Py.LF]
           ++ lit "--------------"))
  /\ calculate_total plain_engine
       (Some (lit "EXPENSE REPORT" ++ [Py.LF] ++ lit "--------------" ++ [Py.LF]
              ++ lit "Gum = $3.05" ++ [Py.LF] ++ lit "Gum = $1.11" ++ [Py.LF]
              ++ lit "--------------"))
     = Ok (lit "$4.16").
Proof. vm_compute. split; reflexivity. Qed.


(** * Further properties *)

(** ** What separator inference can return *)

Lemma rsplit_ws_loop_length (n : nat) (r : str) (acc : list str) :
  length (Py.rsplit_ws_loop n r acc) <= S n + length acc.
Proof.
  revert r acc. induction n as [|n IH]; intros r acc; cbn [Py.rsplit_ws_loop].
  - destruct (Py.drop_while Py.isspace r); simpl; lia.
  - destruct (Py.drop_while Py.isspace r) as [|c r']; [simpl; lia|].
    etransitivity; [apply IH|]. simpl. lia.
Qed.

Lemma rsplit_ws_length (s : str) (n : nat) : length (Py.rsplit_ws s n) <= S n.
Proof.
  unfold Py.rsplit_ws. etransitivity; [apply rsplit_ws_loop_length|].
  simpl. lia.
Qed.

Lemma index_from_found (x : str) (l : list str) (k : nat) :
  x ∈ l -> exists i, Py.index_from x l k = Ok (k + i) /\ i < length l.
Proof.
  revert k. induction l as [|y l IH]; intros k Hin; [inversion Hin|].
  cbn [Py.index_from]. destruct (bool_decide (y = x)) eqn:Hy.
  - exists 0. rewrite Nat.add_0_r. split; [reflexivity|simpl; lia].
  - apply bool_decide_eq_false in Hy.
    apply elem_of_cons in Hin as [->|Hin]; [contradiction|].
    destruct (IH (S k) Hin) as (i & Hi & Hlt).
    exists (S i). rewrite Hi. split; [f_equal; lia|simpl; lia].
Qed.

Lemma index_found (l : list str) (x : str) :
  x ∈ l -> exists i, Py.index l x = Ok i /\ i < length l.
Proof. intros H. apply (index_from_found x l 0 H). Qed.

Lemma sorted_pair (a b : nat) :
  Py.sorted [a; b] = [a; b] \/ Py.sorted [a; b] = [b; a].
Proof.
  apply Permutation_length_2_inv. symmetry.
  apply (merge_sort_Permutation Nat.le).
Qed.

Lemma slice_length {A} (a b : nat) (l : list A) :
  length (Py.slice a b l) <= b - a.
Proof. unfold Py.slice. rewrite length_drop, length_take. lia. Qed.

Lemma get_separators_cases (item_fmt : str) :
  _get_separators item_fmt = Raise missing_keyword_error
  \/ exists i0 i1,
      i0 < 3 /\ i1 < 3
      /\ _get_separators item_fmt
         = Ok (Py.slice (i0 + 1) i1 (Py.rsplit_ws item_fmt 2)).
Proof.
  unfold _get_separators, words_to_search. cbn [for_each].
  unfold Py.contains.
  destruct (bool_decide (lit "{item}" ∈ Py.rsplit_ws item_fmt 2)) eqn:Hi;
    [|left; reflexivity].
  destruct (bool_decide (lit "{price}" ∈ Py.rsplit_ws item_fmt 2)) eqn:Hp;
    [|left; reflexivity].
  apply bool_decide_eq_true in Hi, Hp. right.
  destruct (index_found _ _ Hi) as (a & Ha & Hla).
  destruct (index_found _ _ Hp) as (b & Hb & Hlb).
  pose proof (rsplit_ws_length item_fmt 2) as Hlen.
  cbn [negb mbind result_bind Ok comprehension]. unfold Ok at 1 2.
  cbn [mbind result_bind]. rewrite Ha, Hb. unfold Ok.
  cbn [mbind result_bind].
  destruct (sorted_pair a b) as [-> | ->]; eexists _, _;
    (split; [|split; [|reflexivity]]); lia.
Qed.

(** X1. Separator inference either raises the missing-keyword exception or
    returns at most one word, and that word is not empty and holds no
    white space: the format is cut into three pieces at most, so there is
    room for one piece between the two placeholders. *)
Theorem get_separators_at_most_one_word (item_fmt : str) :
  _get_separators item_fmt = Raise missing_keyword_error
  \/ exists seps,
      _get_separators item_fmt = Ok seps
      /\ length seps <= 1
      /\ Forall word seps.
Proof.
  destruct (get_separators_cases item_fmt) as [H|(i0 & i1 & H0 & H1 & H)];
    [left; exact H|right].
  eexists. split; [exact H|]. split.
  - etransitivity; [apply slice_length|]. lia.
  - eapply get_separators_words, H.
Qed.

(** ** Formats of two and three words *)

(** X2. On a format that is one placeholder, one word and the other
    placeholder, separated by white space and with nothing in front,
    separator inference returns that word, whichever placeholder comes
    first. *)
Theorem get_separators_single_word
    (price_first : bool) (ws1 sep ws2 ws3 : str) :
  word sep -> brace_free sep ->
  blank ws1 -> ws1 ≠ [] -> blank ws2 -> ws2 ≠ [] -> blank ws3 ->
  _get_separators (simple_format price_first ws1 sep ws2 ws3) = Ok [sep]
  /\ _get_separators (simple_format (negb price_first) ws1 sep ws2 ws3)
     = Ok [sep].
Proof.
  intros. split; apply get_separators_three; assumption.
Qed.

Lemma get_separators_single_word_witness :
  word (lit "->") /\ brace_free (lit "->")
  /\ _get_separators (lit "{item}  ->   {price} ") = Ok [lit "->"]
  /\ _get_separators (lit "{price}  ->   {item} ") = Ok [lit "->"].
Proof.
  assert (Hw : word (lit "->")) by (split; [discriminate|repeat constructor]).
  assert (Hb : brace_free (lit "->")) by (repeat constructor; discriminate).
  split; [exact Hw|]. split; [exact Hb|].
  apply (get_separators_single_word false (lit "  ") (lit "->") (lit "   ")
           (lit " ") Hw Hb).
  - repeat constructor.
  - discriminate.
  - repeat constructor.
  - discriminate.
  - repeat constructor.
Defined.

Lemma space_led_nil_or_blank (b : str) : blank b -> space_led (rev b ++ []).
Proof.
  intros Hb. destruct b as [|c b]; [left; reflexivity|].
  apply space_led_rev_blank; [exact Hb|discriminate].
Qed.

Lemma rsplit_ws_two (b0 w0 b1 w1 b2 : str) :
  word w0 -> word w1 -> blank b0 -> blank b1 -> b1 ≠ [] -> blank b2 ->
  Py.rsplit_ws (b0 ++ w0 ++ b1 ++ w1 ++ b2) 2 = [w0; w1].
Proof.
  intros H0 H1 Hb0 Hb1 Hn1 Hb2. unfold Py.rsplit_ws.
  rewrite !rev_app_distr, <- !app_assoc.
  rewrite rsplit_ws_loop_word;
    [|assumption|assumption|apply space_led_rev_blank; assumption].
  rewrite <- (app_nil_r (rev b0)).
  rewrite rsplit_ws_loop_word;
    [|assumption|assumption|apply space_led_nil_or_blank; assumption].
  cbn [Py.rsplit_ws_loop]. rewrite app_nil_r.
  rewrite drop_while_all by (apply blank_rev, Hb0). reflexivity.
Qed.

(** X3. On a format that holds the two placeholders and nothing else,
    separator inference returns no word, in either order; white space in
    front of the first placeholder is accepted here, because the two
    splits that [rsplit] is allowed reach the start of the string. *)
Theorem get_separators_adjacent_placeholders
    (price_first : bool) (ws0 ws1 ws2 : str) :
  blank ws0 -> blank ws1 -> ws1 ≠ [] -> blank ws2 ->
  _get_separators (adjacent_format price_first ws0 ws1 ws2) = Ok [].
Proof.
  intros H0 H1 Hn1 H2.
  destruct (word_placeholders price_first) as [Hp1 Hp2].
  unfold _get_separators, adjacent_format.
  rewrite rsplit_ws_two by assumption.
  destruct price_first; vm_compute; reflexivity.
Qed.

Lemma get_separators_adjacent_placeholders_witness :
  blank (lit " ") /\ lit " " ≠ []
  /\ _get_separators (lit " {price} {item} ") = Ok [].
Proof.
  assert (Hb : blank (lit " ")) by (repeat constructor).
  assert (Hn : lit " " ≠ []) by discriminate.
  split; [exact Hb|]. split; [exact Hn|].
  exact (get_separators_adjacent_placeholders true (lit " ") (lit " ") (lit " ")
           Hb Hb Hn Hb).
Defined.

(** ** Totals of files without entries *)

Lemma total_loop_none (sep : str) (content : list str) (t : Float.float) :
  Forall (fun l => matching sep l = false) content ->
  total_loop sep content t = Ok t.
Proof.
  induction 1 as [|l content Hl _ IH]; [reflexivity|].
  rewrite total_loop_skips by exact Hl. exact IH.
Qed.

Lemma matching_empty_separator (line : str) : matching [] line = false.
Proof. reflexivity. Qed.

(** X4. When the two placeholders are adjacent the separator is the empty
    string, no line can be split on it, and [calculate_total] returns
    ["$0.0"] whatever the file holds. *)
Theorem calculate_total_empty_separator (self : Report) (text : str) :
  _get_separators (_item_fmt self) = Ok [] ->
  calculate_total self (Some text) = Ok (lit "$0.0").
Proof.
  intros Hseps. unfold calculate_total. rewrite Hseps, result_bind_ok.
  change (Py.join (lit " ") []) with (@nil ascii).
  rewrite total_loop_none.
  - vm_compute. reflexivity.
  - apply Forall_forall. intros l _. apply matching_empty_separator.
Qed.

Lemma calculate_total_empty_separator_witness :
  _get_separators (_item_fmt adjacent_plain_engine) = Ok []
  /\ calculate_total adjacent_plain_engine
       (Some (lit "Gum $3.05" ++ [Py.LF] ++ lit "Gum $1.11"))
     = Ok (lit "$0.0").
Proof.
  assert (H : _get_separators (_item_fmt adjacent_plain_engine) = Ok [])
    by (vm_compute; reflexivity).
  split; [exact H|].
  exact (calculate_total_empty_separator adjacent_plain_engine _ H).
Defined.

(** X5. A file none of whose lines splits into exactly two parts on the
    separator, the empty file among them, totals ["$0.0"]. *)
Theorem calculate_total_no_entry (self : Report) (text : str) (seps : list str) :
  _get_separators (_item_fmt self) = Ok seps ->
  Forall (fun l => matching (Py.join (lit " ") seps) l = false)
    (Py.readlines text) ->
  calculate_total self (Some text) = Ok (lit "$0.0").
Proof.
  intros Hseps Hnone. unfold calculate_total. rewrite Hseps, result_bind_ok.
  rewrite total_loop_none by exact Hnone. vm_compute. reflexivity.
Qed.

Lemma calculate_total_no_entry_witness :
  _get_separators (_item_fmt plain_engine) = Ok [lit "="]
  /\ calculate_total plain_engine
       (Some (lit "EXPENSE REPORT" ++ [Py.LF] ++ lit "=============="))
     = Ok (lit "$0.0")
  /\ calculate_total plain_engine (Some []) = Ok (lit "$0.0").
Proof.
  assert (H : _get_separators (_item_fmt plain_engine) = Ok [lit "="])
    by (vm_compute; reflexivity).
  split; [exact H|]. split.
  - apply (calculate_total_no_entry plain_engine _ [lit "="] H).
    repeat constructor.
  - apply (calculate_total_no_entry plain_engine _ [lit "="] H).
    constructor.
Defined.

(** ** A synthesized price read back *)

Lemma price_reads_back_table :
  forallb (fun d => forallb (fun c => price_reads_back_ok d c) (seq 0 100))
    (seq 1 25) = true.
Proof. vm_compute. reflexivity. Qed.

Lemma float_eqb_eq (x y : Float.float) : Float.eqb x y = true -> x = y.
Proof.
  destruct x as [s1|s1| |s1 m1 e1], y as [s2|s2| |s2 m2 e2]; simpl;
    try discriminate; try reflexivity.
  - intros H. apply Bool.eqb_prop in H. congruence.
  - intros H. apply Bool.eqb_prop in H. congruence.
  - rewrite !andb_true_iff. intros [[H1 H2] H3].
    apply Bool.eqb_prop in H1. apply Pos.eqb_eq in H2. apply Z.eqb_eq in H3.
    congruence.
Qed.

Lemma price_reads_back_facts (d c : nat) :
  1 <= d <= 25 -> c <= 99 ->
  price_value (price_str d c) = Ok (price_number d c)
  /\ format_total (float_sum Float.zero [price_number d c])
     = lit "$" ++ amount_str d c.
Proof.
  intros Hd Hc. pose proof price_reads_back_table as Ht.
  rewrite forallb_forall in Ht. specialize (Ht d ltac:(apply in_seq; lia)).
  rewrite forallb_forall in Ht. specialize (Ht c ltac:(apply in_seq; lia)).
  unfold price_reads_back_ok in Ht.
  destruct (price_value (price_str d c)) as [e|v]; [discriminate|].
  apply andb_true_iff in Ht as [Hv Hs].
  apply float_eqb_eq in Hv. subst v.
  apply bool_decide_eq_true in Hs. split; [reflexivity|exact Hs].
Qed.

Lemma _price_tier (key : str) (st : rstate) :
  key = lit "$" \/ key = lit "$$" \/ key = lit "$$$" ->
  exists d c,
    _price key st = (Ok (price_str d c), skip 4 st)
    /\ tier_range key d /\ c <= 99.
Proof.
  pose proof (Nat.mod_upper_bound (draws st (pos st)) 4).
  pose proof (Nat.mod_upper_bound (draws st (1 + pos st)) 5).
  pose proof (Nat.mod_upper_bound (draws st (2 + pos st)) 16).
  pose proof (Nat.mod_upper_bound (draws st (3 + pos st)) 100).
  unfold tier_range.
  intros [->|[->| ->]]; eexists _, _.
  - split; [apply _price_cheap|]. split; [left; split; [reflexivity|]|]; lia.
  - split; [apply _price_medium|].
    split; [right; left; split; [reflexivity|]|]; lia.
  - split; [apply _price_expensive|].
    split; [right; right; split; [reflexivity|]|]; lia.
Qed.

(** X6. The price [_price] writes for a tier reads back as the number it
    denotes: stripping the dollar sign and calling [float] gives the
    binary64 number nearest to D dollars and CC cents, and a total made of
    that single price is printed as ["$D.C"] when the cents are a multiple
    of ten and as ["$D.CC"] otherwise. *)
Theorem price_reads_back (key : str) (st : rstate) :
  key = lit "$" \/ key = lit "$$" \/ key = lit "$$$" ->
  exists d c,
    fst (_price key st) = Ok (price_str d c)
    /\ tier_range key d /\ c <= 99
    /\ price_value (price_str d c) = Ok (price_number d c)
    /\ format_total (float_sum Float.zero [price_number d c])
       = lit "$" ++ amount_str d c.
Proof.
  intros Hkey. destruct (_price_tier key st Hkey) as (d & c & Hp & Hr & Hc).
  exists d, c. rewrite Hp. split; [reflexivity|]. split; [exact Hr|].
  split; [exact Hc|]. apply price_reads_back_facts; [|exact Hc].
  unfold tier_range in Hr. lia.
Qed.

Lemma price_reads_back_witness :
  exists d c,
    fst (_price (lit "$$") counting_draws) = Ok (price_str d c)
    /\ tier_range (lit "$$") d /\ c <= 99
    /\ price_value (price_str d c) = Ok (price_number d c)
    /\ format_total (float_sum Float.zero [price_number d c])
       = lit "$" ++ amount_str d c.
Proof.
  apply (price_reads_back (lit "$$") counting_draws).
  right. left. reflexivity.
Defined.

(** ** Keys and tiers the generator cannot serve *)

(** X7. For a key that is none of the three tiers, [_price] raises
    [KeyError] after the three dollar amounts have been drawn and before
    the cents are. *)
Theorem price_unknown_key (key : str) (st : rstate) :
  key ≠ lit "$" -> key ≠ lit "$$" -> key ≠ lit "$$$" ->
  _price key st = (Raise (KeyError key), skip 3 st).
Proof.
  intros H1 H2 H3. unfold _price.
  rewrite rand_bind_eq, randint_eq. cbv beta iota delta [Ok].
  rewrite rand_bind_eq, randint_eq. cbv beta iota delta [Ok].
  rewrite rand_bind_eq, randint_eq. cbv beta iota delta [Ok].
  rewrite rand_bind_eq. unfold lift at 1. cbn [dict_get].
  rewrite !bool_decide_eq_false_2 by congruence.
  reflexivity.
Qed.

Lemma price_unknown_key_witness :
  lit "$$$$" ≠ lit "$" /\ lit "$$$$" ≠ lit "$$" /\ lit "$$$$" ≠ lit "$$$"
  /\ _price (lit "$$$$") counting_draws
     = (Raise (KeyError (lit "$$$$")), skip 3 counting_draws).
Proof.
  assert (H1 : lit "$$$$" ≠ lit "$") by discriminate.
  assert (H2 : lit "$$$$" ≠ lit "$$") by discriminate.
  assert (H3 : lit "$$$$" ≠ lit "$$$") by discriminate.
  split; [exact H1|]. split; [exact H2|]. split; [exact H3|].
  exact (price_unknown_key (lit "$$$$") counting_draws H1 H2 H3).
Defined.

(** ** Items and prices come from the same tier *)

Lemma drawn_tier_lt (st : rstate) : drawn_tier st < 3.
Proof. apply Nat.mod_upper_bound. discriminate. Qed.

Lemma choice_tier_key (l1 l2 l3 : list str) (st : rstate) :
  choice (map fst (tiers l1 l2 l3)) st = (Ok (tier_key (drawn_tier st)), skip 1 st)
  /\ dict_get (tiers l1 l2 l3) (tier_key (drawn_tier st))
     = Ok (tier_items l1 l2 l3 (drawn_tier st)).
Proof.
  pose proof (drawn_tier_lt st) as Hlt.
  cbn [tiers map fst]. rewrite choice_eq.
  change (draws st (pos st) mod length [lit "$"; lit "$$"; lit "$$$"])
    with (drawn_tier st).
  destruct (drawn_tier st) as [|[|[|n]]]; [| | |lia]; split; reflexivity.
Qed.

Lemma tier_key_cases (k : nat) :
  tier_key k = lit "$" \/ tier_key k = lit "$$" \/ tier_key k = lit "$$$".
Proof. destruct k as [|[|k]]; auto. Qed.

(** X8. With the three tiers in place and the chosen tier not empty,
    [_random_item_and_price] takes exactly six draws, returns an item of
    the tier selected by the first draw, and a price whose dollar amount
    lies in the range of that same tier. *)
Theorem random_item_and_price_same_tier
    (self : Report) (l1 l2 l3 : list str) (st : rstate) :
  inventory self = tiers l1 l2 l3 ->
  tier_items l1 l2 l3 (drawn_tier st) ≠ [] ->
  exists it d c,
    _random_item_and_price self st
    = (Ok {| item := it; price := price_str d c |}, skip 6 st)
    /\ it ∈ tier_items l1 l2 l3 (drawn_tier st)
    /\ tier_range (tier_key (drawn_tier st)) d
    /\ c <= 99.
Proof.
  intros Hinv Hne. unfold _random_item_and_price. rewrite Hinv.
  destruct (choice_tier_key l1 l2 l3 st) as [Hkey Hget].
  destruct (choice_in _ (skip 1 st) Hne) as (it & Hit & Hin).
  destruct (_price_tier (tier_key (drawn_tier st)) (skip 1 (skip 1 st))
              (tier_key_cases _)) as (d & c & Hpr & Hr & Hc).
  exists it, d, c. split; [|split; [exact Hin|split; [exact Hr|exact Hc]]].
  rewrite rand_bind_eq, Hkey. cbv beta iota delta [Ok].
  rewrite rand_bind_eq. unfold lift at 1. rewrite Hget. cbv beta iota delta [Ok].
  rewrite rand_bind_eq, Hit. cbv beta iota delta [Ok].
  rewrite rand_bind_eq, Hpr. reflexivity.
Qed.

Lemma random_item_and_price_same_tier_witness :
  inventory plain_engine = tiers [lit "Gum"] [lit "Milk"] [lit "Diapers"]
  /\ drawn_tier (skip 1 counting_draws) = 1
  /\ exists it d c,
      _random_item_and_price plain_engine (skip 1 counting_draws)
      = (Ok {| item := it; price := price_str d c |},
         skip 6 (skip 1 counting_draws))
      /\ it ∈ [lit "Milk"]
      /\ tier_range (lit "$$") d
      /\ c <= 99.
Proof.
  split; [reflexivity|]. split; [reflexivity|].
  apply (random_item_and_price_same_tier plain_engine
           [lit "Gum"] [lit "Milk"] [lit "Diapers"] (skip 1 counting_draws)).
  - reflexivity.
  - discriminate.
Defined.

(** X9. When the tier selected by the first draw is an empty list,
    [_random_item_and_price] raises [IndexError] after that one draw, and
    [generate_report] asked for at least one entry ends with that
    exception without touching the output file. *)
Theorem generate_report_empty_tier
    (self : Report) (l1 l2 l3 : list str) (file : option str) (now : str)
    (fmt : gmap str str) (st : rstate) :
  inventory self = tiers l1 l2 l3 ->
  tier_items l1 l2 l3 (drawn_tier st) = [] ->
  (0 < entries self)%Z ->
  _random_item_and_price self st = (Raise IndexError, skip 1 st)
  /\ generate_report self file now fmt st = (Raise IndexError, file, skip 1 st).
Proof.
  intros Hinv Hempty Hpos.
  assert (Hpick : _random_item_and_price self st = (Raise IndexError, skip 1 st)).
  { unfold _random_item_and_price. rewrite Hinv.
    destruct (choice_tier_key l1 l2 l3 st) as [Hkey Hget].
    rewrite rand_bind_eq, Hkey. cbv beta iota delta [Ok].
    rewrite rand_bind_eq. unfold lift at 1. rewrite Hget, Hempty.
    reflexivity. }
  split; [exact Hpick|].
  unfold generate_report, report_fields.
  destruct (Z.to_nat (entries self)) as [|n] eqn:Hn; [lia|].
  cbn [repeat_rand]. rewrite !rand_bind_eq, Hpick. reflexivity.
Qed.

Lemma generate_report_empty_tier_witness :
  let self := engine_with (lit "{item} = {price}")
                (tiers [] [lit "Milk"] [lit "Diapers"]) 2 true [lit "{report}"] in
  inventory self = tiers [] [lit "Milk"] [lit "Diapers"]
  /\ tier_items [] [lit "Milk"] [lit "Diapers"] (drawn_tier counting_draws) = []
  /\ (0 < entries self)%Z
  /\ generate_report self (Some (lit "old")) [] ∅ counting_draws
     = (Raise IndexError, Some (lit "old"), skip 1 counting_draws).
Proof.
  intros self.
  assert (H1 : inventory self = tiers [] [lit "Milk"] [lit "Diapers"])
    by reflexivity.
  assert (H2 : tier_items [] [lit "Milk"] [lit "Diapers"]
                 (drawn_tier counting_draws) = []) by reflexivity.
  assert (H3 : (0 < entries self)%Z) by reflexivity.
  split; [exact H1|]. split; [exact H2|]. split; [exact H3|].
  exact (proj2 (generate_report_empty_tier self [] [lit "Milk"] [lit "Diapers"]
                  (Some (lit "old")) [] ∅ counting_draws H1 H2 H3)).
Defined.

(** ** The aligner on entries it cannot split *)

Lemma comprehension_raises {A B} (f : A -> result B) (e : exn) (l : list A) :
  (forall x, (exists y, f x = Ok y) \/ f x = Raise e) ->
  Exists (fun x => f x = Raise e) l ->
  comprehension f l = Raise e.
Proof.
  intros Hf. induction l as [|x l IH]; intros Hex; [inversion Hex|].
  cbn [comprehension]. destruct (Hf x) as [[y Hy]|Hx].
  - rewrite Hy, result_bind_ok.
    apply Exists_cons in Hex as [Hx|Hex];
      [rewrite Hy in Hx; discriminate Hx|].
    rewrite (IH Hex). reflexivity.
  - rewrite Hx. reflexivity.
Qed.

Lemma comprehension_split_pieces (sep : str) (es : list str) :
  sep ≠ [] ->
  comprehension (fun e => Py.split e sep) es = Ok (split_pieces sep <$> es).
Proof.
  intros Hne. apply comprehension_map, Forall_forall. intros e _.
  apply split_eq, Hne.
Qed.

Lemma unpack_item_cases (l : list str) :
  (exists y, fst <$> unpack2 l = Ok y) \/ fst <$> unpack2 l = Raise ValueError.
Proof.
  destruct l as [|a [|b [|c l]]]; try (right; reflexivity).
  left. exists a. reflexivity.
Qed.

Lemma unpack_item_not_matching (sep e : str) :
  sep ≠ [] -> matching sep e = false ->
  fst <$> unpack2 (split_pieces sep e) = Raise ValueError.
Proof.
  intros Hne. unfold matching. rewrite split_eq by exact Hne.
  destruct (split_pieces sep e) as [|a [|b [|c l]]]; try reflexivity.
  discriminate.
Qed.

(** X10. If one entry does not split into exactly two parts on the last
    separator word (the word is missing from it, or occurs twice, as when
    an item name holds it), [_align_separator] raises [ValueError] and
    returns no entry at all. *)
Theorem align_separator_rejects (self : Report) (seps : list str) (sep : str)
    (es : list str) :
  _get_separators (_item_fmt self) = Ok seps ->
  last seps = Some sep ->
  Exists (fun e => matching sep e = false) es ->
  _align_separator self es = Raise ValueError.
Proof.
  intros Hseps Hlast Hex.
  assert (Hword : word sep).
  { pose proof (get_separators_words _ _ Hseps) as Hw.
    rewrite Forall_forall in Hw. apply Hw, last_Some_elem_of, Hlast. }
  destruct Hword as [Hne _].
  unfold _align_separator, last_item.
  rewrite Hseps, result_bind_ok, Hlast, result_bind_ok.
  rewrite comprehension_split_pieces, result_bind_ok by exact Hne.
  rewrite (comprehension_raises _ ValueError); [reflexivity| |].
  - apply unpack_item_cases.
  - apply Exists_fmap. eapply Exists_impl; [exact Hex|].
    intros e He. apply unpack_item_not_matching; assumption.
Qed.

Lemma align_separator_rejects_witness :
  _get_separators (_item_fmt default_engine) = Ok [lit "="]
  /\ last [lit "="] = Some (lit "=")
  /\ Exists (fun e => matching (lit "=") e = false)
       [lit "Gum = $1.00"; lit "A=B = $2.50"]
  /\ _align_separator default_engine [lit "Gum = $1.00"; lit "A=B = $2.50"]
     = Raise ValueError.
Proof.
  assert (H1 : _get_separators (_item_fmt default_engine) = Ok [lit "="])
    by (vm_compute; reflexivity).
  assert (H2 : last [lit "="] = Some (lit "=")) by reflexivity.
  assert (H3 : Exists (fun e => matching (lit "=") e = false)
                 [lit "Gum = $1.00"; lit "A=B = $2.50"]).
  { apply Exists_cons_tl, Exists_cons_hd. reflexivity. }
  split; [exact H1|]. split; [exact H2|]. split; [exact H3|].
  exact (align_separator_rejects default_engine [lit "="] (lit "=") _ H1 H2 H3).
Defined.

(** ** Aligning twice, and totalling aligned entries *)

Lemma fold_longer_elem (l : list str) (x : str) :
  fold_left (fun best y => if length best <? length y then y else best) l x
  ∈ x :: l.
Proof.
  revert x. induction l as [|y l IH]; intros x; simpl.
  - apply list_elem_of_here.
  - specialize (IH (if length x <? length y then y else x)).
    apply elem_of_cons in IH as [IH|IH].
    + rewrite IH. destruct (length x <? length y).
      * apply list_elem_of_further, list_elem_of_here.
      * apply list_elem_of_here.
    + do 2 apply list_elem_of_further. exact IH.
Qed.

Lemma max_by_len_elem (items : list str) (m : str) :
  max_by_len items = Ok m -> m ∈ items.
Proof.
  destruct items as [|x l]; [discriminate|]. intros [= <-].
  apply fold_longer_elem.
Qed.

Lemma pad_left_length (longest : nat) (q : str * str) :
  length q.1 <= longest -> length (pad_left longest q).1 = longest.
Proof.
  intros H. cbn [pad_left fst]. rewrite length_app, length_replicate. lia.
Qed.

Lemma padded_pad_left (longest : nat) (sep : str) (q : str * str) :
  length q.1 <= longest ->
  padded longest sep (pad_left longest q) = padded longest sep q.
Proof.
  intros H. unfold padded. rewrite pad_left_length by exact H.
  cbn [pad_left fst snd]. rewrite Nat.sub_diag. cbn [replicate app].
  rewrite <- app_assoc. reflexivity.
Qed.

Lemma split_aligned (sep : str) (longest : nat) (e : str) (q : str * str) :
  word sep ->
  Py.split e sep = Ok (pair_list q) ->
  Py.split (padded longest sep q) sep = Ok (pair_list (pad_left longest q)).
Proof.
  intros Hsep Hs. destruct q as [it pr]. cbn [pair_list fst snd] in Hs.
  pose proof Hs as Heq. apply split_two_iff in Heq as (-> & _); [|apply Hsep].
  apply (split_padded sep it (replicate (longest - length it) " "%char) pr
           Hsep (blank_replicate _) Hs).
Qed.

(** The aligned entries of a list whose entries all split in two, with
    the parts they came from. *)
Lemma align_separator_parts (self : Report) (seps : list str) (sep : str)
    (es : list str) :
  _get_separators (_item_fmt self) = Ok seps ->
  last seps = Some sep ->
  Forall (fun e => matching sep e = true) es ->
  exists ps longest,
    word sep
    /\ Forall2 (fun e q => Py.split e sep = Ok (pair_list q)) es ps
    /\ Forall (fun q => length q.1 <= longest) ps
    /\ _align_separator self es = Ok (padded longest sep <$> ps).
Proof.
  intros Hseps Hlast Hes.
  assert (Hword : word sep).
  { pose proof (get_separators_words _ _ Hseps) as Hw.
    rewrite Forall_forall in Hw. apply Hw, last_Some_elem_of, Hlast. }
  destruct (matching_parts sep es Hes) as [ps Hps].
  destruct ps as [|q ps].
  - exists [], 0. split; [exact Hword|]. split; [exact Hps|].
    split; [constructor|].
    apply (align_separator_eval self seps sep es [] [] Hseps Hlast Hps).
    intros H. contradiction.
  - destruct (max_by_len_ok (fst <$> q :: ps)) as [m Hm]; [discriminate|].
    exists (q :: ps), (length m). split; [exact Hword|]. split; [exact Hps|].
    split.
    + pose proof (max_by_len_bound _ _ Hm) as Hb.
      apply Forall_fmap in Hb. exact Hb.
    + apply (align_separator_eval self seps sep es (q :: ps) m Hseps Hlast Hps).
      intros _. exact Hm.
Qed.

(** X11. Aligning is idempotent: entries that were aligned come back
    unchanged when they are aligned again. *)
Theorem align_separator_idempotent (self : Report) (seps : list str) (sep : str)
    (es : list str) :
  _get_separators (_item_fmt self) = Ok seps ->
  last seps = Some sep ->
  Forall (fun e => matching sep e = true) es ->
  exists aligned,
    _align_separator self es = Ok aligned
    /\ _align_separator self aligned = Ok aligned.
Proof.
  intros Hseps Hlast Hes.
  destruct (align_separator_parts self seps sep es Hseps Hlast Hes)
    as (ps & longest & Hword & Hps & Hlen & Halign).
  exists (padded longest sep <$> ps). split; [exact Halign|].
  assert (Hps' : Forall2 (fun e q => Py.split e sep = Ok (pair_list q))
                   (padded longest sep <$> ps) (pad_left longest <$> ps)).
  { apply Forall2_fmap, Forall_Forall2_diag, Forall_forall. intros q Hq.
    destruct (proj1 (list_elem_of_lookup ps q) Hq) as [k Hk].
    destruct (Forall2_lookup_r _ _ _ _ _ Hps Hk) as (e & _ & He).
    eapply split_aligned; eassumption. }
  destruct ps as [|q ps].
  { apply (align_separator_eval self seps sep [] [] [] Hseps Hlast);
      [constructor|intros H; contradiction]. }
  destruct (max_by_len_ok (fst <$> (pad_left longest <$> q :: ps)))
    as [m Hm]; [discriminate|].
  assert (Hm_len : length m = longest).
  { apply max_by_len_elem in Hm.
    apply list_elem_of_fmap in Hm as (q' & -> & Hq').
    apply list_elem_of_fmap in Hq' as (q0 & -> & Hq0).
    apply pad_left_length. rewrite Forall_forall in Hlen. apply Hlen, Hq0. }
  rewrite (align_separator_eval self seps sep _ _ m Hseps Hlast Hps')
    by (intros _; exact Hm).
  f_equal. rewrite <- list_fmap_compose. apply list_fmap_ext.
  intros k q' Hq'. cbn [compose]. rewrite Hm_len. apply padded_pad_left.
  rewrite Forall_forall in Hlen. apply Hlen.
  eapply list_elem_of_lookup_2, Hq'.
Qed.

Lemma align_separator_idempotent_witness :
  _get_separators (_item_fmt default_engine) = Ok [lit "="]
  /\ last [lit "="] = Some (lit "=")
  /\ Forall (fun e => matching (lit "=") e = true)
       [lit "Gum = $1.00"; lit "Diapers = $12.50"]
  /\ exists aligned,
      _align_separator default_engine [lit "Gum = $1.00"; lit "Diapers = $12.50"]
      = Ok aligned
      /\ _align_separator default_engine aligned = Ok aligned.
Proof.
  assert (H1 : _get_separators (_item_fmt default_engine) = Ok [lit "="])
    by (vm_compute; reflexivity).
  assert (H2 : last [lit "="] = Some (lit "=")) by reflexivity.
  assert (H3 : Forall (fun e => matching (lit "=") e = true)
                 [lit "Gum = $1.00"; lit "Diapers = $12.50"])
    by (repeat constructor).
  split; [exact H1|]. split; [exact H2|]. split; [exact H3|].
  exact (align_separator_idempotent default_engine [lit "="] (lit "=") _ H1 H2 H3).
Defined.

(** ** Alignment does not change the total *)

Lemma get_separators_length (item_fmt : str) (seps : list str) :
  _get_separators item_fmt = Ok seps -> length seps <= 1.
Proof.
  intros H. destruct (get_separators_cases item_fmt)
    as [He|(i0 & i1 & H0 & H1 & He)]; rewrite He in H; [discriminate|].
  injection H as <-. etransitivity; [apply slice_length|]. lia.
Qed.

Lemma get_separators_last (item_fmt : str) (seps : list str) (sep : str) :
  _get_separators item_fmt = Ok seps -> last seps = Some sep -> seps = [sep].
Proof.
  intros H Hlast. apply get_separators_length in H.
  destruct seps as [|x [|y seps]]; [discriminate| |simpl in H; lia].
  injection Hlast as ->. reflexivity.
Qed.

Lemma wordlike_dollar : wordlike (lit "$").
Proof. repeat constructor. Qed.

Lemma line_price_padded (sep : str) (longest : nat) (e : str) (q : str * str) :
  word sep ->
  Py.split e sep = Ok (pair_list q) ->
  matching sep e = true
  /\ matching sep (padded longest sep q) = true
  /\ line_price sep (padded longest sep q) = line_price sep e.
Proof.
  intros Hsep Hs.
  pose proof (split_aligned sep longest e q Hsep Hs) as Hs'.
  unfold matching, line_price, parse_line. rewrite Hs, Hs'.
  destruct q as [it pr]. cbn [pair_list pad_left fst snd].
  split; [reflexivity|]. split; [reflexivity|].
  rewrite !result_bind_ok. unfold pair_list, pad_left. cbn [fst snd unpack2].
  rewrite !result_bind_ok.
  rewrite (startswith_app_blank (lit "$") it _ wordlike_dollar (blank_replicate _)).
  destruct (Py.startswith it (lit "$")); rewrite !result_bind_ok; [|reflexivity].
  rewrite strip_padded. reflexivity.
Qed.

Lemma total_loop_ext (sep : str) (l1 l2 : list str) (t : Float.float) :
  Forall2 (fun a e => matching sep a = matching sep e
                      /\ line_price sep a = line_price sep e) l1 l2 ->
  total_loop sep l1 t = total_loop sep l2 t.
Proof.
  intros H. revert t. induction H as [|a e l1 l2 [Hm Hp] _ IH]; intros t;
    [reflexivity|].
  destruct (matching sep e) eqn:He.
  - rewrite !total_loop_counts by congruence. rewrite Hp.
    destruct (line_price sep e); [reflexivity|]. simpl. apply IH.
  - rewrite !total_loop_skips by congruence. apply IH.
Qed.

Lemma line_clean_padded (sep : str) (longest : nat) (e : str) (q : str * str) :
  sep ≠ [] ->
  Py.split e sep = Ok (pair_list q) ->
  line_clean e -> line_clean (padded longest sep q).
Proof.
  intros Hne Hs Hc. destruct q as [it pr]. cbn [pair_list fst snd] in Hs.
  apply split_two_iff in Hs as (-> & _); [|exact Hne].
  apply Forall_app in Hc as [H1 Hc]. apply Forall_app in Hc as [H2 H3].
  unfold padded. cbn [fst snd].
  repeat apply line_clean_app; try assumption.
  apply Forall_replicate. split; discriminate.
Qed.

(** X12. Alignment does not change what the calculator reads: when every
    entry splits in two on the separator and holds no line break, the
    total of the file made of the aligned entries is the total of the file
    made of the entries as they were. *)
Theorem align_separator_keeps_total (self : Report) (seps : list str)
    (sep : str) (es : list str) :
  _get_separators (_item_fmt self) = Ok seps ->
  last seps = Some sep ->
  Forall (fun e => matching sep e = true) es ->
  Forall line_clean es ->
  exists aligned,
    _align_separator self es = Ok aligned
    /\ calculate_total self (Some (Py.join [Py.LF] aligned))
       = calculate_total self (Some (Py.join [Py.LF] es)).
Proof.
  intros Hseps Hlast Hes Hclean.
  destruct (align_separator_parts self seps sep es Hseps Hlast Hes)
    as (ps & longest & Hword & Hps & _ & Halign).
  exists (padded longest sep <$> ps). split; [exact Halign|].
  pose proof (get_separators_last _ _ _ Hseps Hlast) as ->.
  assert (Hclean' : Forall line_clean (padded longest sep <$> ps)).
  { apply Forall_fmap, Forall_forall. intros q Hq.
    destruct (proj1 (list_elem_of_lookup ps q) Hq) as [k Hk].
    destruct (Forall2_lookup_r _ _ _ _ _ Hps Hk) as (e & He & Hs).
    eapply line_clean_padded; [apply Hword|exact Hs|].
    rewrite Forall_forall in Hclean. eapply Hclean, list_elem_of_lookup_2, He. }
  unfold calculate_total. rewrite Hseps, !result_bind_ok.
  change (Py.join (lit " ") [sep]) with sep.
  rewrite !readlines_join, !total_loop_keepends by assumption.
  rewrite (total_loop_ext sep (padded longest sep <$> ps) es); [reflexivity|].
  apply Forall2_fmap_l, Forall2_flip.
  eapply Forall2_impl; [exact Hps|]. intros e q Hs. cbn [flip].
  destruct (line_price_padded sep longest e q Hword Hs) as (H1 & H2 & H3).
  split; [congruence|exact H3].
Qed.

Lemma align_separator_keeps_total_witness :
  _get_separators (_item_fmt default_engine) = Ok [lit "="]
  /\ last [lit "="] = Some (lit "=")
  /\ Forall (fun e => matching (lit "=") e = true)
       [lit "Gum = $1.00"; lit "Diapers = $12.50"]
  /\ Forall line_clean [lit "Gum = $1.00"; lit "Diapers = $12.50"]
  /\ exists aligned,
      _align_separator default_engine [lit "Gum = $1.00"; lit "Diapers = $12.50"]
      = Ok aligned
      /\ calculate_total default_engine (Some (Py.join [Py.LF] aligned))
         = calculate_total default_engine
             (Some (Py.join [Py.LF] [lit "Gum = $1.00"; lit "Diapers = $12.50"])).
Proof.
  assert (H1 : _get_separators (_item_fmt default_engine) = Ok [lit "="])
    by (vm_compute; reflexivity).
  assert (H2 : last [lit "="] = Some (lit "=")) by reflexivity.
  assert (H3 : Forall (fun e => matching (lit "=") e = true)
                 [lit "Gum = $1.00"; lit "Diapers = $12.50"])
    by (repeat constructor).
  assert (H4 : Forall line_clean [lit "Gum = $1.00"; lit "Diapers = $12.50"])
    by (repeat constructor; discriminate).
  split; [exact H1|]. split; [exact H2|]. split; [exact H3|]. split; [exact H4|].
  exact (align_separator_keeps_total default_engine [lit "="] (lit "=") _
           H1 H2 H3 H4).
Defined.

(** ** The fields handed to the template *)

Lemma insert_if_absent_keeps (b : bool) (m : gmap str str) (k0 v0 k v : str) :
  m !! k = Some v ->
  (if b && bool_decide (m !! k0 = None) then <[k0 := v0]> m else m) !! k = Some v.
Proof.
  intros Hk. destruct b; cbn [andb]; [|exact Hk].
  case_bool_decide as Hnone; [|exact Hk].
  destruct (decide (k0 = k)) as [->|Hne]; [congruence|].
  rewrite lookup_insert_ne by exact Hne. exact Hk.
Qed.

Lemma insert_if_absent_other (b : bool) (m : gmap str str) (k0 v0 k : str) :
  k ≠ k0 ->
  (if b && bool_decide (m !! k0 = None) then <[k0 := v0]> m else m) !! k = m !! k.
Proof.
  intros Hk. destruct (b && _); [|reflexivity].
  apply lookup_insert_ne. congruence.
Qed.

Lemma report_fields_outcome (self : Report) (now : str) (fmt : gmap str str)
    (st st' : rstate) (picks : list pick) (es es2 : list str) :
  repeat_rand (Z.to_nat (entries self)) (_random_item_and_price self) st
  = (Ok picks, st') ->
  comprehension (fun p => Py.format (_item_fmt self) (kwargs p)) picks = Ok es ->
  (if _auto_align self then _align_separator self es else Ok es) = Ok es2 ->
  exists fmt',
    report_fields self now fmt st
    = (Ok (Py.join [Py.LF] (_template self), fmt'), st')
    /\ fmt' !! lit "report" = Some (Py.join [Py.LF] es2)
    /\ (forall k v, k ≠ lit "report" -> fmt !! k = Some v -> fmt' !! k = Some v)
    /\ (forall k, k ≠ lit "report" -> k ≠ lit "name" -> k ≠ lit "datetime" ->
        fmt' !! k = fmt !! k).
Proof.
  intros Hgen Hes Halign. unfold report_fields.
  rewrite rand_bind_eq, Hgen. cbv beta iota delta [Ok].
  rewrite rand_bind_eq. unfold lift at 1. rewrite Hes. cbv beta iota delta [Ok].
  rewrite rand_bind_eq.
  assert (Hstep : (if _auto_align self then lift (_align_separator self es)
                   else mret es) st' = (Ok es2, st')).
  { destruct (_auto_align self); [unfold lift; rewrite Halign; reflexivity|].
    injection Halign as <-. reflexivity. }
  rewrite Hstep. cbv beta iota zeta delta [Ok].
  unfold mret at 1, rand_ret at 1.
  eexists. split; [reflexivity|]. split; [|split].
  - do 2 apply insert_if_absent_keeps. apply lookup_insert_eq.
  - intros k v Hk Hv. do 2 apply insert_if_absent_keeps.
    rewrite lookup_insert_ne by congruence. exact Hv.
  - intros k H1 H2 H3. rewrite !insert_if_absent_other by assumption.
    apply lookup_insert_ne. congruence.
Qed.


Lemma generate_report_fields_ext (self : Report) (file : option str)
    (now : str) (fmt1 fmt2 : gmap str str) (st : rstate) :
  (forall report, final_fields self now fmt1 report
                  = final_fields self now fmt2 report) ->
  generate_report self file now fmt1 st = generate_report self file now fmt2 st.
Proof.
  intros Heq. unfold generate_report, report_fields.
  rewrite !rand_bind_eq.
  destruct (repeat_rand _ _ st) as [[e|picks] st1]; [reflexivity|].
  rewrite !rand_bind_eq. unfold lift at 1 3.
  destruct (comprehension _ picks) as [e|es]; [reflexivity|].
  rewrite !rand_bind_eq.
  destruct ((if _auto_align self then lift (_align_separator self es)
             else mret es) st1) as [[e|es2] st2]; [reflexivity|].
  unfold mret, rand_ret.
  change (match Py.format (Py.join [Py.LF] (_template self))
                  (final_fields self now fmt1 (Py.join [Py.LF] es2)) with
          | inl e => (Raise e, Some [], st2)
          | inr text => (Ok tt, Some text, st2)
          end
          = match Py.format (Py.join [Py.LF] (_template self))
                    (final_fields self now fmt2 (Py.join [Py.LF] es2)) with
            | inl e => (Raise e, Some [], st2)
            | inr text => (Ok tt, Some text, st2)
            end).
  rewrite Heq. reflexivity.
Qed.

(** X13. A [report] field passed by the caller has no effect: the engine
    overwrites it with the entries it generated. *)
Theorem generate_report_overwrites_report_field (self : Report)
    (file : option str) (now : str) (fmt : gmap str str) (st : rstate)
    (x : str) :
  generate_report self file now (<[lit "report" := x]> fmt) st
  = generate_report self file now fmt st.
Proof.
  apply generate_report_fields_ext. intros report.
  unfold final_fields. rewrite insert_insert_eq. reflexivity.
Qed.

Lemma with_default_insert (mentioned : bool) (k v k' v' : str)
    (fmt : gmap str str) :
  k ≠ k' ->
  with_default mentioned k v (<[k' := v']> fmt)
  = <[k' := v']> (with_default mentioned k v fmt).
Proof.
  intros Hne. unfold with_default.
  rewrite lookup_insert_ne by congruence.
  destruct (mentioned && _); [|reflexivity].
  apply insert_insert_ne. exact Hne.
Qed.

Lemma with_default_absent (k v : str) (fmt : gmap str str) :
  fmt !! k = None -> with_default true k v fmt = <[k := v]> fmt.
Proof.
  intros H. unfold with_default. cbn [andb].
  rewrite bool_decide_eq_true_2 by exact H. reflexivity.
Qed.

Lemma with_default_present (mentioned : bool) (k v w : str)
    (fmt : gmap str str) :
  fmt !! k = Some w -> with_default mentioned k v fmt = fmt.
Proof.
  intros H. unfold with_default.
  rewrite bool_decide_eq_false_2 by congruence.
  rewrite andb_false_r. reflexivity.
Qed.

(** X14. Leaving out [name] or [datetime] when the skeleton mentions it is the
    same as passing its default: ["_DefaultName"] for the name, the
    current time for the date. *)
Theorem generate_report_default_fields (self : Report) (file : option str)
    (now : str) (fmt : gmap str str) (st : rstate) (k v : str) :
  (k, v) ∈ default_fields now ->
  Py.substring_in ("{"%char :: k ++ lit "}") (Py.join [Py.LF] (_template self))
  = true ->
  fmt !! k = None ->
  generate_report self file now fmt st
  = generate_report self file now (<[k := v]> fmt) st.
Proof.
  intros Hin Hsub Hnone.
  apply generate_report_fields_ext. intros report. unfold final_fields.
  cbv zeta.
  apply elem_of_cons in Hin as [[= -> ->]|Hin];
    [|apply elem_of_cons in Hin as [[= -> ->]|Hin]; [|inversion Hin]].
  - change ("{"%char :: lit "name" ++ lit "}") with (lit "{name}") in Hsub.
    rewrite Hsub. f_equal.
    rewrite with_default_absent
      by (rewrite lookup_insert_ne by discriminate; exact Hnone).
    rewrite (with_default_present _ _ _ (lit "_DefaultName"))
      by (rewrite lookup_insert_ne by discriminate; apply lookup_insert_eq).
    apply insert_insert_ne. discriminate.
  - change ("{"%char :: lit "datetime" ++ lit "}") with (lit "{datetime}") in Hsub.
    rewrite Hsub.
    rewrite (insert_insert_ne _ (lit "report") (lit "datetime")) by discriminate.
    rewrite (with_default_insert _ (lit "name") _ (lit "datetime")) by discriminate.
    rewrite (with_default_present true _ _ now (<[lit "datetime" := now]> _))
      by apply lookup_insert_eq.
    apply with_default_absent.
    unfold with_default. destruct (_ && _);
      rewrite ?lookup_insert_ne by discriminate; exact Hnone.
Qed.

Lemma generate_report_default_fields_witness :
  (lit "name", lit "_DefaultName") ∈ default_fields (lit "today")
  /\ Py.substring_in ("{"%char :: lit "name" ++ lit "}")
       (Py.join [Py.LF] (_template named_engine)) = true
  /\ (∅ : gmap str str) !! lit "name" = None
  /\ generate_report named_engine None (lit "today") ∅ counting_draws
     = generate_report named_engine None (lit "today")
         (<[lit "name" := lit "_DefaultName"]> ∅) counting_draws.
Proof.
  assert (H1 : (lit "name", lit "_DefaultName") ∈ default_fields (lit "today"))
    by apply list_elem_of_here.
  assert (H2 : Py.substring_in ("{"%char :: lit "name" ++ lit "}")
                 (Py.join [Py.LF] (_template named_engine)) = true)
    by (vm_compute; reflexivity).
  assert (H3 : (∅ : gmap str str) !! lit "name" = None) by apply lookup_empty.
  split; [exact H1|]. split; [exact H2|]. split; [exact H3|].
  exact (generate_report_default_fields named_engine None (lit "today") ∅
           counting_draws (lit "name") (lit "_DefaultName") H1 H2 H3).
Defined.









Example generate_report_missing_field_run :
  fst (generate_report author_engine (Some (lit "old")) [] ∅ counting_draws)
  = (Raise (KeyError (lit "author")), Some []).
Proof. vm_compute. reflexivity. Qed.


(** ** A report written with alignment on *)

Lemma drawn_entries (self : Report) (price_first : bool) (ws1 sep ws2 ws3 : str)
    (l1 l2 l3 : list str) (st : rstate) :
  _item_fmt self = simple_format price_first ws1 sep ws2 ws3 ->
  word sep -> brace_free sep -> Exists (fun c => price_char c = false) sep ->
  inline_blank ws1 -> ws1 ≠ [] -> inline_blank ws2 -> inline_blank ws3 ->
  inventory self = tiers l1 l2 l3 -> l1 ≠ [] -> l2 ≠ [] -> l3 ≠ [] ->
  Forall (clean_item sep price_first) (l1 ++ l2 ++ l3) ->
  exists picks st' es prices,
    repeat_rand (Z.to_nat (entries self)) (_random_item_and_price self) st
    = (Ok picks, st')
    /\ length picks = Z.to_nat (entries self)
    /\ comprehension (fun p => Py.format (_item_fmt self) (kwargs p)) picks
       = Ok es
    /\ Forall2 (fun p v => price_value (price p) = Ok v) picks prices
    /\ Forall2 (entry_of sep) es prices.
Proof.
  intros Hfmt Hsep Hbf Hex Hi1 Hn1 Hi2 Hi3 Hinv Hl1 Hl2 Hl3 Hitems.
  pose proof (inline_blank_blank _ Hi1) as Hb1.
  pose proof (inline_blank_blank _ Hi2) as Hb2.
  pose proof (inline_blank_blank _ Hi3) as Hb3.
  destruct (repeat_rand_ok (_random_item_and_price self)
              (fun p => item p ∈ l1 ++ l2 ++ l3 /\ synthesized (price p))
              (fun st0 => random_item_and_price_ok self l1 l2 l3 st0
                            Hinv Hl1 Hl2 Hl3)
              (Z.to_nat (entries self)) st)
    as (picks & st' & Hgen & Hpicks & Hlen).
  assert (Hgood : Forall (fun p => clean_item sep price_first (item p)
                                   /\ price_ok (price p) = true) picks).
  { eapply Forall_impl; [exact Hpicks|]. intros p [Hin Hsyn]. split.
    - rewrite Forall_forall in Hitems. apply Hitems, Hin.
    - apply synthesized_ok, Hsyn. }
  destruct (Forall_exists_Forall2 (fun p v => price_value (price p) = Ok v) picks)
    as [prices Hprices].
  { eapply Forall_impl; [exact Hgood|]. intros p [_ Hok].
    destruct (price_ok_facts _ Hok) as (_ & _ & _ & Hv). exact Hv. }
  exists picks, st', (render price_first ws1 sep ws2 ws3 <$> picks), prices.
  split; [exact Hgen|]. split; [exact Hlen|]. split; [|split; [exact Hprices|]].
  - apply comprehension_map, Forall_forall. intros p _. rewrite Hfmt.
    apply format_entry; assumption.
  - apply Forall2_fmap_l. clear - Hprices Hgood Hsep Hex Hb1 Hn1 Hb2 Hb3 Hi1 Hi2 Hi3.
    induction Hprices as [|p v picks prices Hv _ IH]; [constructor|].
    apply Forall_cons in Hgood as [[(Hf & Hc & Hd) Hok] Hgood].
    constructor; [|apply IH, Hgood].
    destruct (entry_line price_first sep ws1 ws2 ws3 p) as [Hm Hp]; try assumption.
    split; [exact Hm|]. split; [exact (eq_trans Hp Hv)|].
    apply render_clean; assumption.
Qed.

Lemma aligned_entries (self : Report) (sep : str) (es : list str)
    (prices : list Float.float) :
  _get_separators (_item_fmt self) = Ok [sep] ->
  Forall2 (entry_of sep) es prices ->
  exists aligned,
    _align_separator self es = Ok aligned
    /\ Forall2 (entry_of sep) aligned prices.
Proof.
  intros Hseps Hes.
  assert (Hmatch : Forall (fun e => matching sep e = true) es).
  { clear - Hes. induction Hes as [|e v es prices (H & _) _ IH];
      constructor; assumption. }
  destruct (align_separator_parts self [sep] sep es Hseps eq_refl Hmatch)
    as (ps & longest & Hword & Hps & _ & Halign).
  exists (padded longest sep <$> ps). split; [exact Halign|].
  apply Forall2_fmap_l. clear - Hword Hps Hes.
  revert prices Hes. induction Hps as [|e q es ps Hs _ IH]; intros prices Hes.
  - inversion Hes. constructor.
  - inversion Hes as [|e' v es' prices' (Hm & Hp & Hc) Hrest]; subst.
    constructor; [|apply IH, Hrest].
    destruct (line_price_padded sep longest e q Hword Hs) as (_ & H2 & H3).
    split; [exact H2|]. split; [rewrite H3; exact Hp|].
    eapply line_clean_padded; [apply Hword|exact Hs|exact Hc].
Qed.

Lemma join_report_lines (pre es post : list str) :
  Py.join [Py.LF] (pre ++ [Py.join [Py.LF] es] ++ post)
  = Py.join [Py.LF] (pre ++ match es with [] => [[]] | _ => es end ++ post).
Proof.
  rewrite !(join_middle [Py.LF] pre _ post) by (destruct es; discriminate).
  destruct es; reflexivity.
Qed.

Lemma report_text_total (self : Report) (sep : str) (pre es post : list str)
    (prices : list Float.float) :
  _get_separators (_item_fmt self) = Ok [sep] ->
  word sep ->
  Forall (other_line sep) (pre ++ post) ->
  Forall2 (entry_of sep) es prices ->
  calculate_total self
    (Some (Py.join [Py.LF] (pre ++ [Py.join [Py.LF] es] ++ post)))
  = Ok (format_total (float_sum Float.zero prices)).
Proof.
  intros Hseps Hsep Hother Hes.
  apply Forall_app in Hother as [Hpre Hpost].
  rewrite join_report_lines.
  set (es' := match es with [] => [[]] | _ => es end).
  assert (Hentries : Forall (fun e => matching sep e = true /\ line_clean e) es).
  { clear - Hes. induction Hes as [|e v es prices (H1 & _ & H2) _ IH];
      constructor; [split|]; assumption. }
  assert (Hclean : Forall line_clean (pre ++ es' ++ post)).
  { apply Forall_app. split.
    - eapply Forall_impl; [exact Hpre|]. intros l (H & _). exact H.
    - apply Forall_app. split.
      + unfold es'. destruct es as [|e0 es0]; [repeat constructor|].
        eapply Forall_impl; [exact Hentries|].
        intros l (_ & H). exact H.
      + eapply Forall_impl; [exact Hpost|]. intros l (H & _). exact H. }
  assert (Hfilter : List.filter (matching sep) (pre ++ es' ++ post) = es).
  { rewrite !List.filter_app.
    rewrite (filter_none (matching sep) pre), (filter_none (matching sep) post).
    - rewrite app_nil_r. simpl. unfold es'. destruct es as [|e0 es0].
      + simpl. rewrite matching_empty. reflexivity.
      + apply filter_all.
        eapply Forall_impl; [exact Hentries|]. intros l (H & _). exact H.
    - eapply Forall_impl; [exact Hpost|]. intros l (_ & H). exact H.
    - eapply Forall_impl; [exact Hpre|]. intros l (_ & H). exact H. }
  assert (Hread : comprehension (line_price sep) es = Ok prices).
  { apply comprehension_Forall2.
    eapply Forall2_impl; [exact Hes|]. intros e v (_ & H & _). exact H. }
  unfold calculate_total. rewrite Hseps, result_bind_ok.
  change (Py.join (lit " ") [sep]) with sep.
  rewrite (readlines_join _ Hclean).
  rewrite total_loop_keepends by exact Hsep.
  rewrite total_loop_sum, Hfilter, Hread. reflexivity.
Qed.

Lemma format_plain_template (kw : gmap str str) (pre post : list str)
    (report : str) :
  Forall brace_free (pre ++ post) ->
  kw !! lit "report" = Some report ->
  Py.format (Py.join [Py.LF] (pre ++ [lit "{report}"] ++ post)) kw
  = Ok (Py.join [Py.LF] (pre ++ [report] ++ post)).
Proof.
  intros Hbf Hkw. apply Forall_app in Hbf as [Hpre Hpost].
  rewrite !(join_middle [Py.LF] pre _ post) by discriminate.
  apply format_around_report; [| |exact Hkw].
  - apply brace_free_lines; [|exact Hpre].
    intros l Hl. apply Forall_app. split; [exact Hl|apply brace_free_LF].
  - apply brace_free_lines; [|exact Hpost].
    intros l Hl. apply Forall_app. split; [apply brace_free_LF|exact Hl].
Qed.




(** ** The constructor *)

Lemma init_inventory (dinv : gmap str (list str)) (dtmpl : str)
    (inv : gmap str (list str)) (n : Z) :
  let d := source_inventory dinv inv in
  inventory (fst (__init__ dinv dtmpl inv n))
  = tiers (tier_of d (lit "$")) (tier_of d (lit "$$")) (tier_of d (lit "$$$")).
Proof.
  unfold __init__, dict_pop, source_inventory, tier_of, tiers.
  cbn [fst inventory]. rewrite !lookup_delete_ne by discriminate.
  reflexivity.
Qed.


(** X17. An engine built from any dictionary draws from the lists found under
    the three keys, or from the one-item stand-ins of the keys that are
    missing: when none of the three lists is empty, a draw succeeds and
    its item is one of theirs. The dictionary is the argument when it is
    not empty, the default inventory file otherwise. *)
Theorem init_then_random_item (dinv : gmap str (list str)) (dtmpl : str)
    (inv : gmap str (list str)) (n : Z) (st : rstate) :
  let d := source_inventory dinv inv in
  Forall (fun key => d !! key ≠ Some []) [lit "$"; lit "$$"; lit "$$$"] ->
  exists p st',
    _random_item_and_price (fst (__init__ dinv dtmpl inv n)) st = (Ok p, st')
    /\ item p ∈ tier_of d (lit "$") ++ tier_of d (lit "$$") ++ tier_of d (lit "$$$")
    /\ synthesized (price p).
Proof.
  intros d Hd.
  assert (Hne : forall key, d !! key ≠ Some [] -> tier_of d key ≠ []).
  { intros key Hkey. unfold tier_of. destruct (d !! key) as [l|]; simpl.
    - intros ->. apply Hkey. reflexivity.
    - discriminate. }
  apply Forall_cons in Hd as [H1 Hd]. apply Forall_cons in Hd as [H2 Hd].
  apply Forall_cons in Hd as [H3 _].
  apply random_item_and_price_ok; [apply init_inventory|..]; apply Hne;
    assumption.
Qed.

Lemma init_then_random_item_witness :
  let inv : gmap str (list str) := {[ lit "$$" := [lit "Milk"] ]} in
  Forall (fun key => source_inventory ∅ inv !! key ≠ Some [])
    [lit "$"; lit "$$"; lit "$$$"]
  /\ exists p st',
      _random_item_and_price (fst (__init__ ∅ [] inv 5)) counting_draws
      = (Ok p, st')
      /\ item p ∈ tier_of (source_inventory ∅ inv) (lit "$")
                  ++ tier_of (source_inventory ∅ inv) (lit "$$")
                  ++ tier_of (source_inventory ∅ inv) (lit "$$$")
      /\ synthesized (price p).
Proof.
  intros inv.
  assert (H : Forall (fun key => source_inventory ∅ inv !! key ≠ Some [])
                [lit "$"; lit "$$"; lit "$$$"]).
  { repeat constructor; vm_compute; discriminate. }
  split; [exact H|].
  exact (init_then_random_item ∅ [] inv 5 counting_draws H).
Defined.

Lemma universal_newlines_no_CR (s : str) :
  Forall (fun c => c ≠ Py.CR) (Py.universal_newlines s).
Proof.
  enough (H : Forall (fun c => c ≠ Py.CR) (Py.universal_newlines s)
              /\ forall c, Forall (fun c => c ≠ Py.CR)
                             (Py.universal_newlines (c :: s)))
    by apply H.
  induction s as [|a s [IH1 IH2]].
  - split; [constructor|]. intros c. simpl.
    destruct (Ascii.eqb c Py.CR) eqn:Hc.
    + repeat constructor. discriminate.
    + apply Ascii.eqb_neq in Hc. repeat constructor. exact Hc.
  - split; [apply IH2|]. intros c.
    cbn [Py.universal_newlines].
    destruct (Ascii.eqb c Py.CR) eqn:Hc.
    + destruct (Ascii.eqb a Py.LF).
      * constructor; [discriminate|exact IH1].
      * constructor; [discriminate|apply IH2].
    + apply Ascii.eqb_neq in Hc. constructor; [exact Hc|apply IH2].
Qed.

Lemma lines_go_clean (cur s : str) :
  Forall (fun c => c ≠ Py.CR) s ->
  line_clean cur ->
  Forall (fun l => exists body, line_clean body
                                /\ (l = body \/ l = body ++ [Py.LF]))
    (Py.lines_go cur s).
Proof.
  intros Hs. revert cur. induction Hs as [|c s Hc _ IH]; intros cur Hcur.
  - simpl. destruct cur as [|x cur']; [constructor|].
    repeat constructor. exists (rev (x :: cur')).
    split; [apply Forall_rev, Hcur|left; reflexivity].
  - cbn [Py.lines_go]. destruct (Ascii.eqb c Py.LF) eqn:Hlf.
    + apply Ascii.eqb_eq in Hlf as ->. constructor; [|apply IH; constructor].
      exists (rev cur). split; [apply Forall_rev, Hcur|right; reflexivity].
    + apply Ascii.eqb_neq in Hlf. apply IH. constructor; [split|]; assumption.
Qed.

Lemma drop_while_Forall {A} (p : A -> bool) (P : A -> Prop) (l : list A) :
  Forall P l -> Forall P (Py.drop_while p l).
Proof.
  induction 1 as [|x l Hx Hl IH]; simpl; [constructor|].
  destruct (p x); [exact IH|constructor; assumption].
Qed.

Lemma strip_with_Forall (p : ascii -> bool) (P : ascii -> Prop) (s : str) :
  Forall P s -> Forall P (Py.strip_with p s).
Proof.
  intros H. unfold Py.strip_with.
  apply Forall_rev, drop_while_Forall, Forall_rev, drop_while_Forall, H.
Qed.

Lemma drop_while_idem {A} (p : A -> bool) (l : list A) :
  Py.drop_while p (Py.drop_while p l) = Py.drop_while p l.
Proof.
  destruct (Py.drop_while p l) as [|x l'] eqn:Hd; [reflexivity|].
  apply drop_while_stop. eapply drop_while_head, Hd.
Qed.

Lemma strip_with_idem (p : ascii -> bool) (s : str) :
  Py.strip_with p (Py.strip_with p s) = Py.strip_with p s.
Proof.
  unfold Py.strip_with.
  set (s1 := Py.drop_while p s).
  set (r := Py.drop_while p (rev s1)).
  assert (Hfront : Py.drop_while p (rev r) = rev r).
  { destruct (rev r) as [|x t] eqn:Hr; [reflexivity|].
    apply drop_while_stop.
    pose proof (take_drop_while p (rev s1)) as Hsplit. fold r in Hsplit.
    apply (f_equal (@rev ascii)) in Hsplit.
    rewrite rev_app_distr, rev_involutive, Hr in Hsplit.
    eapply (drop_while_head p s). fold s1. rewrite <- Hsplit. reflexivity. }
  rewrite Hfront, rev_involutive. unfold r. rewrite drop_while_idem.
  reflexivity.
Qed.

(** X18. Whatever the default template file holds, the lines of a new engine's
    template are stripped and hold no line break: stripping them again
    changes nothing, and the skeleton they give when joined with newlines
    reads back as these lines. *)
Theorem init_template_lines (dinv : gmap str (list str)) (dtmpl : str)
    (inv : gmap str (list str)) (n : Z) :
  let template := _template (fst (__init__ dinv dtmpl inv n)) in
  Forall (fun l => line_clean l /\ Py.strip l = l) template
  /\ Py.readlines (Py.join [Py.LF] template) = keepends template.
Proof.
  intros template.
  assert (H : Forall (fun l => line_clean l /\ Py.strip l = l) template).
  { unfold template, __init__, dict_pop. cbn [fst _template].
    rewrite Forall_forall. intros l Hl.
    apply list_elem_of_In, in_map_iff in Hl as (l0 & <- & Hl0).
    split; [|apply strip_with_idem].
    pose proof (lines_go_clean [] (Py.universal_newlines dtmpl)
                  (universal_newlines_no_CR dtmpl) (List.Forall_nil _)) as Hlines.
    rewrite Forall_forall in Hlines.
    destruct (Hlines l0) as (body & Hbody & [->| ->]).
    - apply list_elem_of_In. exact Hl0.
    - apply strip_with_Forall, Hbody.
    - unfold Py.strip. rewrite strip_with_app by (repeat constructor).
      apply strip_with_Forall, Hbody. }
  split; [exact H|].
  apply readlines_join. eapply Forall_impl; [exact H|].
  intros l [Hl _]. exact Hl.
Qed.


(** ** The driver *)

Lemma plain_name_name : plain_name (lit "name").
Proof.
  split; [eexists _, _; split; [reflexivity|discriminate]|].
  split; [reflexivity|]. split; [reflexivity|].
  repeat constructor; discriminate.
Qed.

Lemma plain_name_datetime : plain_name (lit "datetime").
Proof.
  split; [eexists _, _; split; [reflexivity|discriminate]|].
  split; [reflexivity|]. split; [reflexivity|].
  repeat constructor; discriminate.
Qed.

Lemma format_example_template (kw : gmap str str) (name report datetime : str) :
  kw !! lit "name" = Some name ->
  kw !! lit "report" = Some report ->
  kw !! lit "datetime" = Some datetime ->
  Py.format
    (Py.join [Py.LF]
       [lit "EXPENSE REPORT"; lit "--------------"; lit "NAME: {name}";
        lit "=============="; lit "{report}"; lit "--------------";
        lit "GENERATED ON: {datetime}"]) kw
  = Ok (Py.join [Py.LF]
          ([lit "EXPENSE REPORT"; lit "--------------"; lit "NAME: " ++ name;
            lit "=============="]
           ++ [report]
           ++ [lit "--------------"; lit "GENERATED ON: " ++ datetime])).
Proof.
  intros Hname Hreport Hdatetime.
  set (a1 := lit "EXPENSE REPORT" ++ [Py.LF] ++ lit "--------------" ++ [Py.LF]
             ++ lit "NAME: ").
  set (a2 := [Py.LF] ++ lit "==============" ++ [Py.LF]).
  set (a3 := [Py.LF] ++ lit "--------------" ++ [Py.LF] ++ lit "GENERATED ON: ").
  change (Py.join [Py.LF] _)
    with (a1 ++ ("{"%char :: lit "name" ++ "}"%char ::
                 a2 ++ lit "{report}" ++
                 a3 ++ ("{"%char :: lit "datetime" ++ "}"%char :: []))) at 1.
  assert (H1 : brace_free a1) by (repeat constructor; discriminate).
  assert (H2 : brace_free a2) by (repeat constructor; discriminate).
  assert (H3 : brace_free a3) by (repeat constructor; discriminate).
  unfold Py.format.
  rewrite (format_go_literal _ _ _ H1).
  rewrite (format_go_placeholder _ _ _ _ plain_name_name Hname).
  rewrite (format_go_literal _ _ _ H2).
  rewrite (format_go_report _ _ _ Hreport).
  rewrite (format_go_literal _ _ _ H3).
  rewrite (format_go_placeholder _ _ _ _ plain_name_datetime Hdatetime).
  cbn [Py.format_go]. rewrite !result_bind_ok. f_equal.
  rewrite (join_middle [Py.LF] _ [report] _) by discriminate.
  unfold a1, a2, a3. cbn [fmap list_fmap concat Py.join].
  rewrite <- !app_assoc, !app_nil_r. reflexivity.
Qed.

(** X19. The driver prints the total of the fifty prices it drew. Provided the
    three lists of the default inventory file (or their stand-ins) are not
    empty and their items hold neither the separator ["="] nor a line
    break, and the date neither holds a line break nor makes the last line
    split in two on ["="]: whatever the default template file, the
    previous content of the output file and the later clock, the run
    draws fifty entries, writes the report and prints the formatted
    binary64 sum, rounded to two decimals, of their prices. *)
Theorem example_prints_total (dinv : gmap str (list str)) (dtmpl : str)
    (now later : str) (file : option str) (st : rstate) :
  let l1 := tier_of dinv (lit "$") in
  let l2 := tier_of dinv (lit "$$") in
  let l3 := tier_of dinv (lit "$$$") in
  l1 ≠ [] -> l2 ≠ [] -> l3 ≠ [] ->
  Forall (clean_item (lit "=") true) (l1 ++ l2 ++ l3) ->
  other_line (lit "=") (lit "GENERATED ON: " ++ now) ->
  exists picks st' text prices,
    repeat_rand 50 (_random_item_and_price (fst (__init__ dinv dtmpl ∅ 50))) st
    = (Ok picks, st')
    /\ length picks = 50
    /\ Forall (fun p => item p ∈ l1 ++ l2 ++ l3) picks
    /\ Forall2 (fun p v => price_value (price p) = Ok v) picks prices
    /\ example dinv dtmpl now later file st
       = (Ok (format_total (float_sum Float.zero prices)), Some text, st').
Proof.
  intros l1 l2 l3 Hl1 Hl2 Hl3 Hitems Hnow.
  set (self0 := fst (__init__ dinv dtmpl ∅ 50)).
  set (self := auto_align_setter
                 (item_fmt_setter
                    (template_setter self0
                       [lit "EXPENSE REPORT"; lit "--------------";
                        lit "NAME: {name}"; lit "=============="; lit "{report}";
                        lit "--------------"; lit "GENERATED ON: {datetime}"])
                    (lit "{price} = {item}")) true).
  assert (Hrun :
            example dinv dtmpl now later file st
            = match generate_report self file later
                      (<[lit "name" := lit "Nicolas"]>
                         (<[lit "datetime" := now]> ∅)) st with
              | (inl e, file', st') => (Raise e, file', st')
              | (inr _, file', st') => (calculate_total self file', file', st')
              end).
  { unfold example, self, self0.
    destruct (__init__ dinv dtmpl ∅ 50) as [r d]. reflexivity. }
  assert (Hinv : inventory self = tiers l1 l2 l3).
  { exact (init_inventory dinv dtmpl ∅ 50). }
  assert (Hb : inline_blank (lit " ")).
  { repeat constructor; discriminate. }
  assert (Hw : word (lit "=")).
  { split; [discriminate|repeat constructor]. }
  assert (Hseps : _get_separators (_item_fmt self) = Ok [lit "="])
    by (vm_compute; reflexivity).
  destruct (drawn_entries self true (lit " ") (lit "=") (lit " ") []
              l1 l2 l3 st)
    as (picks & st' & es & prices & Hgen & Hlen & Hes & Hprices & Hentries);
    try assumption; try reflexivity; try discriminate.
  { repeat constructor; discriminate. }
  { apply Exists_cons_hd. reflexivity. }
  { constructor. }
  destruct (aligned_entries self (lit "=") es prices Hseps Hentries)
    as (aligned & Haligned & Hfacts).
  destruct (report_fields_outcome self later
              (<[lit "name" := lit "Nicolas"]> (<[lit "datetime" := now]> ∅))
              st st' picks es aligned Hgen Hes Haligned)
    as (fmt' & Hfields & Hreport & Hkeep & _).
  assert (Hname : fmt' !! lit "name" = Some (lit "Nicolas")).
  { apply Hkeep; [discriminate|apply lookup_insert_eq]. }
  assert (Hdate : fmt' !! lit "datetime" = Some now).
  { apply Hkeep; [discriminate|].
    rewrite lookup_insert_ne by discriminate. apply lookup_insert_eq. }
  set (pre := [lit "EXPENSE REPORT"; lit "--------------";
               lit "NAME: " ++ lit "Nicolas"; lit "=============="]).
  set (post := [lit "--------------"; lit "GENERATED ON: " ++ now]).
  set (text := Py.join [Py.LF] (pre ++ [Py.join [Py.LF] aligned] ++ post)).
  assert (Hwrite : generate_report self file later
                     (<[lit "name" := lit "Nicolas"]>
                        (<[lit "datetime" := now]> ∅)) st
                   = (Ok tt, Some text, st')).
  { unfold generate_report. rewrite Hfields. cbv beta iota delta [Ok].
    change (_template self)
      with [lit "EXPENSE REPORT"; lit "--------------"; lit "NAME: {name}";
            lit "=============="; lit "{report}"; lit "--------------";
            lit "GENERATED ON: {datetime}"].
    rewrite (format_example_template fmt' _ _ _ Hname Hreport Hdate).
    reflexivity. }
  assert (Htotal : calculate_total self (Some text)
                   = Ok (format_total (float_sum Float.zero prices))).
  { apply (report_text_total self (lit "=")); try assumption.
    apply Forall_app. split.
    - repeat constructor; discriminate.
    - constructor; [|constructor; [exact Hnow|constructor]].
      split; [repeat constructor; discriminate|reflexivity]. }
  exists picks, st', text, prices.
  split; [exact Hgen|]. split; [exact Hlen|]. split; [|split; [exact Hprices|]].
  - destruct (repeat_rand_ok (_random_item_and_price self)
                (fun p => item p ∈ l1 ++ l2 ++ l3 /\ synthesized (price p))
                (fun st0 => random_item_and_price_ok self l1 l2 l3 st0
                              Hinv Hl1 Hl2 Hl3) 50 st)
      as (picks' & st'' & Hgen' & Hpicks & _).
    change (Z.to_nat (entries self)) with 50 in Hgen.
    rewrite Hgen in Hgen'. injection Hgen' as <- <-.
    eapply Forall_impl; [exact Hpicks|]. intros p [H _]. exact H.
  - rewrite Hrun, Hwrite. cbv beta iota delta [Ok]. rewrite Htotal.
    reflexivity.
Qed.

Lemma example_prints_total_witness :
  tier_of ∅ (lit "$") ≠ [] /\ tier_of ∅ (lit "$$") ≠ []
  /\ tier_of ∅ (lit "$$$") ≠ []
  /\ Forall (clean_item (lit "=") true)
       (tier_of ∅ (lit "$") ++ tier_of ∅ (lit "$$") ++ tier_of ∅ (lit "$$$"))
  /\ other_line (lit "=") (lit "GENERATED ON: " ++ lit "2021-03-01 10:20:30.5")
  /\ exists picks st' text prices,
      length picks = 50
      /\ Forall2 (fun p v => price_value (price p) = Ok v) picks prices
      /\ example ∅ [] (lit "2021-03-01 10:20:30.5") [] None counting_draws
         = (Ok (format_total (float_sum Float.zero prices)), Some text, st').
Proof.
  assert (H1 : tier_of ∅ (lit "$") ≠ []) by discriminate.
  assert (H2 : tier_of ∅ (lit "$$") ≠ []) by discriminate.
  assert (H3 : tier_of ∅ (lit "$$$") ≠ []) by discriminate.
  assert (H4 : Forall (clean_item (lit "=") true)
                 (tier_of ∅ (lit "$") ++ tier_of ∅ (lit "$$")
                  ++ tier_of ∅ (lit "$$$"))).
  { repeat constructor; discriminate. }
  assert (H5 : other_line (lit "=")
                 (lit "GENERATED ON: " ++ lit "2021-03-01 10:20:30.5")).
  { split; [repeat constructor; discriminate|reflexivity]. }
  split; [exact H1|]. split; [exact H2|]. split; [exact H3|].
  split; [exact H4|]. split; [exact H5|].
  destruct (example_prints_total ∅ [] (lit "2021-03-01 10:20:30.5") [] None
              counting_draws H1 H2 H3 H4 H5)
    as (picks & st' & text & prices & _ & Hlen & _ & Hprices & Hrun).
  exists picks, st', text, prices.
  split; [exact Hlen|]. split; [exact Hprices|exact Hrun].
Defined.


(** ** An item that looks like a price *)

(** X20. In an item-first entry whose item starts with a dollar sign, the
    calculator takes the item for the price: the two parts are swapped,
    and the total of the one-line file is the number read from the item
    name, or the [ValueError] of [float] when it is not a number. The
    price of the entry is not read at all. *)
Theorem entry_with_dollar_item (self : Report) (sep ws1 ws2 ws3 it pr : str) :
  _get_separators (_item_fmt self) = Ok [sep] ->
  Exists (fun c => price_char c = false) sep ->
  inline_blank ws1 -> ws1 ≠ [] -> inline_blank ws2 -> inline_blank ws3 ->
  Py.find sep it = None -> line_clean it ->
  Py.startswith it (lit "$") = true ->
  price_ok pr = true ->
  let line := it ++ ws1 ++ sep ++ ws2 ++ pr ++ ws3 in
  parse_line sep line = Ok (ws2 ++ pr ++ ws3, it ++ ws1)
  /\ calculate_total self (Some line)
     = (v ← Float.of_str (Py.strip_chars (lit "$") (Py.strip it));
        Ok (format_total (Float.add Float.zero v))).
Proof.
  intros Hseps Hex Hi1 Hn1 Hi2 Hi3 Hfind Hclean Hdollar Hok line.
  assert (Hsep : word sep).
  { pose proof (get_separators_words _ _ Hseps) as Hw.
    apply Forall_cons in Hw as [Hw _]. exact Hw. }
  destruct (price_ok_facts _ Hok) as ([Hpne Hpw] & Hchars & _ & _).
  pose proof (inline_blank_blank _ Hi1) as Hb1.
  pose proof (inline_blank_blank _ Hi2) as Hb2.
  pose proof (inline_blank_blank _ Hi3) as Hb3.
  assert (Hsplit : Py.split line sep = Ok [it ++ ws1; ws2 ++ pr ++ ws3]).
  { apply split_entry; try assumption. apply find_in_price; assumption. }
  assert (Hparse : parse_line sep line = Ok (ws2 ++ pr ++ ws3, it ++ ws1)).
  { unfold parse_line. rewrite Hsplit, result_bind_ok. cbn [unpack2].
    rewrite result_bind_ok, (startswith_app_l _ ws1 _ Hdollar). reflexivity. }
  split; [exact Hparse|].
  assert (Hline : Forall line_clean [line]).
  { constructor; [|constructor]. unfold line. destruct Hsep as [_ Hsw].
    repeat apply line_clean_app;
      auto using inline_blank_clean, wordlike_clean. }
  unfold calculate_total. rewrite Hseps, result_bind_ok.
  change (Py.join (lit " ") [sep]) with sep.
  change line with (Py.join [Py.LF] [line]) at 1.
  rewrite (readlines_join _ Hline), total_loop_keepends by exact Hsep.
  rewrite total_loop_counts by (unfold matching; rewrite Hsplit; reflexivity).
  unfold line_price. rewrite Hparse, result_bind_ok.
  unfold Py.strip at 1. rewrite strip_with_app by exact Hb1.
  fold (Py.strip it).
  destruct (Float.of_str (Py.strip_chars (lit "$") (Py.strip it))) as [e|v];
    reflexivity.
Qed.

Lemma entry_with_dollar_item_witness :
  _get_separators (_item_fmt default_engine) = Ok [lit "="]
  /\ Py.find (lit "=") (lit "$pecial") = None
  /\ Py.startswith (lit "$pecial") (lit "$") = true
  /\ price_ok (lit "$1.00") = true
  /\ parse_line (lit "=") (lit "$pecial = $1.00") = Ok (lit " $1.00", lit "$pecial ")
  /\ calculate_total default_engine (Some (lit "$pecial = $1.00"))
     = Raise ValueError.
Proof.
  assert (H1 : _get_separators (_item_fmt default_engine) = Ok [lit "="])
    by (vm_compute; reflexivity).
  assert (H2 : Py.find (lit "=") (lit "$pecial") = None) by reflexivity.
  assert (H3 : Py.startswith (lit "$pecial") (lit "$") = true) by reflexivity.
  assert (H4 : price_ok (lit "$1.00") = true) by (vm_compute; reflexivity).
  assert (Hb : inline_blank (lit " ")).
  { repeat constructor; discriminate. }
  split; [exact H1|]. split; [exact H2|]. split; [exact H3|]. split; [exact H4|].
  destruct (entry_with_dollar_item default_engine (lit "=") (lit " ") (lit " ")
              [] (lit "$pecial") (lit "$1.00") H1) as [Hp Ht]; try assumption.
  - apply Exists_cons_hd. reflexivity.
  - discriminate.
  - constructor.
  - repeat constructor; discriminate.
  - split; [exact Hp|]. etransitivity; [exact Ht|]. vm_compute. reflexivity.
Defined.


(** ** A report without entries *)

(** X21. With a number of entries that is zero or negative nothing is drawn:
    the generator state is unchanged and the file holds the skeleton with
    an empty line in place of the report. With [auto_align] on this
    requires that a separator can be inferred, as the aligner infers it
    before it looks at the entries. *)
Theorem generate_report_no_entries (self : Report) (pre post : list str)
    (file : option str) (now : str) (fmt : gmap str str) (st : rstate) :
  (entries self <= 0)%Z ->
  (_auto_align self = true ->
   exists seps sep, _get_separators (_item_fmt self) = Ok seps
                    /\ last seps = Some sep) ->
  _template self = pre ++ [lit "{report}"] ++ post ->
  Forall brace_free (pre ++ post) ->
  generate_report self file now fmt st
  = (Ok tt, Some (Py.join [Py.LF] (pre ++ [[]] ++ post)), st).
Proof.
  intros Hn Halign Htmpl Hbf.
  assert (Hgen : repeat_rand (Z.to_nat (entries self))
                   (_random_item_and_price self) st = (Ok [], st)).
  { replace (Z.to_nat (entries self)) with 0 by lia. reflexivity. }
  assert (Hes2 : (if _auto_align self then _align_separator self []
                  else Ok []) = Ok []).
  { destruct (_auto_align self); [|reflexivity].
    destruct (Halign eq_refl) as (seps & sep & Hseps & Hlast).
    unfold _align_separator, last_item.
    rewrite Hseps, result_bind_ok, Hlast. reflexivity. }
  destruct (report_fields_outcome self now fmt st st [] [] [] Hgen eq_refl Hes2)
    as (fmt' & Hfields & Hreport & _).
  unfold generate_report. rewrite Hfields. cbv beta iota delta [Ok].
  rewrite Htmpl, (format_plain_template fmt' pre post [] Hbf Hreport).
  reflexivity.
Qed.

Lemma generate_report_no_entries_witness :
  (entries no_entries_engine <= 0)%Z
  /\ _get_separators (_item_fmt no_entries_engine) = Ok [lit "="]
  /\ Forall brace_free ([lit "EXPENSE REPORT"] ++ [lit "--------------"])
  /\ generate_report no_entries_engine None [] ∅ counting_draws
     = (Ok tt,
        Some (Py.join [Py.LF]
                ([lit "EXPENSE REPORT"] ++ [[]] ++ [lit "--------------"])),
        counting_draws).
Proof.
  assert (H1 : (entries no_entries_engine <= 0)%Z) by (vm_compute; discriminate).
  assert (H2 : _get_separators (_item_fmt no_entries_engine) = Ok [lit "="])
    by (vm_compute; reflexivity).
  assert (H3 : Forall brace_free ([lit "EXPENSE REPORT"] ++ [lit "--------------"])).
  { repeat constructor; discriminate. }
  split; [exact H1|]. split; [exact H2|]. split; [exact H3|].
  apply (generate_report_no_entries no_entries_engine [lit "EXPENSE REPORT"]
           [lit "--------------"] None [] ∅ counting_draws H1).
  - intros _. exists [lit "="], (lit "="). split; [exact H2|reflexivity].
  - reflexivity.
  - exact H3.
Defined.
